(** * muselsl/stream.py: discovery, sample routing and the streaming session

    A shallow embedding of [muselsl/stream.py].  The Python functions are
    written as programs in a small monad [Prog] that records the calls made
    on the external collaborators (the BLE adapter, the bluetoothctl tool,
    the LSL outlets, the Muse session, the console) as a chronological list
    of events, and that propagates Python exceptions.

    The collaborators themselves are not part of this file of the
    repository; what they answer is a parameter of the model (records
    [Constants], [Host], [Session] and the outlet behaviours).

    Conventions:
    - the clock readings the supervisor loop subtracts and compares
      ([time_func()], [muse.last_timestamp], AUTO_DISCONNECT_DELAY) are
      binary64 floats, with the subtraction and the comparison of IEEE 754
      ([PrimFloat.sub], [PrimFloat.ltb]);
    - sample values, the timestamps handed to the outlets and the durations
      handed to sleep and scan calls are only passed along, never computed
      with; they are modelled as rationals [Q];
    - Python [str] is modelled as [string], characters being code points
      below 256;
    - a call on a collaborator returns unless the model gives it a way to
      fail: the adapter and the subprocesses through [Host], a push through
      the outlet, [muse.stop()] and [muse.disconnect()] through [Session];
      the [Muse] and [StreamOutlet] constructors, [connect] and [start] are
      taken to return;
    - the [log_level] argument only configures logging and is left out. *)

From Stdlib Require Import PrimFloat List String Ascii Bool Arith Lia QArith.
Import ListNotations.

Local Open Scope string_scope.
Local Open Scope list_scope.
Local Open Scope nat_scope.

(* ================================================================== *)
(** ** Python values used by the module *)

Module Py.

(** The exception classes the module distinguishes.  All of them but
    [KeyboardInterrupt] are subclasses of [Exception]. *)
Inductive PyExc : Type :=
| BLEError            (* pygatt.exceptions.BLEError *)
| TypeError
| UnboundLocalError
| TimeoutExpired      (* subprocess.TimeoutExpired *)
| OtherError          (* any other subclass of Exception *)
| KeyboardInterrupt.

Definition is_Exception (e : PyExc) : bool :=
  match e with
  | KeyboardInterrupt => false
  | _ => true
  end.

Definition is_BLEError (e : PyExc) : bool :=
  match e with
  | BLEError => true
  | _ => false
  end.

Definition is_TimeoutExpired (e : PyExc) : bool :=
  match e with
  | TimeoutExpired => true
  | _ => false
  end.

Definition is_KeyboardInterrupt (e : PyExc) : bool :=
  match e with
  | KeyboardInterrupt => true
  | _ => false
  end.

(** Truth value of an optional string: [None] and [''] are falsy. *)
Definition truthy (s : option string) : bool :=
  match s with
  | None => false
  | Some EmptyString => false
  | Some _ => true
  end.

(** [str(x)] for an optional string. *)
Definition str (s : option string) : string :=
  match s with
  | None => "None"
  | Some x => x
  end.

Definition opt_string_eqb (a b : option string) : bool :=
  match a, b with
  | Some x, Some y => String.eqb x y
  | None, None => true
  | _, _ => false
  end.

End Py.
Export Py.

(* ================================================================== *)
(** ** Text: substring test and the two regular expressions *)

Module Text.

Fixpoint starts_with (p s : string) : bool :=
  match p, s with
  | EmptyString, _ => true
  | String a p', String b s' => Ascii.eqb a b && starts_with p' s'
  | String _ _, EmptyString => false
  end.

(** [p in s] *)
Fixpoint contains (p s : string) : bool :=
  starts_with p s
  || match s with
     | EmptyString => false
     | String _ s' => contains p s'
     end.

Definition newline : ascii := ascii_of_nat 10.

(** [s.split('\n')] *)
Fixpoint split_lines (s : string) : list string :=
  match s with
  | EmptyString => [EmptyString]
  | String c s' =>
      if Ascii.eqb c newline then EmptyString :: split_lines s'
      else match split_lines s' with
           | l :: ls => String c l :: ls
           | [] => [String c EmptyString]
           end
  end.

(** [\s] on code points below 256: TAB..CR, FS..US, space, NEL, NBSP. *)
Definition is_space (c : ascii) : bool :=
  let n := nat_of_ascii c in
  ((9 <=? n) && (n <=? 13)) || ((28 <=? n) && (n <=? 32))
  || (n =? 133) || (n =? 160).

(** The longest prefix without white space: what [[^\s]*] consumes. *)
Fixpoint non_space_run (s : string) : string :=
  match s with
  | EmptyString => EmptyString
  | String c s' => if is_space c then EmptyString else String c (non_space_run s')
  end.

Fixpoint drop (n : nat) (s : string) : string :=
  match n, s with
  | O, _ => s
  | S n', String _ s' => drop n' s'
  | S _, EmptyString => EmptyString
  end.

Fixpoint take (n : nat) (s : string) : string :=
  match n, s with
  | O, _ => EmptyString
  | S n', String c s' => String c (take n' s')
  | S _, EmptyString => EmptyString
  end.

(** [re.search(r'Muse[^\s]*', line)], as [group(0)] of the match. *)
Fixpoint search_name (line : string) : option string :=
  if starts_with "Muse" line
  then Some (String.append "Muse" (non_space_run (drop 4 line)))
  else match line with
       | EmptyString => None
       | String _ rest => search_name rest
       end.

(** [[0-9A-F]] under [re.IGNORECASE]. *)
Definition is_hex (c : ascii) : bool :=
  let n := nat_of_ascii c in
  ((48 <=? n) && (n <=? 57)) || ((65 <=? n) && (n <=? 70))
  || ((97 <=? n) && (n <=? 102)).

(** [[:-]] *)
Definition is_sep (c : ascii) : bool :=
  let n := nat_of_ascii c in (n =? 58) || (n =? 45).

(** [[0-9A-F]{2}] at the head of [s]; the rest of [s] when it matches. *)
Definition hex_pair (s : string) : option string :=
  match s with
  | String a (String b rest) => if is_hex a && is_hex b then Some rest else None
  | _ => None
  end.

(** [([0-9A-F]{2}[:-]){n}] at the head of [s]. *)
Fixpoint hex_groups (n : nat) (s : string) : option string :=
  match n with
  | O => Some s
  | S n' =>
      match hex_pair s with
      | Some (String c rest) => if is_sep c then hex_groups n' rest else None
      | _ => None
      end
  end.

(** The whole address pattern anchored at the head of [s]. *)
Definition mac_here (s : string) : bool :=
  match hex_groups 5 s with
  | Some rest => match hex_pair rest with Some _ => true | None => false end
  | None => false
  end.

(** [re.search(r'([0-9A-F]{2}[:-]){5}[0-9A-F]{2}', line, re.IGNORECASE)],
    as [group(0)] of the match. *)
Fixpoint search_addr (line : string) : option string :=
  if mac_here line then Some (take 17 line)
  else match line with
       | EmptyString => None
       | String _ rest => search_addr rest
       end.

End Text.

(* ================================================================== *)
(** ** Data carried by the events *)

Inductive Modality : Type := EEG | PPG | ACC | GYRO.

Definition Modality_eqb (a b : Modality) : bool :=
  match a, b with
  | EEG, EEG | PPG, PPG | ACC, ACC | GYRO, GYRO => true
  | _, _ => false
  end.

(** A device descriptor: the dict [{'name': ..., 'address': ...}].  A
    scanned device may have no name. *)
Record Device : Type := mkDevice {
  dev_name : option string;
  dev_address : string
}.

(** A sample batch handed to the router. *)
Inductive Data : Type :=
| Nd2 (ncols : nat) (rows : list (list Q))   (* ndarray, ndim = 2, shape (len rows, ncols) *)
| Nd1 (xs : list Q)                          (* ndarray, ndim <> 2 *)
| PyList (samples : list (list Q))           (* a Python list of samples *)
| Scalar (x : Q).                            (* anything else *)

(** The timestamps argument: a sized sequence, or an object without
    [len()] (None, a bare float). *)
Inductive Timestamps : Type :=
| TsSeq (ts : list Q)
| TsUnsized.

(** What is handed to [outlet.push_sample] as the sample. *)
Inductive Sample : Type :=
| SList (xs : list Q)      (* a Python list: [.tolist()] or a list element *)
| SArray (xs : list Q)     (* a column [data[:, ii]] as ndarray *)
| SObject (d : Data).      (* the [data] object itself *)

(** [StreamInfo] with the channel annotations appended to its desc. *)
Record StreamInfo : Type := mkInfo {
  info_name : string;
  info_type : string;
  info_channel_count : nat;
  info_rate : Q;
  info_format : string;
  info_source_id : string;
  info_manufacturer : string;
  info_labels : list string;
  info_unit : string;
  info_channel_type : string
}.

(** Arguments of the [Muse] constructor: which callbacks are bound. *)
Record MuseArgs : Type := mkMuseArgs {
  m_address : option string;
  m_callback_eeg : bool;            (* [true]: a router callback, [false]: None *)
  m_callback_ppg : bool;
  m_callback_acc : bool;
  m_callback_gyro : bool;
  m_backend : string;
  m_interface : option string;
  m_name : option string;
  m_options : option (option string * bool * bool)
       (* preset, disable_light, time_func is local_clock; None when not passed *)
}.

Inductive Msg : Type :=
| Text (s : string)
| TextNum (before : string) (x : Q) (after : string)
| TextFloat (before : string) (x : float) (after : string)
| TextExc (before : string) (e : PyExc).

Inductive AdapterKind : Type :=
| GATTToolBackend (interface : string)
| BleakBackend
| BGAPIBackend (serial_port : option string).

(** Calls made on the collaborators, in the order they are made. *)
Inductive Event : Type :=
| EvPrint (m : Msg)
| EvSubprocess (cmd : list string)
| EvTerminate
| EvKill
| EvTimeSleep (secs : Q)
| EvAdapterNew (k : AdapterKind)
| EvAdapterStart
| EvAdapterScan (timeout : Q)
| EvAdapterStop
| EvOpenOutlet (m : Modality) (info : StreamInfo) (chunk : nat)
| EvCloseOutlet (m : Modality)
| EvMuseNew (a : MuseArgs)
| EvConnect (retries : nat)
| EvStart
| EvStop
| EvDisconnect
| EvBackendSleep (secs : Q)
| EvPush (m : Modality) (s : Sample) (ts : option Q).

Definition Trace : Type := list Event.

(* ================================================================== *)
(** ** The program monad *)

Module Prog.

(** [Pending]: the environment script ended while the program was still
    running; nothing catches it and no [finally] block runs on it. *)
Inductive Outcome (A : Type) : Type :=
| Done (a : A)
| Raised (e : PyExc)
| Pending.
Arguments Done {A} a.
Arguments Raised {A} e.
Arguments Pending {A}.

(** A program reads the events so far and yields the events it adds. *)
Definition t (A : Type) : Type := Trace -> Trace * Outcome A.

Definition ret {A} (a : A) : t A := fun _ => ([], Done a).

Definition bind {A B} (m : t A) (f : A -> t B) : t B :=
  fun h =>
    let '(es, r) := m h in
    match r with
    | Done a => let '(es', r') := f a (h ++ es) in (es ++ es', r')
    | Raised e => (es, Raised e)
    | Pending => (es, Pending)
    end.

Definition emit (e : Event) : t unit := fun _ => ([e], Done tt).

Definition raise {A} (e : PyExc) : t A := fun _ => ([], Raised e).

Definition pending {A} : t A := fun _ => ([], Pending).

(** The environment's answer may depend on what happened so far. *)
Definition ask {A} (oracle : Trace -> A) : t A := fun h => ([], Done (oracle h)).

(** [try: body except <classes>: handler] *)
Definition try_except {A} (body : t A) (catches : PyExc -> bool)
           (handler : PyExc -> t A) : t A :=
  fun h =>
    let '(es, r) := body h in
    match r with
    | Raised e =>
        if catches e
        then let '(es', r') := handler e (h ++ es) in (es ++ es', r')
        else (es, Raised e)
    | _ => (es, r)
    end.

(** [try: body finally: fin] *)
Definition finally {A} (body : t A) (fin : t unit) : t A :=
  fun h =>
    let '(es, r) := body h in
    match r with
    | Pending => (es, Pending)
    | _ =>
        let '(es', r') := fin (h ++ es) in
        (es ++ es',
         match r' with
         | Done _ => r
         | Raised e => Raised e
         | Pending => Pending
         end)
    end.

(** [for x in xs: body x] *)
Fixpoint for_each {A} (xs : list A) (body : A -> t unit) : t unit :=
  match xs with
  | [] => ret tt
  | x :: xs' => bind (body x) (fun _ => for_each xs' body)
  end.

End Prog.

Import Prog.

Declare Scope prog_scope.
Delimit Scope prog_scope with prog.
Notation "x <- m ;; k" := (Prog.bind m (fun x => k))
  (at level 61, m at next level, right associativity) : prog_scope.
Notation "m ;; k" := (Prog.bind m (fun _ => k))
  (at level 61, right associativity) : prog_scope.
Local Open Scope prog_scope.

Definition print (s : string) : Prog.t unit := emit (EvPrint (Text s)).

(** A collaborator call that either succeeds or raises. *)
Definition check (r : option PyExc) : Prog.t unit :=
  match r with
  | None => ret tt
  | Some e => raise e
  end.

Definition answer {A} (r : PyExc + A) : Prog.t A :=
  match r with
  | inl e => raise e
  | inr a => ret a
  end.

(* ================================================================== *)
(** ** Parameters: constants and collaborators *)

(** [muselsl/constants.py] is not part of this file.  The delay is the
    number the loop compares a float with; an integer constant is the float
    of the same value. *)
Record Constants : Type := mkConstants {
  AUTO_DISCONNECT_DELAY : float;
  LIST_SCAN_TIMEOUT : Q;
  LSL_EEG_CHUNK : nat;
  LSL_PPG_CHUNK : nat;
  LSL_ACC_CHUNK : nat;
  LSL_GYRO_CHUNK : nat;
  MUSE_NB_EEG_CHANNELS : nat;
  MUSE_NB_PPG_CHANNELS : nat;
  MUSE_NB_ACC_CHANNELS : nat;
  MUSE_NB_GYRO_CHANNELS : nat;
  MUSE_SAMPLING_EEG_RATE : Q;
  MUSE_SAMPLING_PPG_RATE : Q;
  MUSE_SAMPLING_ACC_RATE : Q;
  MUSE_SAMPLING_GYRO_RATE : Q
}.

(** What the host answers during one discovery: the tool look-up, the
    backend helper, the adapter and the bluetoothctl subprocesses. *)
Record Host : Type := mkHost {
  which_bluetoothctl : bool;               (* which('bluetoothctl') is not None *)
  resolve_backend : string -> PyExc + string;   (* helper.resolve_backend *)
  adapter_start : option PyExc;
  adapter_scan : PyExc + list Device;
  adapter_stop : option PyExc;
  popen_scan_on : option PyExc;
  run_scan_off : option PyExc;
  scan_still_running : bool;               (* scan_process.poll() is None *)
  scan_wait : option PyExc;
  run_devices : PyExc + string             (* result.stdout *)
}.

(* ================================================================== *)
(** ** Device Locator *)

Module Locator.
Section Locator.

Variable K : Constants.
Variable H : Host.

Definition found_line (m : Device) : string :=
  String.append "Found device "
    (String.append (Py.str (dev_name m))
       (String.append ", MAC Address " (dev_address m))).

Definition _print_muse_list (muses : list Device) : Prog.t unit :=
  for_each muses (fun m => print (found_line m)) ;;
  match muses with
  | [] => print "No Muses found."
  | _ :: _ => ret tt
  end.

(** One pass of the parsing loop body: the descriptor a line yields. *)
Definition parse_line (device_line : string) : option Device :=
  if Text.contains "Muse" device_line then
    match Text.search_name device_line, Text.search_addr device_line with
    | Some name_match, Some addr_match => Some (mkDevice (Some name_match) addr_match)
    | _, _ => None
    end
  else None.

(** The parsing loop, appending to [muses]. *)
Definition parse_devices (devices : list string) : list Device :=
  fold_left
    (fun muses device_line =>
       match parse_line device_line with
       | Some d => muses ++ [d]
       | None => muses
       end)
    devices [].

Definition _list_muses_bluetoothctl (timeout : Q) : Prog.t (list Device) :=
  print "Searching for Muses, this may take up to 10 seconds..." ;;
  try_except
    (emit (EvSubprocess ["bluetoothctl"; "scan"; "on"]) ;;
     check (popen_scan_on H) ;;
     emit (EvPrint (TextNum "Scanning for " timeout " seconds...")) ;;
     emit (EvTimeSleep timeout) ;;
     try_except
       (emit (EvSubprocess ["bluetoothctl"; "scan"; "off"]) ;;
        check (run_scan_off H))
       is_TimeoutExpired
       (fun _ => ret tt) ;;
     if scan_still_running H then
       emit EvTerminate ;;
       try_except (check (scan_wait H)) is_TimeoutExpired (fun _ => emit EvKill)
     else ret tt)
    is_Exception
    (fun e => emit (EvPrint (TextExc "Scan process error (continuing anyway): " e))) ;;
  devices <-
    try_except
      (emit (EvSubprocess ["bluetoothctl"; "devices"]) ;;
       stdout <- answer (run_devices H) ;;
       ret (Text.split_lines stdout))
      is_Exception
      (fun e =>
         (if is_TimeoutExpired e
          then print "Timeout while listing devices"
          else emit (EvPrint (TextExc "Error listing devices: " e))) ;;
         ret []) ;;
  let muses := parse_devices devices in
  _print_muse_list muses ;;
  ret muses.

(** The filter of the adapter path: [d['name'] and 'Muse' in d['name']]. *)
Definition is_muse (d : Device) : bool :=
  Py.truthy (dev_name d)
  && match dev_name d with
     | Some n => Text.contains "Muse" n
     | None => false
     end.

(** The [try] block and what follows it; [adapter] is [None] when no
    branch bound the variable.  The handler either returns from
    [list_muses] ([inl]) or re-raises; the block itself yields the scanned
    devices ([inr]). *)
Definition scan_adapter (backend : string) (adapter : option AdapterKind)
  : Prog.t (option (list Device)) :=
  r <- try_except
         (match adapter with
          | None => raise UnboundLocalError
          | Some _ =>
              emit EvAdapterStart ;;
              check (adapter_start H) ;;
              print "Searching for Muses, this may take up to 10 seconds..." ;;
              emit (EvAdapterScan (LIST_SCAN_TIMEOUT K)) ;;
              devices <- answer (adapter_scan H) ;;
              emit EvAdapterStop ;;
              check (adapter_stop H) ;;
              ret (inr devices)
          end)
         is_BLEError
         (fun e =>
            if String.eqb backend "gatt" then
              print "pygatt failed to scan for BLE devices. Trying with bluetoothctl." ;;
              muses <- _list_muses_bluetoothctl (LIST_SCAN_TIMEOUT K) ;;
              ret (inl muses)
            else raise e) ;;
  match r with
  | inl muses => ret (Some muses)
  | inr devices =>
      let muses := filter is_muse devices in
      _print_muse_list muses ;;
      ret (Some muses)
  end.

Definition list_muses (backend : string) (interface : option string)
  : Prog.t (option (list Device)) :=
  if String.eqb backend "auto" && which_bluetoothctl H then
    print "Backend was 'auto' and bluetoothctl was found, using to list muses..." ;;
    muses <- _list_muses_bluetoothctl (LIST_SCAN_TIMEOUT K) ;;
    ret (Some muses)
  else
    backend <- answer (resolve_backend H backend) ;;
    if String.eqb backend "gatt" then
      let interface := if Py.truthy interface then Py.str interface else "hci0" in
      let adapter := GATTToolBackend interface in
      emit (EvAdapterNew adapter) ;;
      scan_adapter backend (Some adapter)
    else if String.eqb backend "bluemuse" then
      print "Starting BlueMuse, see BlueMuse window for interactive list of devices." ;;
      emit (EvSubprocess ["start bluemuse:"]) ;;
      ret None
    else if String.eqb backend "bleak" then
      emit (EvAdapterNew BleakBackend) ;;
      scan_adapter backend (Some BleakBackend)
    else if String.eqb backend "bgapi" then
      emit (EvAdapterNew (BGAPIBackend interface)) ;;
      scan_adapter backend (Some (BGAPIBackend interface))
    else
      scan_adapter backend None.

Definition find_muse (name : option string) (backend : string)
  : Prog.t (option Device) :=
  muses <- list_muses backend None ;;
  if Py.truthy name then
    match muses with
    | None => raise TypeError          (* iterating over None *)
    | Some l => ret (find (fun muse => Py.opt_string_eqb (dev_name muse) name) l)
    end
  else
    match muses with
    | Some (m :: _) => ret (Some m)
    | _ => ret None
    end.

End Locator.
End Locator.

(* ================================================================== *)
(** ** Sample Router *)

(** An output channel: its modality tag and, given the events so far,
    whether a [push_sample] call raises. *)
Record Outlet : Type := mkOutlet {
  o_tag : Modality;
  o_raises : Trace -> Sample -> option Q -> option PyExc
}.

Module Router.
Section Router.

(** [time()]: the wall clock, read after the events so far. *)
Variable time : Trace -> Q.

Definition push_sample (outlet : Outlet) (x : Sample) (timestamp : option Q)
  : Prog.t unit :=
  r <- ask (fun h => o_raises outlet h x timestamp) ;;
  emit (EvPush (o_tag outlet) x timestamp) ;;
  check r.

(** [len(timestamps)] *)
Definition len (timestamps : Timestamps) : Prog.t nat :=
  match timestamps with
  | TsSeq ts => ret (List.length ts)
  | TsUnsized => raise TypeError
  end.

(** [timestamps[i]], evaluated only under [i < len(timestamps)]. *)
Definition item (timestamps : Timestamps) (i : nat) : Q :=
  match timestamps with
  | TsSeq ts => nth i ts 0%Q
  | TsUnsized => 0%Q
  end.

(** [data[:, ii]] *)
Definition column (ii : nat) (rows : list (list Q)) : list Q :=
  map (fun row => nth ii row 0%Q) rows.

(** [enumerate(data)] *)
Definition enumerate {A} (xs : list A) : list (nat * A) :=
  combine (seq 0 (List.length xs)) xs.

(** The body of the outer [try]. *)
Definition dispatch (data : Data) (timestamps : Timestamps) (outlet : Outlet)
  : Prog.t unit :=
  match data with
  | Nd2 ncols rows =>
      for_each (seq 0 ncols) (fun ii =>
        n <- len timestamps ;;
        if ii <? n
        then push_sample outlet (SList (column ii rows)) (Some (item timestamps ii))
        else push_sample outlet (SList (column ii rows)) None)
  | Nd1 xs =>
      n <- len timestamps ;;
      if 0 <? n
      then push_sample outlet (SList xs) (Some (item timestamps 0))
      else push_sample outlet (SList xs) None
  | PyList samples =>
      for_each (enumerate samples) (fun '(i, sample) =>
        n <- len timestamps ;;
        if i <? n
        then push_sample outlet (SList sample) (Some (item timestamps i))
        else push_sample outlet (SList sample) None)
  | Scalar _ =>
      n <- len timestamps ;;
      if 0 <? n
      then push_sample outlet (SObject data) (Some (item timestamps 0))
      else push_sample outlet (SObject data) None
  end.

(** The body of the inner [try]: the fallback pass. *)
Definition fallback (data : Data) (timestamps : Timestamps) (outlet : Outlet)
  : Prog.t unit :=
  match data with
  | Nd2 ncols rows =>
      for_each (seq 0 ncols) (fun ii =>
        n <- len timestamps ;;
        t <- (if ii <? n then ret (item timestamps ii) else ask time) ;;
        push_sample outlet (SArray (column ii rows)) (Some t))
  | _ =>
      n <- len timestamps ;;
      t <- (if 0 <? n then ret (item timestamps 0) else ask time) ;;
      push_sample outlet (SObject data) (Some t)
  end.

Definition fixed_push (data : Data) (timestamps : Timestamps) (outlet : Outlet)
  : Prog.t unit :=
  try_except
    (dispatch data timestamps outlet)
    is_Exception
    (fun e =>
       emit (EvPrint (TextExc "Fixed push error: " e)) ;;
       try_except
         (fallback data timestamps outlet)
         (fun _ => true)
         (fun _ => ret tt)).

End Router.
End Router.

(* ================================================================== *)
(** ** Session Controller and Supervisor Loop *)

(** Whether a callback argument of the [Muse] constructor is a function. *)
Definition bound (callback : option Outlet) : bool :=
  match callback with
  | Some _ => true
  | None => false
  end.

(** A batch the session hands to the callback of one modality. *)
Record Delivery : Type := mkDelivery {
  d_modality : Modality;
  d_data : Data;
  d_timestamps : Timestamps
}.

(** Where, in one iteration of the loop, the operator's interrupt lands. *)
Inductive Interrupt : Type := NoInterrupt | AtLoopTop | InSleep.

(** What the environment shows during one iteration of the loop. *)
Record Tick : Type := mkTick {
  now : float;                      (* time_func() *)
  last_timestamp : option float;    (* muse.last_timestamp; None: no such attribute *)
  arrivals : list Delivery;         (* batches arriving during the sleep *)
  interrupt : Interrupt
}.

(** The Muse session and the clock of one run of [stream]. *)
Record Session : Type := mkSession {
  connect_result : bool;            (* truth value of muse.connect(retries) *)
  start_time : float;               (* the first time_func() reading *)
  script : list Tick;
  outlet_raises : Modality -> Trace -> Sample -> option Q -> option PyExc;
  stop_raises : option PyExc;       (* what muse.stop() raises, if anything *)
  disconnect_raises : option PyExc  (* what muse.disconnect() raises, if anything *)
}.

(** [a > b] on Python floats. *)
Definition float_gt (a b : float) : bool := PrimFloat.ltb b a.

Inductive LoopExit : Type := Stale | Silent.

Module Controller.
Section Controller.

Variable K : Constants.
Variable H : Host.
Variable S : Session.
Variable time : Trace -> Q.

Definition stream_info (type : string) (count : nat) (rate : Q)
           (address : option string) (labels : list string)
           (unit type_label : string) : StreamInfo :=
  mkInfo "Muse" type count rate "float32"
         (String.append "Muse" (Py.str address)) "Muse" labels unit type_label.

Definition open_outlet (m : Modality) (info : StreamInfo) (chunk : nat)
  : Prog.t Outlet :=
  emit (EvOpenOutlet m info chunk) ;;
  ret (mkOutlet m (outlet_raises S m)).

(** A registered callback [partial(fixed_push, outlet=...)] receiving a
    batch; the session has nothing to call for a modality bound to None. *)
Definition deliver (callbacks : Modality -> option Outlet) (d : Delivery)
  : Prog.t unit :=
  match callbacks (d_modality d) with
  | Some outlet => Router.fixed_push time (d_data d) (d_timestamps d) outlet
  | None => ret tt
  end.

(** Modelled from the spec: [backends.sleep] and the [Muse] session are not
    part of this file; while connected the session fires the registered
    per-modality callbacks, which the model places inside the sleep, and
    the operator's interrupt surfaces there as KeyboardInterrupt. *)
Definition backends_sleep (callbacks : Modality -> option Outlet)
           (secs : Q) (tk : Tick) : Prog.t unit :=
  emit (EvBackendSleep secs) ;;
  for_each (arrivals tk) (deliver callbacks) ;;
  match interrupt tk with
  | InSleep => raise KeyboardInterrupt
  | _ => ret tt
  end.

(** The [while True] loop; the value is the [break] that was taken. *)
Fixpoint supervise (callbacks : Modality -> option Outlet) (start : float)
         (ticks : list Tick) : Prog.t LoopExit :=
  match ticks with
  | [] => pending
  | tk :: rest =>
      match interrupt tk with
      | AtLoopTop => raise KeyboardInterrupt
      | _ =>
          let current_time := now tk in
          brk <- match last_timestamp tk with
                 | Some last =>
                     if float_gt (PrimFloat.sub current_time last) (AUTO_DISCONNECT_DELAY K)
                     then
                       emit (EvPrint (TextFloat "Auto-disconnect after "
                                              (AUTO_DISCONNECT_DELAY K)
                                              "s of no data")) ;;
                       ret (Some Stale)
                     else ret None
                 | None =>
                     if float_gt (PrimFloat.sub current_time start) 300%float
                     then print "Max streaming time reached" ;; ret (Some Silent)
                     else ret None
                 end ;;
          match brk with
          | Some cause => ret cause
          | None =>
              backends_sleep callbacks (1 # 1) tk ;;
              supervise callbacks start rest
          end
      end
  end.

Definition flag (b : bool) : string := if b then "true" else "false".

Definition bluemuse_setting (key : string) (value : bool) : Prog.t unit :=
  emit (EvSubprocess
          [String.append "start bluemuse://setting?key="
             (String.append key (String.append "!value=" (flag value)))]).

(** [':'.join(filter(None, [name, address]))] *)
Definition target (name address : option string) : string :=
  match Py.truthy name, Py.truthy address with
  | true, true => String.append (Py.str name) (String.append ":" (Py.str address))
  | true, false => Py.str name
  | false, true => Py.str address
  | false, false => ""
  end.

(** Lines 230-236 of [stream]: the address and name the session is opened
    with; [None] when [stream] returns because no device was found. *)
Definition resolve_target (address : option string) (backend : string)
           (name : option string)
  : Prog.t (option (option string * option string)) :=
  if negb (Py.truthy address) then
    found_muse <- Locator.find_muse K H name backend ;;
    match found_muse with
    | None => ret None
    | Some m => ret (Some (Some (dev_address m), dev_name m))
    end
  else ret (Some (address, name)).

(** Lines 238-300 of [stream]: the outlets of the enabled modalities and the
    callbacks [push_eeg], [push_ppg], [push_acc], [push_gyro] bound to them. *)
Definition open_outlets (address : option string)
           (ppg_enabled acc_enabled gyro_enabled eeg_disabled : bool)
  : Prog.t (Modality -> option Outlet) :=
  eeg <- (if negb eeg_disabled then
            o <- open_outlet EEG
                   (stream_info "EEG" (MUSE_NB_EEG_CHANNELS K)
                      (MUSE_SAMPLING_EEG_RATE K) address
                      ["TP9"; "AF7"; "AF8"; "TP10"; "Right AUX"]
                      "microvolts" "EEG")
                   (LSL_EEG_CHUNK K) ;;
            ret (Some o)
          else ret None) ;;
  ppg <- (if ppg_enabled then
            o <- open_outlet PPG
                   (stream_info "PPG" (MUSE_NB_PPG_CHANNELS K)
                      (MUSE_SAMPLING_PPG_RATE K) address
                      ["PPG1"; "PPG2"; "PPG3"] "mmHg" "PPG")
                   (LSL_PPG_CHUNK K) ;;
            ret (Some o)
          else ret None) ;;
  acc <- (if acc_enabled then
            o <- open_outlet ACC
                   (stream_info "ACC" (MUSE_NB_ACC_CHANNELS K)
                      (MUSE_SAMPLING_ACC_RATE K) address
                      ["X"; "Y"; "Z"] "g" "accelerometer")
                   (LSL_ACC_CHUNK K) ;;
            ret (Some o)
          else ret None) ;;
  gyro <- (if gyro_enabled then
             o <- open_outlet GYRO
                    (stream_info "GYRO" (MUSE_NB_GYRO_CHANNELS K)
                       (MUSE_SAMPLING_GYRO_RATE K) address
                       ["X"; "Y"; "Z"] "dps" "gyroscope")
                    (LSL_GYRO_CHUNK K) ;;
             ret (Some o)
           else ret None) ;;
  ret (fun m =>
         match m with
         | EEG => eeg
         | PPG => ppg
         | ACC => acc
         | GYRO => gyro
         end).

(** Lines 322-342 of [stream]: the loop inside its [try], the handler of
    KeyboardInterrupt and the [finally] block. *)
Definition supervised_loop (callbacks : Modality -> option Outlet) : Prog.t unit :=
  finally
    (try_except
       (supervise callbacks (start_time S) (script S) ;; ret tt)
       is_KeyboardInterrupt
       (fun _ => print (String Text.newline "Interrupted by user")))
    (emit EvStop ;;
     check (stop_raises S) ;;
     emit EvDisconnect ;;
     check (disconnect_raises S)).

Definition streaming_line (ppg_enabled acc_enabled gyro_enabled eeg_disabled : bool)
  : string :=
  String.append "Streaming"
    (String.append (if negb eeg_disabled then " EEG" else "")
       (String.append (if ppg_enabled then " PPG" else "")
          (String.append (if acc_enabled then " ACC" else "")
             (String.append (if gyro_enabled then " GYRO" else "") "...")))).

(** Lines 304-346 of [stream]: the session, the connection attempt and what
    follows it. *)
Definition run_session (callbacks : Modality -> option Outlet)
           (address : option string) (backend : string)
           (interface name : option string)
           (ppg_enabled acc_enabled gyro_enabled eeg_disabled : bool)
           (preset : option string) (disable_light lsl_time : bool)
           (retries : nat) : Prog.t unit :=
  emit (EvMuseNew
          (mkMuseArgs address
             (bound (callbacks EEG)) (bound (callbacks PPG))
           (bound (callbacks ACC)) (bound (callbacks GYRO))
             backend interface name
             (Some (preset, disable_light, lsl_time)))) ;;
  emit (EvConnect retries) ;;
  let didConnect := connect_result S in
  if didConnect then
    print "Connected." ;;
    emit EvStart ;;
    print (streaming_line ppg_enabled acc_enabled gyro_enabled eeg_disabled) ;;
    supervised_loop callbacks ;;
    print "Disconnected."
  else
    print "Failed to connect.".

(** Lines 351-366 of [stream]: the bridge-app path. *)
Definition stream_bluemuse (address : option string) (backend : string)
           (interface name : option string)
           (ppg_enabled acc_enabled gyro_enabled eeg_disabled : bool)
           (retries : nat) : Prog.t unit :=
  bluemuse_setting "eeg_enabled" (negb eeg_disabled) ;;
  bluemuse_setting "ppg_enabled" ppg_enabled ;;
  bluemuse_setting "accelerometer_enabled" acc_enabled ;;
  bluemuse_setting "gyroscope_enabled" gyro_enabled ;;
  emit (EvMuseNew
          (mkMuseArgs address false false false false backend interface name None)) ;;
  emit (EvConnect retries) ;;
  (if negb (Py.truthy address) && negb (Py.truthy name)
   then print "Targeting first device BlueMuse discovers..."
   else print (String.append "Targeting device: "
                 (String.append (target name address) "..."))) ;;
  print (String Text.newline
           (String.append
              "*BlueMuse will auto connect and stream when the device is found. "
              (String Text.newline
                 "*You can also use the BlueMuse interface to manage your stream(s)."))) ;;
  emit EvStart.

Definition stream (address : option string) (backend : string)
           (interface name : option string)
           (ppg_enabled acc_enabled gyro_enabled eeg_disabled : bool)
           (preset : option string) (disable_light lsl_time : bool)
           (retries : nat) : Prog.t unit :=
  if eeg_disabled && negb ppg_enabled && negb acc_enabled && negb gyro_enabled then
    print "Stream initiation failed: At least one data source must be enabled."
  else if negb (String.eqb backend "bluemuse") then
    resolved <- resolve_target address backend name ;;
    match resolved with
    | None => ret tt
    | Some (address, name) =>
        callbacks <- open_outlets address ppg_enabled acc_enabled gyro_enabled
                       eeg_disabled ;;
        run_session callbacks address backend interface name
          ppg_enabled acc_enabled gyro_enabled eeg_disabled
          preset disable_light lsl_time retries
    end
  else
    stream_bluemuse address backend interface name
      ppg_enabled acc_enabled gyro_enabled eeg_disabled retries.

End Controller.
End Controller.

(* ================================================================== *)
(** ** Observations on traces *)

Definition is_stop (e : Event) : bool :=
  match e with EvStop => true | _ => false end.

Definition is_disconnect (e : Event) : bool :=
  match e with EvDisconnect => true | _ => false end.

Definition is_close (e : Event) : bool :=
  match e with EvCloseOutlet _ => true | _ => false end.

Definition is_open (e : Event) : bool :=
  match e with EvOpenOutlet _ _ _ => true | _ => false end.

Definition is_push (e : Event) : bool :=
  match e with EvPush _ _ _ => true | _ => false end.

Definition is_backend_sleep (e : Event) : bool :=
  match e with EvBackendSleep _ => true | _ => false end.

(** Stop, disconnect and channel close: the teardown calls. *)
Definition is_teardown (e : Event) : bool :=
  is_stop e || is_disconnect e || is_close e.

(** Calls on the bus or on the session: opening or closing a channel,
    pushing, constructing the session and driving it. *)
Definition is_session_call (e : Event) : bool :=
  match e with
  | EvOpenOutlet _ _ _ | EvCloseOutlet _ | EvMuseNew _ | EvConnect _
  | EvStart | EvStop | EvDisconnect | EvBackendSleep _ | EvPush _ _ _ => true
  | _ => false
  end.

(** The events the supervisor loop can add: console lines, sleeps and
    the pushes of the callbacks. *)
Definition is_loop_event (e : Event) : bool :=
  match e with
  | EvPrint _ | EvBackendSleep _ | EvPush _ _ _ => true
  | _ => false
  end.

(** The bluetoothctl enumeration command. *)
Definition is_devices_command (e : Event) : bool :=
  match e with
  | EvSubprocess ["bluetoothctl"; "devices"] => true
  | _ => false
  end.

(** The close call on the channel of modality [m]. *)
Definition closes (m : Modality) (e : Event) : bool :=
  match e with
  | EvCloseOutlet m' => Modality_eqb m m'
  | _ => false
  end.

Definition count (p : Event -> bool) (tr : Trace) : nat :=
  List.length (filter p tr).

(** A channel of modality [m] was opened. *)
Definition opened (m : Modality) (tr : Trace) : Prop :=
  exists info chunk, In (EvOpenOutlet m info chunk) tr.

(* ================================================================== *)
(** ** Statements about the Device Locator *)

(** [p] occurs in [s]. *)
Definition Substring (p s : string) : Prop :=
  exists a b, s = String.append a (String.append p b).

(** The descriptor's name contains the product identifier. *)
Definition has_product_name (d : Device) : Prop :=
  exists n, dev_name d = Some n /\ Substring "Muse" n.

(** Every descriptor of a returned list carries the product identifier. *)
Definition named_result (r : option (list Device)) : Prop :=
  forall muses, r = Some muses -> Forall has_product_name muses.

(** The value of [list_muses] when it hands over to the bluetoothctl
    strategy. *)
Definition handed_over (r : Outcome (list Device)) : Outcome (option (list Device)) :=
  match r with
  | Done muses => Done (Some muses)
  | Raised e => Raised e
  | Pending => Pending
  end.

Definition pygatt_failed : string :=
  "pygatt failed to scan for BLE devices. Trying with bluetoothctl.".

(** The events of the adapter's [try] block up to a failing scan call. *)
Definition scan_block (K : Constants) : Trace :=
  [ EvAdapterStart;
    EvPrint (Text "Searching for Muses, this may take up to 10 seconds...");
    EvAdapterScan (LIST_SCAN_TIMEOUT K) ].

(** What the gatt path does up to the failing scan and the hand-over. *)
Definition gatt_scan_prefix (K : Constants) (interface : option string) : Trace :=
  [ EvAdapterNew (GATTToolBackend (if Py.truthy interface then Py.str interface else "hci0"));
    EvAdapterStart;
    EvPrint (Text "Searching for Muses, this may take up to 10 seconds...");
    EvAdapterScan (LIST_SCAN_TIMEOUT K);
    EvPrint (Text "pygatt failed to scan for BLE devices. Trying with bluetoothctl.") ].

(* ================================================================== *)
(** ** Statements about the Sample Router *)

(** An outlet on which no [push_sample] call raises. *)
Definition accepts (outlet : Outlet) : Prop :=
  forall h x t, o_raises outlet h x t = None.

(** The push the first pass makes for column [ii] of a 2-D batch. *)
Definition column_push (outlet : Outlet) (rows : list (list Q)) (ts : list Q)
           (ii : nat) : Event :=
  EvPush (o_tag outlet) (SList (Router.column ii rows))
         (if ii <? List.length ts then Some (nth ii ts 0%Q) else None).

(** The pushes of the first pass over a 2-D batch all succeed: the push of
    column [i], made after those of the columns before it, does not raise. *)
Definition accepts_columns (outlet : Outlet) (rows : list (list Q)) (ts : list Q)
           (ncols : nat) (h : Trace) : Prop :=
  forall i, i < ncols ->
    o_raises outlet (h ++ map (column_push outlet rows ts) (seq 0 i))
             (SList (Router.column i rows))
             (if i <? List.length ts then Some (nth i ts 0%Q) else None)
    = None.

(** The timestamp of a fallback push at index [i]: the supplied one when the
    sequence has it, otherwise any value (a wall-clock reading). *)
Definition fallback_stamp (timestamps : Timestamps) (i : nat) (t : Q) : Prop :=
  forall ts, timestamps = TsSeq ts -> i < List.length ts -> t = nth i ts 0%Q.

(** The timestamp the fallback pass gives the push at index [i]:
    [timestamps[i]] when the sequence has it, otherwise the wall clock, read
    when that push is reached. *)
Definition fallback_time (time : Trace -> Q) (ts : list Q) (i : nat) (h : Trace)
  : Q :=
  if i <? List.length ts then nth i ts 0%Q else time h.

(** The fallback pass over the columns [cols] of a 2-D batch, [h] being the
    events so far: the columns are pushed in order, each with its fallback
    timestamp, and the pass ends with the first push that fails. *)
Fixpoint fallback_columns (time : Trace -> Q) (outlet : Outlet)
         (rows : list (list Q)) (ts : list Q) (cols : list nat) (h : Trace)
  : Trace :=
  match cols with
  | [] => []
  | ii :: rest =>
      let x := SArray (Router.column ii rows) in
      let t := Some (fallback_time time ts ii h) in
      match o_raises outlet h x t with
      | Some _ => [EvPush (o_tag outlet) x t]
      | None =>
          EvPush (o_tag outlet) x t
            :: fallback_columns time outlet rows ts rest
                 (h ++ [EvPush (o_tag outlet) x t])
      end
  end.

(** The pushes of the fallback pass, said directly: none when the
    timestamps have no length; for a 2-D batch the columns from column 0 up to
    the first push that fails; for any other batch one push of the data
    object. *)
Definition fallback_events (time : Trace -> Q) (outlet : Outlet) (data : Data)
           (timestamps : Timestamps) (h : Trace) : Trace :=
  match timestamps with
  | TsUnsized => []
  | TsSeq ts =>
      match data with
      | Nd2 ncols rows => fallback_columns time outlet rows ts (seq 0 ncols) h
      | _ => [EvPush (o_tag outlet) (SObject data)
                     (Some (fallback_time time ts 0 h))]
      end
  end.

(** The fallback as the specification words it: after a failure of the first
    pass the router makes exactly one more push, stamped by the wall clock. *)
Definition single_clock_stamped_fallback (time : Trace -> Q) (data : Data)
           (timestamps : Timestamps) (outlet : Outlet) (h : Trace) : Prop :=
  forall e,
    snd (Router.dispatch data timestamps outlet h) = Raised e ->
    snd (Router.fixed_push time data timestamps outlet h) = Done tt
    /\ exists x h',
        fst (Router.fixed_push time data timestamps outlet h)
        = fst (Router.dispatch data timestamps outlet h)
          ++ [EvPrint (TextExc "Fixed push error: " e);
              EvPush (o_tag outlet) x (Some (time h'))].

(** The routing of a 2-D batch as the specification words it, whatever the
    outlet does: with as many timestamps as columns, exactly that many pushes
    are made; with fewer timestamps, no push carries a timestamp that was not
    supplied, and no exception leaves the router. *)
Definition routes_columns_as_specified (time : Trace -> Q) (ncols : nat)
           (rows : list (list Q)) (ts : list Q) (outlet : Outlet) (h : Trace)
  : Prop :=
  let run := Router.fixed_push time (Nd2 ncols rows) (TsSeq ts) outlet h in
  (List.length ts = ncols -> count is_push (fst run) = ncols)
  /\ (List.length ts < ncols ->
      (forall m x t, In (EvPush m x (Some t)) (fst run) -> In t ts)
      /\ forall e, snd run <> Raised e).

(* ================================================================== *)
(** ** Statements about the Session Controller *)

(** The events of the bridge-app path, as the request determines them. *)
Definition bluemuse_trace (address interface name : option string)
           (ppg_enabled acc_enabled gyro_enabled eeg_disabled : bool)
           (retries : nat) : Trace :=
  [ EvSubprocess [String.append "start bluemuse://setting?key=eeg_enabled!value="
                    (if eeg_disabled then "false" else "true")];
    EvSubprocess [String.append "start bluemuse://setting?key=ppg_enabled!value="
                    (if ppg_enabled then "true" else "false")];
    EvSubprocess [String.append "start bluemuse://setting?key=accelerometer_enabled!value="
                    (if acc_enabled then "true" else "false")];
    EvSubprocess [String.append "start bluemuse://setting?key=gyroscope_enabled!value="
                    (if gyro_enabled then "true" else "false")];
    EvMuseNew (mkMuseArgs address false false false false "bluemuse" interface name None);
    EvConnect retries;
    EvPrint (Text (if negb (Py.truthy address) && negb (Py.truthy name)
                   then "Targeting first device BlueMuse discovers..."
                   else String.append "Targeting device: "
                          (String.append (Controller.target name address) "...")));
    EvPrint (Text (String Text.newline
                     (String.append
                        "*BlueMuse will auto connect and stream when the device is found. "
                        (String Text.newline
                           "*You can also use the BlueMuse interface to manage your stream(s)."))));
    EvStart ].

(** The events of [run_session] up to the start of the loop. *)
Definition session_intro (callbacks : Modality -> option Outlet)
           (address : option string) (backend : string)
           (interface name : option string)
           (ppg_enabled acc_enabled gyro_enabled eeg_disabled : bool)
           (preset : option string) (disable_light lsl_time : bool)
           (retries : nat) : Trace :=
  [ EvMuseNew
      (mkMuseArgs address
         (bound (callbacks EEG)) (bound (callbacks PPG))
           (bound (callbacks ACC)) (bound (callbacks GYRO))
         backend interface name (Some (preset, disable_light, lsl_time)));
    EvConnect retries;
    EvPrint (Text "Connected.");
    EvStart;
    EvPrint (Text (Controller.streaming_line ppg_enabled acc_enabled gyro_enabled
                     eeg_disabled)) ].

(** A tick at which the loop ends: the operator interrupts, or the stop
    condition the loop evaluates holds. *)
Definition stops_loop (K : Constants) (start : float) (tk : Tick) : bool :=
  match interrupt tk with
  | NoInterrupt =>
      match last_timestamp tk with
      | Some last => float_gt (PrimFloat.sub (now tk) last) (AUTO_DISCONNECT_DELAY K)
      | None => float_gt (PrimFloat.sub (now tk) start) 300%float
      end
  | _ => true
  end.

(** The calls of the [finally] block: [muse.disconnect()] is reached only
    when [muse.stop()] returned. *)
Definition teardown_events (S : Session) : Trace :=
  match stop_raises S with
  | Some _ => [EvStop]
  | None => [EvStop; EvDisconnect]
  end.

(** What leaves the [finally] block. *)
Definition teardown_outcome (S : Session) : Outcome unit :=
  match stop_raises S, disconnect_raises S with
  | Some e, _ => Raised e
  | None, Some e => Raised e
  | None, None => Done tt
  end.

(** The teardown as the specification words it: stop, then disconnect, then
    one close call for every opened channel, each exactly once. *)
Definition teardown_as_specified (tr : Trace) : Prop :=
  exists pre mid post,
    tr = pre ++ EvStop :: mid ++ EvDisconnect :: post
    /\ count is_teardown pre = 0
    /\ count is_teardown mid = 0
    /\ count is_stop post = 0
    /\ count is_disconnect post = 0
    /\ forall m, opened m tr -> count (closes m) post = 1.

(** The connect failure as the specification words it: every opened channel
    is closed before the report, and nothing is pushed. *)
Definition failure_report_as_specified (tr : Trace) : Prop :=
  exists before,
    tr = before ++ [EvPrint (Text "Failed to connect.")]
    /\ (forall m, opened m before -> count (closes m) before = 1)
    /\ count is_push tr = 0.

(** The discovery guard as the specification words it, for one request: a
    call on the bus or on the session is made only if the Device Locator
    resolved a device. *)
Definition session_requires_discovery (K : Constants) (H : Host) (S : Session)
           (time : Trace -> Q) (backend : string) (interface name : option string)
           (ppg_enabled acc_enabled gyro_enabled eeg_disabled : bool)
           (preset : option string) (disable_light lsl_time : bool)
           (retries : nat) : Prop :=
  Exists (fun e => is_session_call e = true)
         (fst (Controller.stream K H S time None backend interface name
                 ppg_enabled acc_enabled gyro_enabled eeg_disabled
                 preset disable_light lsl_time retries []))
  -> exists m, snd (Locator.find_muse K H name backend []) = Done (Some m).

(* ================================================================== *)
(** ** Concrete collaborators and runs *)

Definition demo_constants : Constants :=
  mkConstants 3%float (21 # 2) 12 6 1 1 5 3 3 3 (256 # 1) (64 # 1) (52 # 1) (52 # 1).

Definition muse_0B3D : Device := mkDevice (Some "Muse-0B3D") "00:55:DA:B0:0B:3D".

(** A host without bluetoothctl whose adapter scan sees a headset, a
    nameless peripheral and a keyboard. *)
Definition scanning_host : Host :=
  mkHost false (fun b => inr b) None
         (inr [muse_0B3D; mkDevice None "11:22:33:44:55:66";
               mkDevice (Some "Keyboard") "AA:BB:CC:DD:EE:FF"])
         None None None false None (inr "").

(** A host whose adapter scan fails at the BLE layer and whose
    bluetoothctl knows a headset and a keyboard. *)
Definition ble_failing_host : Host :=
  mkHost false (fun b => inr b) None (inl BLEError) None None None true None
         (inr (String.append "Device 00:55:DA:B0:0B:3D Muse-0B3D"
                 (String Text.newline "Device AA:BB:CC:DD:EE:FF Keyboard"))).

(** A host on which discovery finds nothing. *)
Definition empty_host : Host :=
  mkHost false (fun b => inr b) None (inr []) None None None false None (inr "").

(** A wall clock that always reads 999. *)
Definition fixed_clock : Trace -> Q := fun _ => 999 # 1.

(** An outlet whose first [push_sample] call raises and whose later calls
    succeed. *)
Definition flaky_outlet : Outlet :=
  mkOutlet EEG (fun h _ _ => if existsb is_push h then None else Some OtherError).

(** An outlet that never raises. *)
Definition sound_outlet : Outlet := mkOutlet EEG (fun _ _ _ => None).

(** An outlet on which every call raises (a sample of the wrong arity). *)
Definition rejecting_outlet : Outlet := mkOutlet EEG (fun _ _ _ => Some OtherError).

(** An outlet during whose calls the operator's interrupt arrives. *)
Definition interrupting_outlet : Outlet :=
  mkOutlet EEG (fun _ _ _ => Some KeyboardInterrupt).

(** One channel, three samples. *)
Definition batch_1x3 : Data := Nd2 3 [[1 # 1; 2 # 1; 3 # 1]].

Definition stamps_3 : Timestamps := TsSeq [10 # 1; 11 # 1; 12 # 1].

(** Ten seconds after the last sample. *)
Definition stale_tick : Tick := mkTick 100%float (Some 90%float) [] NoInterrupt.

Definition fresh_tick : Tick := mkTick 91%float (Some 90%float) [] NoInterrupt.

Definition silent_tick : Tick := mkTick 400%float None [] NoInterrupt.

(** The clock at 3.0000000000000004, the last sample at about 3e-16. *)
Definition rounding_tick : Tick :=
  mkTick 0x1.8000000000001p+1%float (Some 0x1.59e05f1e2674dp-52%float) []
         NoInterrupt.

Definition demo_session (connects : bool) (ticks : list Tick) : Session :=
  mkSession connects 0%float ticks (fun _ _ _ _ => None) None None.

(** A session that connects and whose [stop()] raises a BLE error. *)
Definition stop_failing_session (ticks : list Tick) : Session :=
  mkSession true 0%float ticks (fun _ _ _ _ => None) (Some BLEError) None.

Definition no_callbacks : Modality -> option Outlet := fun _ => None.

Definition demo_address : option string := Some "00:55:DA:B0:0B:3D".

(** EEG only, on a supplied address: the link goes stale at the first tick. *)
Definition stale_run : Trace * Outcome unit :=
  Controller.stream demo_constants empty_host (demo_session true [stale_tick])
    fixed_clock demo_address "bleak" None None false false false false
    None false false 1 [].

(** The same request on a session whose [stop()] raises. *)
Definition stop_failing_run : Trace * Outcome unit :=
  Controller.stream demo_constants empty_host (stop_failing_session [stale_tick])
    fixed_clock demo_address "bleak" None None false false false false
    None false false 1 [].

(** EEG only, on a supplied address: the connection attempt fails. *)
Definition failed_run : Trace * Outcome unit :=
  Controller.stream demo_constants empty_host (demo_session false [])
    fixed_clock demo_address "bleak" None None false false false false
    None false false 1 [].

(** No address, no device in range. *)
Definition lost_run : Trace * Outcome unit :=
  Controller.stream demo_constants empty_host (demo_session true [])
    fixed_clock None "bleak" None None false false false false
    None false false 1 [].

(** The bridge-app path without an address. *)
Definition bridge_run : Trace * Outcome unit :=
  Controller.stream demo_constants empty_host (demo_session true [])
    fixed_clock None "bluemuse" None None false false false false
    None false false 1 [].

(* ================================================================== *)
(** ** Further observations *)

Definition is_print (e : Event) : bool :=
  match e with EvPrint _ => true | _ => false end.

(** A push on the channel of modality [m], or a console line. *)
Definition push_on_or_print (m : Modality) (e : Event) : bool :=
  match e with
  | EvPush m' _ _ => Modality_eqb m' m
  | EvPrint _ => true
  | _ => false
  end.

(** The number of samples of a batch: the pushes its first pass makes. *)
Definition batch_size (data : Data) : nat :=
  match data with
  | Nd2 ncols _ => ncols
  | Nd1 _ => 1
  | PyList samples => List.length samples
  | Scalar _ => 1
  end.

(** The push the first pass makes for element [i] of a list of samples. *)
Definition sample_push (outlet : Outlet) (ts : list Q) (entry : nat * list Q) : Event :=
  EvPush (o_tag outlet) (SList (snd entry))
         (if fst entry <? List.length ts then Some (nth (fst entry) ts 0%Q) else None).

(** No [push_sample] call on the outlet is hit by the operator's interrupt. *)
Definition uninterrupted (outlet : Outlet) : Prop :=
  forall h x t, o_raises outlet h x t <> Some KeyboardInterrupt.

Definition is_adapter_event (e : Event) : bool :=
  match e with
  | EvAdapterNew _ | EvAdapterStart | EvAdapterScan _ | EvAdapterStop => true
  | _ => false
  end.


(** ['\n'.join(lines)] *)
Fixpoint join_lines (lines : list string) : string :=
  match lines with
  | [] => EmptyString
  | [l] => l
  | l :: rest => String.append l (String Text.newline (join_lines rest))
  end.

(** The characters of a text. *)
Fixpoint chars (s : string) : list ascii :=
  match s with
  | EmptyString => []
  | String c s' => c :: chars s'
  end.

(** A line of the [bluetoothctl devices] output. *)
Definition device_line (mac name : string) : string :=
  String.append "Device " (String.append mac (String " " name)).


(** A host with bluetoothctl on the path. *)
Definition bluetoothctl_host : Host :=
  mkHost true (fun _ => inl OtherError) None (inr []) None None None true None
         (inr (device_line "00:55:DA:B0:0B:3D" "Muse-0B3D")).

(** A host whose adapter fails to stop after a scan that saw a headset. *)
Definition stop_failing_host : Host :=
  mkHost false (fun b => inr b) None
         (inr [mkDevice (Some "Muse-AAAA") "AA:AA:AA:AA:AA:AA"])
         (Some BLEError) None None true None
         (inr (device_line "00:55:DA:B0:0B:3D" "Muse-0B3D")).

(** A host whose adapter scan fails outside the BLE layer. *)
Definition crashing_host : Host :=
  mkHost false (fun b => inr b) None (inl OtherError) None None None true None
         (inr (device_line "00:55:DA:B0:0B:3D" "Muse-0B3D")).

(** The modalities a request enables. *)
Definition enabled (ppg_enabled acc_enabled gyro_enabled eeg_disabled : bool)
           (m : Modality) : bool :=
  match m with
  | EEG => negb eeg_disabled
  | PPG => ppg_enabled
  | ACC => acc_enabled
  | GYRO => gyro_enabled
  end.

Definition opened_modality (e : Event) : option Modality :=
  match e with
  | EvOpenOutlet m _ _ => Some m
  | _ => None
  end.

(** The calls discovery makes: on the adapter and on subprocesses. *)
Definition is_discovery_event (e : Event) : bool :=
  match e with
  | EvAdapterNew _ | EvAdapterStart | EvAdapterScan _ | EvAdapterStop
  | EvSubprocess _ | EvTerminate | EvKill | EvTimeSleep _ => true
  | _ => false
  end.

Definition is_muse_new (e : Event) : bool :=
  match e with EvMuseNew _ => true | _ => false end.

Definition is_connect (e : Event) : bool :=
  match e with EvConnect _ => true | _ => false end.

(** No push of a registered callback is hit by the operator's interrupt. *)
Definition quiet_callbacks (callbacks : Modality -> option Outlet) : Prop :=
  forall m outlet, callbacks m = Some outlet -> uninterrupted outlet.

(** The cause the loop reports when the stop condition of a tick holds. *)
Definition stop_cause (tk : Tick) : LoopExit :=
  match last_timestamp tk with
  | Some _ => Stale
  | None => Silent
  end.

(** What [run_session] can do after the connection attempt. *)
Definition is_after_connect (e : Event) : bool :=
  match e with
  | EvPrint _ | EvStart | EvStop | EvDisconnect | EvBackendSleep _
  | EvPush _ _ _ => true
  | _ => false
  end.

(** A host whose adapter does not even start. *)
Definition start_failing_host : Host :=
  mkHost false (fun b => inr b) (Some BLEError) (inr []) None None None true None
         (inr (device_line "00:55:DA:B0:0B:3D" "Muse-0B3D")).

(** Two headsets of the same name and one of another. *)
Definition twin_A : Device := mkDevice (Some "Muse-TWIN") "AA:AA:AA:AA:AA:AA".

Definition twin_B : Device := mkDevice (Some "Muse-TWIN") "BB:BB:BB:BB:BB:BB".

Definition twins_host : Host :=
  mkHost false (fun b => inr b) None (inr [muse_0B3D; twin_A; twin_B])
         None None None false None (inr "").

Definition two_samples : Data := PyList [[1 # 1; 2 # 1]; [3 # 1; 4 # 1]].

(* ================================================================== *)
(** ** Reasoning about programs *)

(** Every event the program adds satisfies [p]. *)
Definition emits {A} (p : Event -> bool) (m : Prog.t A) : Prop :=
  forall h, Forall (fun e => p e = true) (fst (m h)).

(** Every exception the program lets through satisfies [c]. *)
Definition throws {A} (c : PyExc -> bool) (m : Prog.t A) : Prop :=
  forall h e, snd (m h) = Raised e -> c e = true.

(** The program does not wait for the environment script. *)
Definition settles {A} (m : Prog.t A) : Prop :=
  forall h, snd (m h) <> Pending.

(** Every value the program returns satisfies [Q]. *)
Definition yields {A} (Q : A -> Prop) (m : Prog.t A) : Prop :=
  forall h a, snd (m h) = Done a -> Q a.

Section Laws.

Context {A B : Type}.
Implicit Types (m : Prog.t A) (f : A -> Prog.t B).

Lemma bind_done m f h es a :
  m h = (es, Done a) ->
  bind m f h = (es ++ fst (f a (h ++ es)), snd (f a (h ++ es))).
Proof.
  intros E. unfold bind. rewrite E. destruct (f a (h ++ es)); reflexivity.
Qed.

Lemma bind_raised m f h es e :
  m h = (es, Raised e) -> bind m f h = (es, Raised e).
Proof. intros E. unfold bind. rewrite E. reflexivity. Qed.

Lemma bind_pending m f h es :
  m h = (es, Pending) -> bind m f h = (es, Pending).
Proof. intros E. unfold bind. rewrite E. reflexivity. Qed.

Lemma bind_ret (a : A) f h : bind (ret a) f h = f a h.
Proof.
  unfold bind, ret. rewrite app_nil_r. destruct (f a h); reflexivity.
Qed.

Lemma bind_ask (oracle : Trace -> A) f h : bind (ask oracle) f h = f (oracle h) h.
Proof.
  unfold bind, ask. rewrite app_nil_r. destruct (f (oracle h) h); reflexivity.
Qed.

Lemma bind_emit (k : unit -> Prog.t B) e h :
  bind (emit e) k h = (e :: fst (k tt (h ++ [e])), snd (k tt (h ++ [e]))).
Proof.
  unfold bind, emit. destruct (k tt (h ++ [e])); reflexivity.
Qed.

Lemma bind_raise e f h : bind (@raise A e) f h = ([], Raised e).
Proof. reflexivity. Qed.

Lemma bind_fst m f h :
  fst (bind m f h)
  = fst (m h) ++ match snd (m h) with
                 | Done a => fst (f a (h ++ fst (m h)))
                 | _ => []
                 end.
Proof.
  unfold bind. destruct (m h) as [es [a | e |]]; simpl.
  - destruct (f a (h ++ es)); reflexivity.
  - now rewrite app_nil_r.
  - now rewrite app_nil_r.
Qed.

Lemma bind_snd m f h :
  snd (bind m f h)
  = match snd (m h) with
    | Done a => snd (f a (h ++ fst (m h)))
    | Raised e => Raised e
    | Pending => Pending
    end.
Proof.
  unfold bind. destruct (m h) as [es [a | e |]]; simpl; try reflexivity.
  destruct (f a (h ++ es)); reflexivity.
Qed.

Lemma emits_bind p m f :
  emits p m -> (forall a, emits p (f a)) -> emits p (bind m f).
Proof.
  intros Hm Hf h. specialize (Hm h). unfold bind.
  destruct (m h) as [es [a| e |]]; simpl in *; auto.
  specialize (Hf a (h ++ es)). destruct (f a (h ++ es)) as [es' r'].
  simpl in *. apply Forall_app; auto.
Qed.

Lemma throws_bind c m f :
  throws c m -> (forall a, throws c (f a)) -> throws c (bind m f).
Proof.
  intros Hm Hf h e. specialize (Hm h). unfold bind.
  destruct (m h) as [es [a| e' |]]; simpl in *.
  - specialize (Hf a (h ++ es)). destruct (f a (h ++ es)) as [es' r'].
    simpl in *. auto.
  - intros [= ->]. auto.
  - discriminate.
Qed.

Lemma settles_bind m f :
  settles m -> (forall a, settles (f a)) -> settles (bind m f).
Proof.
  intros Hm Hf h. specialize (Hm h). unfold bind.
  destruct (m h) as [es [a| e' |]]; simpl in *.
  - specialize (Hf a (h ++ es)). destruct (f a (h ++ es)) as [es' r'].
    simpl in *. auto.
  - discriminate.
  - congruence.
Qed.

Lemma yields_bind (P : A -> Prop) (Q : B -> Prop) m f :
  yields P m -> (forall a, P a -> yields Q (f a)) -> yields Q (bind m f).
Proof.
  intros Hm Hf h b. specialize (Hm h). unfold bind.
  destruct (m h) as [es [a| e' |]]; simpl in *; try discriminate.
  specialize (Hf a (Hm a eq_refl) (h ++ es)).
  destruct (f a (h ++ es)) as [es' r']. simpl in *. auto.
Qed.

End Laws.

Section LawsLeaf.

Context {A : Type}.

Lemma emits_ret p (a : A) : emits p (ret a).
Proof. intros h. constructor. Qed.

Lemma emits_raise p e : emits p (@raise A e).
Proof. intros h. constructor. Qed.

Lemma emits_pending p : emits p (@pending A).
Proof. intros h. constructor. Qed.

Lemma emits_ask p (o : Trace -> A) : emits p (ask o).
Proof. intros h. constructor. Qed.

Lemma emits_emit p e : p e = true -> emits p (emit e).
Proof. intros He h. simpl. auto. Qed.

Lemma emits_check p r : emits p (check r).
Proof. destruct r; intros h; constructor. Qed.

Lemma emits_answer p (r : PyExc + A) : emits p (answer r).
Proof. destruct r; intros h; constructor. Qed.

Lemma settles_ret (a : A) : settles (ret a).
Proof. intros h. discriminate. Qed.

Lemma settles_raise e : settles (@raise A e).
Proof. intros h. discriminate. Qed.

Lemma settles_ask (o : Trace -> A) : settles (ask o).
Proof. intros h. discriminate. Qed.

Lemma settles_emit e : settles (emit e).
Proof. intros h. discriminate. Qed.

Lemma settles_check r : settles (check r).
Proof. destruct r; intros h; discriminate. Qed.

Lemma yields_ret (Q : A -> Prop) (a : A) : Q a -> yields Q (ret a).
Proof. intros Ha h a' [= <-]. exact Ha. Qed.

Lemma yields_raise (Q : A -> Prop) e : yields Q (raise e).
Proof. intros h a. discriminate. Qed.

Lemma yields_any (m : Prog.t A) : yields (fun _ => True) m.
Proof. intros h a _. exact I. Qed.

Lemma throws_ret c (a : A) : throws c (ret a).
Proof. intros h e. discriminate. Qed.

Lemma throws_ask c (o : Trace -> A) : throws c (ask o).
Proof. intros h e. discriminate. Qed.

Lemma throws_emit c e : throws c (emit e).
Proof. intros h e'. discriminate. Qed.

Lemma throws_raise c e : c e = true -> throws c (@raise A e).
Proof. intros He h e' [= <-]. exact He. Qed.

End LawsLeaf.

Section LawsBlock.

Context {A : Type}.

Lemma try_except_done (body : Prog.t A) c handler h es a :
  body h = (es, Done a) -> try_except body c handler h = (es, Done a).
Proof. intros E. unfold try_except. rewrite E. reflexivity. Qed.

Lemma try_except_pending (body : Prog.t A) c handler h es :
  body h = (es, Pending) -> try_except body c handler h = (es, Pending).
Proof. intros E. unfold try_except. rewrite E. reflexivity. Qed.

Lemma try_except_uncaught (body : Prog.t A) c handler h es e :
  body h = (es, Raised e) -> c e = false ->
  try_except body c handler h = (es, Raised e).
Proof. intros E Hc. unfold try_except. rewrite E, Hc. reflexivity. Qed.

Lemma try_except_caught (body : Prog.t A) c handler h es e :
  body h = (es, Raised e) -> c e = true ->
  try_except body c handler h
  = (es ++ fst (handler e (h ++ es)), snd (handler e (h ++ es))).
Proof.
  intros E Hc. unfold try_except. rewrite E, Hc.
  destruct (handler e (h ++ es)); reflexivity.
Qed.

Lemma yields_try (Q : A -> Prop) (body : Prog.t A) c handler :
  yields Q body -> (forall e, yields Q (handler e)) ->
  yields Q (try_except body c handler).
Proof.
  intros Hb Hh h a. specialize (Hb h). unfold try_except.
  destruct (body h) as [es [a' | e |]]; simpl in *; auto; try discriminate.
  destruct (c e); simpl; try discriminate.
  specialize (Hh e (h ++ es)). destruct (handler e (h ++ es)) as [es' r'].
  simpl in *. auto.
Qed.

Lemma emits_try p (body : Prog.t A) c handler :
  emits p body -> (forall e, emits p (handler e)) ->
  emits p (try_except body c handler).
Proof.
  intros Hb Hh h. specialize (Hb h). unfold try_except.
  destruct (body h) as [es [a| e |]]; simpl in *; auto.
  destruct (c e); simpl; auto.
  specialize (Hh e (h ++ es)). destruct (handler e (h ++ es)) as [es' r'].
  simpl in *. apply Forall_app; auto.
Qed.

Lemma emits_finally p (body : Prog.t A) fin :
  emits p body -> emits p fin -> emits p (finally body fin).
Proof.
  intros Hb Hf h. specialize (Hb h). unfold finally.
  destruct (body h) as [es [a| e |]]; simpl in *; auto;
    specialize (Hf (h ++ es)); destruct (fin (h ++ es)) as [es' r'];
    simpl in *; apply Forall_app; auto.
Qed.

Lemma emits_for_each p (xs : list A) body :
  (forall x, emits p (body x)) -> emits p (for_each xs body).
Proof.
  intros Hb. induction xs as [| x xs IH]; simpl.
  - apply emits_ret.
  - apply emits_bind; auto.
Qed.

Lemma settles_try (body : Prog.t A) c handler :
  settles body -> (forall e, settles (handler e)) ->
  settles (try_except body c handler).
Proof.
  intros Hb Hh h. specialize (Hb h). unfold try_except.
  destruct (body h) as [es [a| e |]]; simpl in *; try congruence.
  destruct (c e); simpl; try discriminate.
  specialize (Hh e (h ++ es)). destruct (handler e (h ++ es)) as [es' r'].
  simpl in *. auto.
Qed.

Lemma settles_for_each (xs : list A) body :
  (forall x, settles (body x)) -> settles (for_each xs body).
Proof.
  intros Hb. induction xs as [| x xs IH]; simpl.
  - apply settles_ret.
  - apply settles_bind; auto.
Qed.

Lemma throws_for_each c (xs : list A) body :
  (forall x, throws c (body x)) -> throws c (for_each xs body).
Proof.
  intros Hb. induction xs as [| x xs IH]; simpl.
  - apply throws_ret.
  - apply throws_bind; auto.
Qed.

(** A handler that does not raise leaves only the uncaught classes. *)
Lemma throws_try_uncaught (body : Prog.t A) c handler :
  (forall e, throws (fun _ => false) (handler e)) ->
  throws (fun e => negb (c e)) (try_except body c handler).
Proof.
  intros Hh h e. unfold try_except.
  destruct (body h) as [es [a| e' |]]; simpl; try discriminate.
  destruct (c e') eqn:Hc; simpl.
  - specialize (Hh e' (h ++ es)). destruct (handler e' (h ++ es)) as [es' r'].
    simpl in *. intros E. apply Hh in E. discriminate.
  - intros [= <-]. rewrite Hc. reflexivity.
Qed.

Lemma throws_try_all (body : Prog.t A) handler :
  (forall e, throws (fun _ => false) (handler e)) ->
  throws (fun _ => false) (try_except body (fun _ => true) handler).
Proof.
  intros Hh h e E. apply (throws_try_uncaught body (fun _ => true) handler Hh) in E.
  discriminate.
Qed.

(** Whatever is not caught must be of class [c]. *)
Lemma throws_try_gen c (body : Prog.t A) catches handler :
  (forall e, catches e = false -> c e = true) ->
  (forall e, throws c (handler e)) ->
  throws c (try_except body catches handler).
Proof.
  intros Hc Hh h e. unfold try_except.
  destruct (body h) as [es [a | e' |]]; simpl; try discriminate.
  destruct (catches e') eqn:He'.
  - specialize (Hh e' (h ++ es)). destruct (handler e' (h ++ es)) as [es' r'].
    simpl in *. auto.
  - intros [= <-]. auto.
Qed.

(** A body that raises only what is caught. *)
Lemma throws_try_caught c (body : Prog.t A) catches handler :
  throws catches body ->
  (forall e, throws c (handler e)) ->
  throws c (try_except body catches handler).
Proof.
  intros Hb Hh h e. specialize (Hb h). unfold try_except.
  destruct (body h) as [es [a | e' |]]; simpl in *; try discriminate.
  rewrite (Hb e' eq_refl).
  specialize (Hh e' (h ++ es)). destruct (handler e' (h ++ es)) as [es' r'].
  simpl in *. auto.
Qed.

End LawsBlock.

Lemma count_app p (a b : Trace) : count p (a ++ b) = count p a + count p b.
Proof. unfold count. rewrite filter_app, length_app. reflexivity. Qed.

Lemma count_none p (tr : Trace) :
  Forall (fun e => p e = false) tr -> count p tr = 0.
Proof.
  unfold count. induction 1 as [| e tr He _ IH]; simpl; [reflexivity |].
  rewrite He. exact IH.
Qed.

(** A program that emits only events of class [q] emits none of a disjoint
    class [p]. *)
Lemma emits_count {A} p q (m : Prog.t A) :
  (forall e, q e = true -> p e = false) -> emits q m ->
  forall h, count p (fst (m h)) = 0.
Proof.
  intros Hpq Hm h. apply count_none.
  eapply Forall_impl; [| exact (Hm h)]. exact Hpq.
Qed.

Ltac prog_step lem_bind lem_try lem_each :=
  first
    [ apply lem_bind; [| intros ?]
    | apply lem_try; [| intros ?]
    | apply lem_each; intros ?
    | match goal with
      | |- context [match ?x with _ => _ end] => destruct x
      end ].

(** Discharges [emits p m] for a program built from the combinators. *)
Ltac prog_emits :=
  repeat first
    [ apply emits_ret | apply emits_raise | apply emits_pending | apply emits_ask
    | apply emits_check | apply emits_answer
    | apply emits_emit; reflexivity
    | assumption
    | prog_step @emits_bind @emits_try @emits_for_each ].

(* ================================================================== *)
(** ** Session Controller: requests that never reach the device *)

Section Requests.

Variable K : Constants.
Variable H : Host.
Variable S : Session.
Variable time : Trace -> Q.

(** C6.  A request that disables every modality (EEG disabled; PPG, ACC and
    GYRO not enabled) prints the nothing-to-stream message and returns at
    once: the message is the only event of the run, so no channel is opened,
    no discovery is attempted and no session object is constructed. *)
Theorem stream_rejects_request_without_modality :
  forall address backend interface name preset disable_light lsl_time retries h,
    Controller.stream K H S time address backend interface name
      false false false true preset disable_light lsl_time retries h
    = ([EvPrint (Text "Stream initiation failed: At least one data source must be enabled.")],
       Done tt).
Proof. reflexivity. Qed.

(** C10.  With backend 'bluemuse' and at least one modality enabled, [stream]
    launches the four bridge-app URIs, constructs the session with the four
    callbacks set to None, calls connect, prints the targeting lines, calls
    start and returns: the supervisor loop is not entered (no sleep) and
    neither stop nor disconnect is called. *)
Theorem bluemuse_stream_skips_loop_and_teardown :
  forall address interface name ppg_enabled acc_enabled gyro_enabled eeg_disabled
         preset disable_light lsl_time retries h,
    eeg_disabled && negb ppg_enabled && negb acc_enabled && negb gyro_enabled = false ->
    let tr := bluemuse_trace address interface name
                ppg_enabled acc_enabled gyro_enabled eeg_disabled retries in
    Controller.stream K H S time address "bluemuse" interface name
      ppg_enabled acc_enabled gyro_enabled eeg_disabled
      preset disable_light lsl_time retries h = (tr, Done tt)
    /\ count is_backend_sleep tr = 0
    /\ count is_teardown tr = 0.
Proof.
  intros address interface name ppg acc gyro eeg preset dl lsl retries h Hen tr.
  split; [| split; reflexivity].
  unfold Controller.stream, Controller.stream_bluemuse. rewrite Hen. subst tr.
  unfold bluemuse_trace, Controller.target.
  destruct eeg, ppg, acc, gyro, (Py.truthy address), (Py.truthy name);
    reflexivity.
Qed.

End Requests.

(* ================================================================== *)
(** ** Sample Router *)

Ltac prog_settles :=
  repeat first
    [ apply settles_ret | apply settles_raise | apply settles_ask
    | apply settles_emit | apply settles_check
    | assumption
    | prog_step @settles_bind @settles_try @settles_for_each ].

Section RouterFacts.

Variable time : Trace -> Q.

Lemma push_sample_accepted outlet x t h :
  accepts outlet ->
  Router.push_sample outlet x t h = ([EvPush (o_tag outlet) x t], Done tt).
Proof.
  intros Hacc. unfold Router.push_sample, bind, ask, emit, check.
  rewrite Hacc. reflexivity.
Qed.

(** A [push_sample] call adds its own event, whatever its outcome. *)
Lemma push_sample_event outlet x t h :
  fst (Router.push_sample outlet x t h) = [EvPush (o_tag outlet) x t].
Proof.
  unfold Router.push_sample, bind, ask, emit, check.
  destruct (o_raises outlet h x t); reflexivity.
Qed.

Lemma for_each_map {A} (g : A -> Event) (body : A -> Prog.t unit) :
  (forall x h, body x h = ([g x], Done tt)) ->
  forall xs h, for_each xs body h = (map g xs, Done tt).
Proof.
  intros Hbody xs. induction xs as [| x xs IH]; intros h; simpl.
  - reflexivity.
  - unfold bind. rewrite Hbody, IH. reflexivity.
Qed.

Lemma dispatch_settles data timestamps outlet :
  settles (Router.dispatch data timestamps outlet).
Proof.
  unfold Router.dispatch, Router.push_sample, Router.len.
  destruct data, timestamps; prog_settles.
Qed.

Lemma fallback_settles data timestamps outlet :
  settles (Router.fallback time data timestamps outlet).
Proof.
  unfold Router.fallback, Router.push_sample, Router.len.
  destruct data, timestamps; prog_settles.
Qed.

Lemma fixed_push_settles data timestamps outlet :
  settles (Router.fixed_push time data timestamps outlet).
Proof.
  unfold Router.fixed_push.
  apply settles_try; [apply dispatch_settles |].
  intros e. apply settles_bind; [apply settles_emit |].
  intros _. apply settles_try; [apply fallback_settles |].
  intros _. apply settles_ret.
Qed.

(** Only a KeyboardInterrupt leaves the router. *)
Lemma fixed_push_throws data timestamps outlet :
  throws is_KeyboardInterrupt (Router.fixed_push time data timestamps outlet).
Proof.
  intros h e E.
  assert (Hn : negb (is_Exception e) = true).
  { revert E. apply throws_try_uncaught.
    intros e'. apply throws_bind; [apply throws_emit |].
    intros _. apply throws_try_all. intros _. apply throws_ret. }
  destruct e; simpl in *; congruence.
Qed.

Lemma fixed_push_emits data timestamps outlet :
  emits (fun e => is_push e || match e with EvPrint _ => true | _ => false end)
        (Router.fixed_push time data timestamps outlet).
Proof.
  unfold Router.fixed_push, Router.dispatch, Router.fallback,
    Router.push_sample, Router.len.
  destruct data, timestamps; prog_emits.
Qed.

(** What a push raises, short of the operator's interrupt, is of class
    Exception. *)
Lemma push_sample_throws outlet x t :
  uninterrupted outlet ->
  throws is_Exception (Router.push_sample outlet x t).
Proof.
  intros Hun h e. unfold Router.push_sample, bind, ask, emit, check.
  specialize (Hun h x t).
  destruct (o_raises outlet h x t) as [e' |]; simpl; [| discriminate].
  intros [= <-]. destruct e'; try reflexivity. congruence.
Qed.

Lemma dispatch_throws data timestamps outlet :
  uninterrupted outlet ->
  throws is_Exception (Router.dispatch data timestamps outlet).
Proof.
  intros Hun. unfold Router.dispatch, Router.len.
  destruct data, timestamps;
    repeat first
      [ apply throws_ret
      | apply throws_raise; reflexivity
      | apply push_sample_throws; assumption
      | apply throws_bind; [| intros ?]
      | apply throws_for_each; intros ?
      | match goal with
        | |- context [match ?x with _ => _ end] => destruct x
        end ].
Qed.

(** On an outlet that the interrupt does not hit the router raises nothing. *)
Lemma fixed_push_contained data timestamps outlet :
  uninterrupted outlet ->
  throws (fun _ => false) (Router.fixed_push time data timestamps outlet).
Proof.
  intros Hun. unfold Router.fixed_push.
  apply throws_try_caught; [apply dispatch_throws; assumption |].
  intros e. apply throws_bind; [apply throws_emit | intros _].
  apply throws_try_all. intros _. apply throws_ret.
Qed.

End RouterFacts.

Section RouterClaims.

Variable time : Trace -> Q.

(** One column (or the object) of the fallback pass: the length test, the
    choice of the timestamp and the push. *)
Lemma fallback_one timestamps outlet (x : Sample) (i : nat) h :
  let m := (n <- Router.len timestamps ;;
            t <- (if i <? n then ret (Router.item timestamps i) else ask time) ;;
            Router.push_sample outlet x (Some t)) in
  (fst (m h) = [] /\ snd (m h) <> Done tt)
  \/ (exists t, fst (m h) = [EvPush (o_tag outlet) x (Some t)]
                /\ fallback_stamp timestamps i t).
Proof.
  destruct timestamps as [ts |]; simpl.
  - right. unfold bind at 1. simpl.
    destruct (i <? List.length ts) eqn:Hlt; unfold bind; simpl.
    + pose proof (push_sample_event outlet x (Some (nth i ts 0%Q)) ((h ++ []) ++ [])) as E.
      destruct (Router.push_sample outlet x (Some (nth i ts 0%Q)) ((h ++ []) ++ []))
        as [es r]. simpl in *. subst es.
      exists (nth i ts 0%Q). split; [reflexivity |].
      intros ts' [= <-] _. reflexivity.
    + pose proof (push_sample_event outlet x (Some (time (h ++ []))) ((h ++ []) ++ [])) as E.
      destruct (Router.push_sample outlet x (Some (time (h ++ []))) ((h ++ []) ++ []))
        as [es r]. simpl in *. subst es.
      exists (time (h ++ [])). split; [reflexivity |].
      intros ts' [= <-] Hi. apply Nat.ltb_ge in Hlt. lia.
  - left. split; [reflexivity | discriminate].
Qed.

(** One push of the fallback pass: the length test, the choice of the
    timestamp and the call. *)
Lemma fallback_step ts outlet (x : Sample) (i : nat) h :
  (n <- Router.len (TsSeq ts) ;;
   t <- (if i <? n then ret (Router.item (TsSeq ts) i) else ask time) ;;
   Router.push_sample outlet x (Some t)) h
  = ([EvPush (o_tag outlet) x (Some (fallback_time time ts i h))],
     match o_raises outlet h x (Some (fallback_time time ts i h)) with
     | Some e => Raised e
     | None => Done tt
     end).
Proof.
  unfold fallback_time, Router.len, Router.item. rewrite bind_ret.
  assert (Hpush : forall t,
             Router.push_sample outlet x t h
             = ([EvPush (o_tag outlet) x t],
                match o_raises outlet h x t with
                | Some e => Raised e
                | None => Done tt
                end)).
  { intros t. unfold Router.push_sample. rewrite bind_ask, bind_emit.
    destruct (o_raises outlet h x t); reflexivity. }
  destruct (i <? List.length ts); [rewrite bind_ret | rewrite bind_ask];
    apply Hpush.
Qed.

Lemma fallback_columns_run ts outlet rows cols : forall h,
  fst (for_each cols (fun ii =>
         n <- Router.len (TsSeq ts) ;;
         t <- (if ii <? n then ret (Router.item (TsSeq ts) ii) else ask time) ;;
         Router.push_sample outlet (SArray (Router.column ii rows)) (Some t)) h)
  = fallback_columns time outlet rows ts cols h.
Proof.
  induction cols as [| ii rest IH]; intros h; [reflexivity |].
  cbn [for_each fallback_columns]. rewrite bind_fst, fallback_step.
  cbn [fst snd].
  destruct (o_raises outlet h (SArray (Router.column ii rows))
              (Some (fallback_time time ts ii h))).
  - reflexivity.
  - rewrite IH. reflexivity.
Qed.

(** The events of the fallback pass. *)
Lemma fallback_run data timestamps outlet h :
  fst (Router.fallback time data timestamps outlet h)
  = fallback_events time outlet data timestamps h.
Proof.
  destruct timestamps as [ts |].
  - destruct data as [ncols rows | xs | samples | x];
      cbn [Router.fallback fallback_events];
      first [apply fallback_columns_run | rewrite fallback_step; reflexivity].
  - destruct data as [[| ncols] rows | xs | samples | x]; reflexivity.
Qed.

(** The [except Exception] handler: the report, then the fallback pass with
    every failure swallowed. *)
Lemma handler_run data timestamps outlet e h :
  (emit (EvPrint (TextExc "Fixed push error: " e)) ;;
   try_except (Router.fallback time data timestamps outlet)
              (fun _ => true) (fun _ => ret tt)) h
  = (EvPrint (TextExc "Fixed push error: " e)
       :: fst (Router.fallback time data timestamps outlet
                 (h ++ [EvPrint (TextExc "Fixed push error: " e)])),
     Done tt).
Proof.
  unfold bind, emit, try_except.
  pose proof (fallback_settles time data timestamps outlet
                (h ++ [EvPrint (TextExc "Fixed push error: " e)])) as Hst.
  destruct (Router.fallback time data timestamps outlet
              (h ++ [EvPrint (TextExc "Fixed push error: " e)])) as [fb rf].
  simpl in *. destruct rf as [[] | e' |]; simpl.
  - reflexivity.
  - rewrite app_nil_r. reflexivity.
  - congruence.
Qed.

(** C3 (amended).  A failure of class Exception raised while routing is
    caught inside the router and reported on the console; the router then
    runs the fallback pass once: for a 2-D batch it pushes the columns again
    from column 0 on, each with its supplied timestamp when there is one and
    with a wall-clock reading otherwise, up to the first push that fails; for
    any other batch it pushes the data object once, stamped the same way;
    with timestamps that have no length it pushes nothing.  Whatever fails in
    the fallback pass is swallowed and the rest of the batch is dropped.  The
    router always returns, and the only exception that leaves it is a
    KeyboardInterrupt raised in the first pass. *)
Theorem fixed_push_contains_failures :
  forall data timestamps outlet h,
    let first_pass := fst (Router.dispatch data timestamps outlet h) in
    let r := snd (Router.dispatch data timestamps outlet h) in
    let tr := fst (Router.fixed_push time data timestamps outlet h) in
    let out := snd (Router.fixed_push time data timestamps outlet h) in
    (out = Done tt \/ out = Raised KeyboardInterrupt)
    /\ (r = Done tt -> tr = first_pass /\ out = Done tt)
    /\ (r = Raised KeyboardInterrupt ->
        tr = first_pass /\ out = Raised KeyboardInterrupt)
    /\ (forall e, r = Raised e -> is_Exception e = true ->
        let report := EvPrint (TextExc "Fixed push error: " e) in
        out = Done tt
        /\ tr = first_pass ++ report
                  :: fallback_events time outlet data timestamps
                       (h ++ first_pass ++ [report])).
Proof.
  intros data timestamps outlet h first_pass r tr out.
  split; [| split; [| split]].
  - pose proof (fixed_push_settles time data timestamps outlet h) as Hs.
    pose proof (fixed_push_throws time data timestamps outlet h) as Ht.
    fold out in Hs, Ht. destruct out as [[] | e |].
    + left; reflexivity.
    + right. specialize (Ht e eq_refl). destruct e; try discriminate. reflexivity.
    + congruence.
  - subst first_pass r tr out. unfold Router.fixed_push, try_except.
    destruct (Router.dispatch data timestamps outlet h) as [es rr]; simpl.
    intros ->. split; reflexivity.
  - subst first_pass r tr out. unfold Router.fixed_push, try_except.
    destruct (Router.dispatch data timestamps outlet h) as [es rr]; simpl.
    intros ->. split; reflexivity.
  - intros e Hr He report. subst first_pass r tr out report.
    unfold Router.fixed_push.
    destruct (Router.dispatch data timestamps outlet h) as [es rr] eqn:E.
    cbn [fst snd] in *. subst rr.
    rewrite (try_except_caught _ _ _ _ _ _ E He), handler_run. cbn [fst snd].
    split; [reflexivity |]. rewrite fallback_run, <- app_assoc. reflexivity.
Qed.

Lemma count_column_pushes outlet rows ts (l : list nat) :
  count is_push (map (column_push outlet rows ts) l) = List.length l.
Proof.
  unfold count. induction l as [| i l IH]; simpl; [reflexivity | now rewrite IH].
Qed.

(** The first pass over the columns [s .. s+n-1], none of whose pushes
    raises. *)
Lemma first_pass_run outlet rows ts n : forall s h,
  (forall i, i < n ->
     o_raises outlet (h ++ map (column_push outlet rows ts) (seq s i))
              (SList (Router.column (s + i) rows))
              (if s + i <? List.length ts then Some (nth (s + i) ts 0%Q) else None)
     = None) ->
  for_each (seq s n) (fun ii =>
    n <- Router.len (TsSeq ts) ;;
    if ii <? n
    then Router.push_sample outlet (SList (Router.column ii rows))
           (Some (Router.item (TsSeq ts) ii))
    else Router.push_sample outlet (SList (Router.column ii rows)) None) h
  = (map (column_push outlet rows ts) (seq s n), Done tt).
Proof.
  induction n as [| n IH]; intros s h Hacc; [reflexivity |].
  cbn [seq for_each map].
  assert (Hhead : (n0 <- Router.len (TsSeq ts) ;;
                   if s <? n0
                   then Router.push_sample outlet (SList (Router.column s rows))
                          (Some (Router.item (TsSeq ts) s))
                   else Router.push_sample outlet (SList (Router.column s rows))
                          None) h
                  = ([column_push outlet rows ts s], Done tt)).
  { unfold Router.len. rewrite bind_ret. unfold column_push, Router.item.
    pose proof (Hacc 0 (Nat.lt_0_succ n)) as H0.
    cbn [seq map] in H0. rewrite app_nil_r, Nat.add_0_r in H0.
    destruct (s <? List.length ts);
      unfold Router.push_sample; rewrite bind_ask, bind_emit, H0; reflexivity. }
  rewrite (bind_done _ _ _ _ _ Hhead). cbn [fst snd].
  rewrite IH; [reflexivity |].
  intros i Hi. pose proof (Hacc (Datatypes.S i) (proj1 (Nat.succ_lt_mono i n) Hi)) as Hs.
  cbn [seq map] in Hs. rewrite Nat.add_succ_r in Hs.
  rewrite <- app_assoc. exact Hs.
Qed.

(** C4 (amended).  When no push of the first pass raises (so on an outlet
    that accepts every push), a 2-D batch with [ncols] columns makes the
    router issue [ncols] pushes, one per column in order, and return normally.  With [ncols] timestamps column [i] is paired
    with [timestamps[i]]; with fewer timestamps the columns at the indices
    from [len(timestamps)] on are pushed without a timestamp.  On any outlet
    the router ends, and no exception of class Exception leaves it: what
    leaves it, if anything, is a KeyboardInterrupt raised in the first pass,
    which takes a push that raises one. *)
Theorem fixed_push_routes_columns :
  forall ncols rows ts outlet h,
    let run := Router.fixed_push time (Nd2 ncols rows) (TsSeq ts) outlet h in
    (accepts outlet -> accepts_columns outlet rows ts ncols h)
    /\ (accepts_columns outlet rows ts ncols h ->
     run = (map (column_push outlet rows ts) (seq 0 ncols), Done tt)
     /\ count is_push (fst run) = ncols
     /\ (List.length ts = ncols ->
         fst run = map (fun i => EvPush (o_tag outlet) (SList (Router.column i rows))
                                        (Some (nth i ts 0%Q)))
                       (seq 0 ncols))
     /\ (List.length ts < ncols ->
         forall i, List.length ts <= i < ncols ->
           nth_error (fst run) i
           = Some (EvPush (o_tag outlet) (SList (Router.column i rows)) None)))
    /\ snd run <> Pending
    /\ (forall e,
           snd run = Raised e ->
           e = KeyboardInterrupt
           /\ snd (Router.dispatch (Nd2 ncols rows) (TsSeq ts) outlet h)
              = Raised KeyboardInterrupt)
    /\ (uninterrupted outlet -> snd run = Done tt).
Proof.
  intros ncols rows ts outlet h run.
  assert (Hleaves : forall e,
             snd run = Raised e ->
             e = KeyboardInterrupt
             /\ snd (Router.dispatch (Nd2 ncols rows) (TsSeq ts) outlet h)
                = Raised KeyboardInterrupt).
  { intros e. subst run. unfold Router.fixed_push.
    destruct (Router.dispatch (Nd2 ncols rows) (TsSeq ts) outlet h)
      as [es [[] | e0 |]] eqn:E.
    - rewrite (try_except_done _ _ _ _ _ _ E). discriminate.
    - destruct (is_Exception e0) eqn:He0.
      + rewrite (try_except_caught _ _ _ _ _ _ E He0), handler_run. discriminate.
      + rewrite (try_except_uncaught _ _ _ _ _ _ E He0). cbn [snd].
        intros [= <-]. destruct e0; try discriminate He0. split; reflexivity.
    - rewrite (try_except_pending _ _ _ _ _ E). discriminate. }
  split; [| split; [| split; [apply fixed_push_settles | split; [exact Hleaves |]]]].
  - intros Hacc i _. apply Hacc.
  - intros Hacc.
    assert (Hrun : run = (map (column_push outlet rows ts) (seq 0 ncols), Done tt)).
    { subst run. unfold Router.fixed_push.
      apply try_except_done. unfold Router.dispatch.
      apply first_pass_run. exact Hacc. }
    rewrite Hrun. simpl. split; [reflexivity | split; [| split]].
    + rewrite count_column_pushes. apply length_seq.
    + intros Hlen. apply map_ext_in. intros i Hi. apply in_seq in Hi.
      unfold column_push.
      replace (i <? List.length ts) with true; [reflexivity |].
      symmetry. apply Nat.ltb_lt. lia.
    + intros Hlen i Hi. rewrite nth_error_map, nth_error_seq.
      replace (i <? ncols) with true by (symmetry; apply Nat.ltb_lt; lia).
      simpl. unfold column_push.
      replace (i <? List.length ts) with false; [reflexivity |].
      symmetry. apply Nat.ltb_ge. lia.
  - intros Hun.
    pose proof (fixed_push_settles time (Nd2 ncols rows) (TsSeq ts) outlet h) as Hs.
    pose proof (fixed_push_contained time (Nd2 ncols rows) (TsSeq ts) outlet Hun h)
      as Hc.
    fold run in Hs, Hc. destruct (snd run) as [[] | e |].
    + reflexivity.
    + discriminate (Hc e eq_refl).
    + congruence.
Qed.

End RouterClaims.

(** C3, as stated, fails.  One channel, three samples, three timestamps, on an
    outlet whose first call raises: the first pass stops at column 0, and the
    fallback pass pushes all three columns, each with its supplied timestamp;
    the wall clock (999) is never used.  And on an outlet during whose call
    the operator's interrupt arrives, the KeyboardInterrupt leaves the
    router. *)
Lemma fallback_repeats_every_column :
  Router.fixed_push fixed_clock batch_1x3 stamps_3 flaky_outlet []
  = ([EvPush EEG (SList [1 # 1]) (Some (10 # 1));
      EvPrint (TextExc "Fixed push error: " OtherError);
      EvPush EEG (SArray [1 # 1]) (Some (10 # 1));
      EvPush EEG (SArray [2 # 1]) (Some (11 # 1));
      EvPush EEG (SArray [3 # 1]) (Some (12 # 1))],
     Done tt)
  /\ ~ single_clock_stamped_fallback fixed_clock batch_1x3 stamps_3 flaky_outlet []
  /\ Router.fixed_push fixed_clock batch_1x3 stamps_3 interrupting_outlet []
     = ([EvPush EEG (SList [1 # 1]) (Some (10 # 1))], Raised KeyboardInterrupt).
Proof.
  split; [reflexivity | split; [| reflexivity]].
  intros Hclaim. destruct (Hclaim OtherError eq_refl) as [_ [x [h' E]]].
  vm_compute in E. discriminate E.
Qed.

(** On an outlet that rejects every call the fallback pass makes one push,
    and it carries the supplied timestamp, not the wall clock. *)
Example fallback_on_rejecting_outlet :
  Router.fixed_push fixed_clock batch_1x3 stamps_3 rejecting_outlet []
  = ([EvPush EEG (SList [1 # 1]) (Some (10 # 1));
      EvPrint (TextExc "Fixed push error: " OtherError);
      EvPush EEG (SArray [1 # 1]) (Some (10 # 1))],
     Done tt).
Proof. reflexivity. Qed.

(** A KeyboardInterrupt raised in the first pass is not of class Exception
    and leaves the router. *)
Example keyboard_interrupt_leaves_router :
  Router.fixed_push fixed_clock batch_1x3 stamps_3 interrupting_outlet []
  = ([EvPush EEG (SList [1 # 1]) (Some (10 # 1))], Raised KeyboardInterrupt).
Proof. reflexivity. Qed.

(** With timestamps that have no length neither pass pushes anything. *)
Example fallback_without_length :
  Router.fixed_push fixed_clock batch_1x3 TsUnsized sound_outlet []
  = ([EvPrint (TextExc "Fixed push error: " TypeError)], Done tt).
Proof. reflexivity. Qed.

Lemma fixed_push_contains_failures_witness :
  snd (Router.dispatch batch_1x3 (TsSeq [10 # 1]) flaky_outlet []) = Raised OtherError
  /\ is_Exception OtherError = true
  /\ Router.fixed_push fixed_clock batch_1x3 (TsSeq [10 # 1]) flaky_outlet []
     = ([EvPush EEG (SList [1 # 1]) (Some (10 # 1));
         EvPrint (TextExc "Fixed push error: " OtherError);
         EvPush EEG (SArray [1 # 1]) (Some (10 # 1));
         EvPush EEG (SArray [2 # 1]) (Some (999 # 1));
         EvPush EEG (SArray [3 # 1]) (Some (999 # 1))],
        Done tt)
  /\ Router.fixed_push fixed_clock batch_1x3 stamps_3 rejecting_outlet []
     = ([EvPush EEG (SList [1 # 1]) (Some (10 # 1));
         EvPrint (TextExc "Fixed push error: " OtherError);
         EvPush EEG (SArray [1 # 1]) (Some (10 # 1))],
        Done tt).
Proof.
  split; [reflexivity | split; [reflexivity |]].
  destruct (fixed_push_contains_failures fixed_clock batch_1x3 (TsSeq [10 # 1])
              flaky_outlet []) as [_ [_ [_ Hflaky]]].
  destruct (fixed_push_contains_failures fixed_clock batch_1x3 stamps_3
              rejecting_outlet []) as [_ [_ [_ Hrejecting]]].
  destruct (Hflaky OtherError eq_refl eq_refl) as [Hout Htr].
  destruct (Hrejecting OtherError eq_refl eq_refl) as [Hout' Htr'].
  split; apply injective_projections; cbn [fst snd];
    first [exact Hout | exact Hout' | rewrite Htr; reflexivity
          | rewrite Htr'; reflexivity].
Defined.

(** C4, as stated, fails on an outlet whose pushes raise.  One channel, three
    samples.  With three timestamps and an outlet whose first call raises, the
    router makes four pushes, not three.  With one timestamp, the fallback
    pass pushes the columns 1 and 2 with an explicit wall-clock timestamp
    (999) that was not supplied.  And a KeyboardInterrupt raised by a push
    leaves the router. *)
Lemma routing_breaks_on_raising_outlet :
  count is_push (fst (Router.fixed_push fixed_clock batch_1x3 stamps_3
                        flaky_outlet [])) = 4
  /\ ~ routes_columns_as_specified fixed_clock 3 [[1 # 1; 2 # 1; 3 # 1]]
         [10 # 1; 11 # 1; 12 # 1] flaky_outlet []
  /\ In (EvPush EEG (SArray [2 # 1]) (Some (999 # 1)))
        (fst (Router.fixed_push fixed_clock batch_1x3 (TsSeq [10 # 1])
                flaky_outlet []))
  /\ ~ routes_columns_as_specified fixed_clock 3 [[1 # 1; 2 # 1; 3 # 1]]
         [10 # 1] flaky_outlet []
  /\ snd (Router.fixed_push fixed_clock batch_1x3 (TsSeq [10 # 1])
            interrupting_outlet []) = Raised KeyboardInterrupt
  /\ ~ routes_columns_as_specified fixed_clock 3 [[1 # 1; 2 # 1; 3 # 1]]
         [10 # 1] interrupting_outlet [].
Proof.
  assert (Hstamp : In (EvPush EEG (SArray [2 # 1]) (Some (999 # 1)))
                      (fst (Router.fixed_push fixed_clock batch_1x3 (TsSeq [10 # 1])
                              flaky_outlet [])))
    by (do 3 right; left; reflexivity).
  split; [reflexivity | split; [| split; [exact Hstamp | split; [| split]]]].
  - intros [Hfull _]. specialize (Hfull eq_refl). vm_compute in Hfull.
    discriminate Hfull.
  - intros [_ Hshort].
    assert (Hlt : List.length [10 # 1] < 3) by (simpl; lia).
    destruct (Hshort Hlt) as [Hsupplied _].
    destruct (Hsupplied EEG (SArray [2 # 1]) (999 # 1) Hstamp) as [Heq | []].
    discriminate Heq.
  - reflexivity.
  - intros [_ Hshort].
    assert (Hlt : List.length [10 # 1] < 3) by (simpl; lia).
    destruct (Hshort Hlt) as [_ Hnone].
    exact (Hnone KeyboardInterrupt eq_refl).
Qed.

Lemma fixed_push_routes_columns_witness :
  accepts sound_outlet
  /\ List.length [10 # 1; 11 # 1; 12 # 1] = 3
  /\ fst (Router.fixed_push fixed_clock batch_1x3 stamps_3 sound_outlet [])
     = [EvPush EEG (SList [1 # 1]) (Some (10 # 1));
        EvPush EEG (SList [2 # 1]) (Some (11 # 1));
        EvPush EEG (SList [3 # 1]) (Some (12 # 1))]
  /\ List.length [10 # 1] < 3
  /\ nth_error (fst (Router.fixed_push fixed_clock batch_1x3 (TsSeq [10 # 1])
                       sound_outlet [])) 2
     = Some (EvPush EEG (SList [3 # 1]) None)
  /\ uninterrupted rejecting_outlet
  /\ snd (Router.fixed_push fixed_clock batch_1x3 (TsSeq [10 # 1])
            rejecting_outlet []) = Done tt.
Proof.
  assert (Hacc : accepts sound_outlet) by (intros h x t; reflexivity).
  assert (Hun : uninterrupted rejecting_outlet) by (intros h x t; discriminate).
  split; [exact Hacc | split; [reflexivity |]].
  destruct (fixed_push_routes_columns fixed_clock 3 [[1 # 1; 2 # 1; 3 # 1]]
              [10 # 1; 11 # 1; 12 # 1] sound_outlet []) as [Hcols [Hfull _]].
  destruct (fixed_push_routes_columns fixed_clock 3 [[1 # 1; 2 # 1; 3 # 1]]
              [10 # 1] sound_outlet []) as [Hcols' [Hshort _]].
  destruct (fixed_push_routes_columns fixed_clock 3 [[1 # 1; 2 # 1; 3 # 1]]
              [10 # 1] rejecting_outlet []) as [_ [_ [_ [_ Hcontained]]]].
  destruct (Hfull (Hcols Hacc)) as [_ [_ [Hfull' _]]].
  destruct (Hshort (Hcols' Hacc)) as [_ [_ [_ Hshort']]].
  split; [exact (Hfull' eq_refl) | split; [simpl; lia |]].
  split; [apply Hshort'; simpl; lia |].
  split; [exact Hun | exact (Hcontained Hun)].
Defined.

(* ================================================================== *)
(** ** Device Locator *)

Section TextFacts.

Lemma starts_with_sound p : forall s,
  Text.starts_with p s = true -> exists b, s = String.append p b.
Proof.
  induction p as [| a p IH]; intros s Hs; simpl in *.
  - exists s. reflexivity.
  - destruct s as [| c s]; [discriminate |].
    apply andb_true_iff in Hs. destruct Hs as [Hc Hs].
    apply Ascii.eqb_eq in Hc. subst c.
    destruct (IH s Hs) as [b ->]. exists b. reflexivity.
Qed.

Lemma contains_sound p : forall s,
  Text.contains p s = true -> Substring p s.
Proof.
  induction s as [| c s IH]; intros Hs; simpl in Hs;
    apply orb_true_iff in Hs; destruct Hs as [Hs | Hs].
  - destruct (starts_with_sound p _ Hs) as [b E]. exists EmptyString, b. exact E.
  - discriminate.
  - destruct (starts_with_sound p _ Hs) as [b E]. exists EmptyString, b. exact E.
  - destruct (IH Hs) as [a [b ->]]. exists (String c a), b. reflexivity.
Qed.

Lemma search_name_cons c line :
  Text.search_name (String c line)
  = if Text.starts_with "Muse" (String c line)
    then Some (String.append "Muse" (Text.non_space_run (Text.drop 4 (String c line))))
    else Text.search_name line.
Proof. reflexivity. Qed.

(** The name pattern matches a text that begins with the identifier. *)
Lemma search_name_sound : forall line n,
  Text.search_name line = Some n -> Substring "Muse" n.
Proof.
  induction line as [| c line IH]; intros n Hn.
  - discriminate.
  - rewrite search_name_cons in Hn.
    destruct (Text.starts_with "Muse" (String c line)).
    + injection Hn as <-. exists EmptyString. eexists. reflexivity.
    + exact (IH n Hn).
Qed.

End TextFacts.

Section LocatorFacts.

Variable K : Constants.
Variable H : Host.

Lemma parse_line_named line d :
  Locator.parse_line line = Some d -> has_product_name d.
Proof.
  unfold Locator.parse_line. destruct (Text.contains "Muse" line); [| discriminate].
  destruct (Text.search_name line) as [n |] eqn:Hn; [| discriminate].
  destruct (Text.search_addr line) as [a |]; [| discriminate].
  intros [= <-]. exists n. split; [reflexivity |].
  exact (search_name_sound line n Hn).
Qed.

Lemma parse_devices_named lines :
  Forall has_product_name (Locator.parse_devices lines).
Proof.
  unfold Locator.parse_devices.
  assert (Hgen : forall acc, Forall has_product_name acc ->
            Forall has_product_name
              (fold_left (fun muses device_line =>
                            match Locator.parse_line device_line with
                            | Some d => muses ++ [d]
                            | None => muses
                            end) lines acc)).
  { induction lines as [| l lines IH]; intros acc Hacc; simpl; [assumption |].
    apply IH. destruct (Locator.parse_line l) as [d |] eqn:Hd; [| assumption].
    apply Forall_app. split; [assumption |].
    constructor; [exact (parse_line_named l d Hd) | constructor]. }
  apply Hgen. constructor.
Qed.

Lemma is_muse_named d : Locator.is_muse d = true -> has_product_name d.
Proof.
  unfold Locator.is_muse. destruct (dev_name d) as [n |] eqn:Hn.
  - intros Hd. apply andb_true_iff in Hd. destruct Hd as [_ Hd].
    exists n. split; [exact Hn | exact (contains_sound _ _ Hd)].
  - rewrite andb_false_r. discriminate.
Qed.

Lemma filter_is_muse_named devices :
  Forall has_product_name (filter Locator.is_muse devices).
Proof.
  apply Forall_forall. intros d Hd. apply filter_In in Hd.
  apply is_muse_named. tauto.
Qed.

Lemma bluetoothctl_named timeout :
  yields (Forall has_product_name) (Locator._list_muses_bluetoothctl H timeout).
Proof.
  unfold Locator._list_muses_bluetoothctl.
  apply yields_bind with (P := fun _ => True); [apply yields_any | intros _ _].
  apply yields_bind with (P := fun _ => True); [apply yields_any | intros _ _].
  apply yields_bind with (P := fun _ => True); [apply yields_any | intros devices _].
  apply yields_bind with (P := fun _ => True); [apply yields_any | intros _ _].
  apply yields_ret. apply parse_devices_named.
Qed.

Lemma scan_adapter_named backend adapter :
  yields named_result (Locator.scan_adapter K H backend adapter).
Proof.
  unfold Locator.scan_adapter.
  apply yields_bind with
    (P := fun r => match r with
                   | inl muses => Forall has_product_name muses
                   | inr _ => True
                   end).
  - apply yields_try.
    + destruct adapter; [| apply yields_raise].
      repeat (apply yields_bind with (P := fun _ => True);
              [apply yields_any | intros ? _]).
      apply yields_ret. exact I.
    + intros e. destruct (String.eqb backend "gatt"); [| apply yields_raise].
      apply yields_bind with (P := fun _ => True); [apply yields_any | intros _ _].
      apply yields_bind with (P := Forall has_product_name);
        [apply bluetoothctl_named | intros muses Hm].
      apply yields_ret. exact Hm.
  - intros [muses | devices] Hr.
    + apply yields_ret. intros ? [= <-]. exact Hr.
    + apply yields_bind with (P := fun _ => True); [apply yields_any | intros _ _].
      apply yields_ret. intros ? [= <-]. apply filter_is_muse_named.
Qed.

Lemma list_muses_named backend interface :
  yields named_result (Locator.list_muses K H backend interface).
Proof.
  unfold Locator.list_muses.
  destruct (String.eqb backend "auto" && which_bluetoothctl H).
  - apply yields_bind with (P := fun _ => True); [apply yields_any | intros _ _].
    apply yields_bind with (P := Forall has_product_name);
      [apply bluetoothctl_named | intros muses Hm].
    apply yields_ret. intros ? [= <-]. exact Hm.
  - apply yields_bind with (P := fun _ => True); [apply yields_any | intros b _].
    destruct (String.eqb b "gatt");
      [| destruct (String.eqb b "bluemuse");
         [| destruct (String.eqb b "bleak"); [| destruct (String.eqb b "bgapi")]]].
    + apply yields_bind with (P := fun _ => True); [apply yields_any | intros _ _].
      apply scan_adapter_named.
    + repeat (apply yields_bind with (P := fun _ => True);
              [apply yields_any | intros ? _]).
      apply yields_ret. intros ? [=].
    + apply yields_bind with (P := fun _ => True); [apply yields_any | intros _ _].
      apply scan_adapter_named.
    + apply yields_bind with (P := fun _ => True); [apply yields_any | intros _ _].
      apply scan_adapter_named.
    + apply scan_adapter_named.
Qed.

(** Discovery makes no call on the bus or on the session. *)
Lemma find_muse_emits name backend :
  emits (fun e => negb (is_session_call e)) (Locator.find_muse K H name backend).
Proof.
  unfold Locator.find_muse, Locator.list_muses, Locator.scan_adapter,
    Locator._list_muses_bluetoothctl, Locator._print_muse_list, print.
  prog_emits.
Qed.

End LocatorFacts.

Section LocatorClaims.

Variable K : Constants.
Variable H : Host.

(** C9.  Every descriptor in a list returned by discovery, through the
    adapter scan or through the bluetoothctl enumeration, has a name, and the
    name contains the product identifier 'Muse'. *)
Theorem discovery_returns_only_muses :
  forall backend interface timeout h,
    (forall muses,
        snd (Locator.list_muses K H backend interface h) = Done (Some muses) ->
        Forall has_product_name muses)
    /\ (forall muses,
        snd (Locator._list_muses_bluetoothctl H timeout h) = Done muses ->
        Forall has_product_name muses).
Proof.
  intros backend interface timeout h. split; intros muses Hrun.
  - exact (list_muses_named K H backend interface h (Some muses) Hrun muses eq_refl).
  - exact (bluetoothctl_named H timeout h muses Hrun).
Qed.

End LocatorClaims.

Lemma discovery_returns_only_muses_witness :
  snd (Locator.list_muses demo_constants scanning_host "bleak" None [])
  = Done (Some [muse_0B3D])
  /\ snd (Locator._list_muses_bluetoothctl ble_failing_host (21 # 2) [])
     = Done [muse_0B3D]
  /\ Forall has_product_name [muse_0B3D].
Proof.
  split; [reflexivity | split; [reflexivity |]].
  exact (proj1 (discovery_returns_only_muses demo_constants scanning_host
                  "bleak" None (21 # 2) []) [muse_0B3D] eq_refl).
Defined.

Section DiscoveryFallback.

Variable K : Constants.
Variable H : Host.

(** The [try] block of the adapter path when the scan call raises. *)
Lemma scan_block_fails e h :
  adapter_start H = None ->
  adapter_scan H = inl e ->
  (emit EvAdapterStart ;;
   check (adapter_start H) ;;
   print "Searching for Muses, this may take up to 10 seconds..." ;;
   emit (EvAdapterScan (LIST_SCAN_TIMEOUT K)) ;;
   devices <- answer (adapter_scan H) ;;
   emit EvAdapterStop ;;
   check (adapter_stop H) ;;
   ret (@inr (list Device) _ devices)) h
  = (scan_block K, Raised e).
Proof.
  intros Hstart Hscan. unfold print. rewrite Hstart, Hscan. reflexivity.
Qed.

(** The adapter path after a BLE failure of the scan call: the gatt
    backend hands over to bluetoothctl, any other backend re-raises. *)
Lemma scan_adapter_ble_failure backend adapter h :
  adapter_start H = None ->
  adapter_scan H = inl BLEError ->
  Locator.scan_adapter K H backend (Some adapter) h
  = if String.eqb backend "gatt"
    then
      let pre := scan_block K ++ [EvPrint (Text pygatt_failed)] in
      let fb := Locator._list_muses_bluetoothctl H (LIST_SCAN_TIMEOUT K) (h ++ pre) in
      (pre ++ fst fb, handed_over (snd fb))
    else (scan_block K, Raised BLEError).
Proof.
  intros Hstart Hscan. unfold Locator.scan_adapter.
  unfold bind at 1.
  rewrite (try_except_caught _ _ _ _ _ _ (scan_block_fails BLEError h Hstart Hscan) eq_refl).
  destruct (String.eqb backend "gatt").
  - unfold print, pygatt_failed. rewrite bind_emit. cbn [fst snd].
    rewrite <- app_assoc.
    rewrite bind_fst, bind_snd. cbn zeta.
    destruct (Locator._list_muses_bluetoothctl H (LIST_SCAN_TIMEOUT K)
                (h ++ scan_block K ++ [EvPrint (Text "pygatt failed to scan for BLE devices. Trying with bluetoothctl.")]))
      as [es [muses | e |]]; cbn; rewrite ?app_nil_r; reflexivity.
  - cbn. rewrite ?app_nil_r. reflexivity.
Qed.


(** No error of class Exception leaves the bluetoothctl strategy. *)
Lemma bluetoothctl_throws timeout :
  throws (fun e => negb (is_Exception e)) (Locator._list_muses_bluetoothctl H timeout).
Proof.
  unfold Locator._list_muses_bluetoothctl, Locator._print_muse_list, print.
  repeat first
    [ apply throws_ret | apply throws_emit
    | apply throws_try_gen; [intros ? ->; reflexivity | intros ?]
    | apply throws_bind; [| intros ?]
    | apply throws_for_each; intros ?
    | match goal with
      | |- context [match ?x with _ => _ end] => destruct x
      end ].
Qed.

(** The enumeration block runs the devices command once, whatever it
    answers. *)
Lemma devices_block_count h :
  count is_devices_command
    (fst (try_except
            (emit (EvSubprocess ["bluetoothctl"; "devices"]) ;;
             stdout <- answer (run_devices H) ;;
             ret (Text.split_lines stdout))
            is_Exception
            (fun e =>
               (if is_TimeoutExpired e
                then print "Timeout while listing devices"
                else emit (EvPrint (TextExc "Error listing devices: " e))) ;;
               ret []) h)) = 1.
Proof.
  unfold try_except, bind, emit, answer, print.
  destruct (run_devices H) as [[] | stdout]; reflexivity.
Qed.

Lemma bluetoothctl_runs_devices_once timeout h muses :
  snd (Locator._list_muses_bluetoothctl H timeout h) = Done muses ->
  count is_devices_command (fst (Locator._list_muses_bluetoothctl H timeout h)) = 1.
Proof.
  unfold Locator._list_muses_bluetoothctl.
  rewrite bind_snd, bind_fst. cbn [print emit fst snd].
  rewrite bind_snd, bind_fst.
  match goal with
  | |- context [fst (try_except ?b ?c ?k ?hh)] =>
      assert (Hscan : count is_devices_command (fst (try_except b c k hh)) = 0);
      [| destruct (try_except b c k hh) as [es1 [[] | e1 |]]]
  end.
  { apply (emits_count _ (fun e => negb (is_devices_command e))).
    - intros e He. destruct (is_devices_command e); [discriminate | reflexivity].
    - prog_emits. }
  all: cbn [fst snd] in *; try discriminate.
  rewrite bind_snd, bind_fst.
  match goal with
  | |- context [fst (try_except ?b ?c ?k ?hh)] =>
      pose proof (devices_block_count hh) as Hdev;
      destruct (try_except b c k hh) as [es2 [devices | e2 |]]
  end.
  all: cbn [fst snd] in *; try discriminate.
  intros _. rewrite !count_app, Hscan, Hdev. cbn [count filter is_devices_command List.length].
  rewrite (emits_count _ (fun e => negb (is_devices_command e))).
  - reflexivity.
  - intros e He. destruct (is_devices_command e); [discriminate | reflexivity].
  - unfold Locator._print_muse_list, print. prog_emits.
Qed.

(** C8.  When the scan call of the adapter fails with a BLE-layer error:
    with the resolved backend 'gatt', discovery prints the notice and hands
    over to the bluetoothctl enumeration, run once, whose list it returns; the
    BLE error does not propagate.  With the resolved backend 'bleak' or
    'bgapi' the BLE error propagates to the caller and bluetoothctl is not
    run.  With any resolved backend other than 'gatt', bluetoothctl is not
    run and a run in which the scan call was made ends with the BLE error. *)
Theorem gatt_scan_failure_falls_back :
  forall backend interface b h,
    String.eqb backend "auto" && which_bluetoothctl H = false ->
    resolve_backend H backend = inr b ->
    adapter_start H = None ->
    adapter_scan H = inl BLEError ->
    let run := Locator.list_muses K H backend interface h in
    (b = "gatt" ->
     let pre := gatt_scan_prefix K interface in
     let fb := Locator._list_muses_bluetoothctl H (LIST_SCAN_TIMEOUT K) (h ++ pre) in
     run = (pre ++ fst fb, handed_over (snd fb))
     /\ snd run <> Raised BLEError
     /\ (forall muses, snd run = Done (Some muses) ->
         count is_devices_command (fst run) = 1))
    /\ (b = "bleak" \/ b = "bgapi" ->
        (exists adapter, run = (EvAdapterNew adapter :: scan_block K, Raised BLEError))
        /\ count is_devices_command (fst run) = 0)
    /\ (b <> "gatt" ->
        count is_devices_command (fst run) = 0
        /\ (In (EvAdapterScan (LIST_SCAN_TIMEOUT K)) (fst run) ->
            snd run = Raised BLEError)).
Proof.
  intros backend interface b h Hauto Hres Hstart Hscan run.
  subst run. unfold Locator.list_muses. rewrite Hauto, Hres. cbn [answer].
  rewrite bind_ret. split; [| split].
  - intros ->. rewrite String.eqb_refl. cbv beta iota.
    rewrite bind_emit, scan_adapter_ble_failure by assumption.
    rewrite String.eqb_refl. cbv zeta. cbn [fst snd].
    assert (Hh : (h ++ [EvAdapterNew (GATTToolBackend
                                        (if truthy interface then str interface
                                         else "hci0"))])
                   ++ scan_block K ++ [EvPrint (Text pygatt_failed)]
                 = h ++ gatt_scan_prefix K interface)
      by (rewrite <- app_assoc; reflexivity).
    rewrite Hh. clear Hh.
    pose proof (bluetoothctl_throws (LIST_SCAN_TIMEOUT K)
                  (h ++ gatt_scan_prefix K interface)) as Hthrows.
    pose proof (bluetoothctl_runs_devices_once (LIST_SCAN_TIMEOUT K)
                  (h ++ gatt_scan_prefix K interface)) as Honce.
    destruct (Locator._list_muses_bluetoothctl H (LIST_SCAN_TIMEOUT K)
                (h ++ gatt_scan_prefix K interface)) as [es [l | e |]];
      cbn [fst snd handed_over] in *.
    + split; [reflexivity | split; [discriminate |]].
      intros muses _.
      change (count is_devices_command (gatt_scan_prefix K interface ++ es) = 1).
      rewrite count_app, (Honce l eq_refl). reflexivity.
    + split; [reflexivity | split; [| discriminate]].
      intros [= ->]. specialize (Hthrows BLEError eq_refl). discriminate.
    + split; [reflexivity | split; discriminate].
  - intros [-> | ->]; cbn [String.eqb Ascii.eqb Bool.eqb andb]; cbv beta iota;
      rewrite bind_emit, scan_adapter_ble_failure by assumption;
      cbn [String.eqb Ascii.eqb Bool.eqb andb]; cbv beta iota; cbn [fst snd];
      (split; [eexists; reflexivity | reflexivity]).
  - intros Hb. apply String.eqb_neq in Hb. rewrite Hb.
    destruct (String.eqb b "bluemuse");
      [| destruct (String.eqb b "bleak"); [| destruct (String.eqb b "bgapi")]].
    + split; [reflexivity |]. intros Hin. simpl in Hin. intuition discriminate.
    + rewrite bind_emit, scan_adapter_ble_failure by assumption.
      rewrite Hb. split; reflexivity.
    + rewrite bind_emit, scan_adapter_ble_failure by assumption.
      rewrite Hb. split; reflexivity.
    + split; [reflexivity |]. intros [].
Qed.

End DiscoveryFallback.

Lemma gatt_scan_failure_falls_back_witness :
  String.eqb "gatt" "auto" && which_bluetoothctl ble_failing_host = false
  /\ resolve_backend ble_failing_host "gatt" = inr "gatt"
  /\ adapter_start ble_failing_host = None
  /\ adapter_scan ble_failing_host = inl BLEError
  /\ snd (Locator.list_muses demo_constants ble_failing_host "gatt" None [])
     = Done (Some [muse_0B3D])
  /\ count is_devices_command
       (fst (Locator.list_muses demo_constants ble_failing_host "gatt" None [])) = 1
  /\ snd (Locator.list_muses demo_constants ble_failing_host "bleak" None [])
     = Raised BLEError.
Proof.
  do 5 (split; [reflexivity |]).
  destruct (gatt_scan_failure_falls_back demo_constants ble_failing_host
              "gatt" None "gatt" [] eq_refl eq_refl eq_refl eq_refl) as [Hgatt _].
  destruct (gatt_scan_failure_falls_back demo_constants ble_failing_host
              "bleak" None "bleak" [] eq_refl eq_refl eq_refl eq_refl)
    as [_ [Hother _]].
  destruct (Hgatt eq_refl) as [_ [_ Hcount]].
  destruct (Hother (or_introl eq_refl)) as [[adapter Hrun] _].
  split; [exact (Hcount [muse_0B3D] eq_refl) |].
  rewrite Hrun. reflexivity.
Defined.

(* ================================================================== *)
(** ** Streaming Supervisor Loop *)

Section LoopFacts.

Variable K : Constants.
Variable time : Trace -> Q.
Variable callbacks : Modality -> option Outlet.

Lemma deliver_emits d : emits is_loop_event (Controller.deliver time callbacks d).
Proof.
  unfold Controller.deliver. destruct (callbacks (d_modality d)).
  - intros h. eapply Forall_impl; [| apply (fixed_push_emits time)].
    intros [] He; simpl in *; congruence.
  - apply emits_ret.
Qed.

Lemma deliver_settles d : settles (Controller.deliver time callbacks d).
Proof.
  unfold Controller.deliver. destruct (callbacks (d_modality d)).
  - apply fixed_push_settles.
  - apply settles_ret.
Qed.

Lemma deliver_throws d :
  throws is_KeyboardInterrupt (Controller.deliver time callbacks d).
Proof.
  unfold Controller.deliver. destruct (callbacks (d_modality d)).
  - apply fixed_push_throws.
  - apply throws_ret.
Qed.

Lemma backends_sleep_emits secs tk :
  emits is_loop_event (Controller.backends_sleep time callbacks secs tk).
Proof.
  unfold Controller.backends_sleep.
  apply emits_bind; [apply emits_emit; reflexivity | intros _].
  apply emits_bind; [apply emits_for_each; apply deliver_emits | intros _].
  destruct (interrupt tk); first [apply emits_ret | apply emits_raise].
Qed.

Lemma backends_sleep_settles secs tk :
  settles (Controller.backends_sleep time callbacks secs tk).
Proof.
  unfold Controller.backends_sleep.
  apply settles_bind; [apply settles_emit | intros _].
  apply settles_bind; [apply settles_for_each; apply deliver_settles | intros _].
  destruct (interrupt tk); first [apply settles_ret | apply settles_raise].
Qed.

Lemma backends_sleep_throws secs tk :
  throws is_KeyboardInterrupt (Controller.backends_sleep time callbacks secs tk).
Proof.
  unfold Controller.backends_sleep.
  apply throws_bind; [apply throws_emit | intros _].
  apply throws_bind; [apply throws_for_each; apply deliver_throws | intros _].
  destruct (interrupt tk);
    first [apply throws_ret | apply throws_raise; reflexivity].
Qed.

(** A sleep in which the interrupt lands does not complete. *)
Lemma backends_sleep_interrupted secs tk h a :
  interrupt tk = InSleep ->
  snd (Controller.backends_sleep time callbacks secs tk h) <> Done a.
Proof.
  intros Hint. unfold Controller.backends_sleep. rewrite Hint.
  rewrite bind_snd. cbn [emit fst snd]. rewrite bind_snd.
  destruct (snd (for_each (arrivals tk) (Controller.deliver time callbacks)
                   (h ++ [EvBackendSleep secs]))); discriminate.
Qed.

(** One unfolding of the loop. *)
Lemma supervise_cons start tk rest :
  Controller.supervise K time callbacks start (tk :: rest)
  = match interrupt tk with
    | AtLoopTop => raise KeyboardInterrupt
    | _ =>
        brk <- match last_timestamp tk with
               | Some last =>
                   if float_gt (PrimFloat.sub (now tk) last) (AUTO_DISCONNECT_DELAY K)
                   then
                     emit (EvPrint (TextFloat "Auto-disconnect after "
                                            (AUTO_DISCONNECT_DELAY K)
                                            "s of no data")) ;;
                     ret (Some Stale)
                   else ret None
               | None =>
                   if float_gt (PrimFloat.sub (now tk) start) 300%float
                   then print "Max streaming time reached" ;; ret (Some Silent)
                   else ret None
               end ;;
        match brk with
        | Some cause => ret cause
        | None =>
            Controller.backends_sleep time callbacks (1 # 1) tk ;;
            Controller.supervise K time callbacks start rest
        end
    end.
Proof. reflexivity. Qed.

Lemma supervise_emits start ticks :
  emits is_loop_event (Controller.supervise K time callbacks start ticks).
Proof.
  induction ticks as [| tk rest IH]; [apply emits_pending |].
  rewrite supervise_cons. unfold print.
  repeat first
    [ apply emits_ret | apply emits_raise
    | apply emits_emit; reflexivity
    | apply backends_sleep_emits
    | exact IH
    | apply emits_bind; [| intros ?]
    | match goal with
      | |- context [match ?x with _ => _ end] => destruct x
      end ].
Qed.

Lemma supervise_throws start ticks :
  throws is_KeyboardInterrupt (Controller.supervise K time callbacks start ticks).
Proof.
  induction ticks as [| tk rest IH]; [intros h e; discriminate |].
  rewrite supervise_cons. unfold print.
  repeat first
    [ apply throws_ret | apply throws_raise; reflexivity
    | apply throws_emit
    | apply backends_sleep_throws
    | exact IH
    | apply throws_bind; [| intros ?]
    | match goal with
      | |- context [match ?x with _ => _ end] => destruct x
      end ].
Qed.

(** The loop ends at the latest at the first tick that stops it. *)
Lemma supervise_exits start ticks :
  Exists (fun tk => stops_loop K start tk = true) ticks ->
  forall h, snd (Controller.supervise K time callbacks start ticks h) <> Pending.
Proof.
  induction ticks as [| tk rest IH]; intros Hex h; [inversion Hex |].
  rewrite supervise_cons.
  assert (Hstep : stops_loop K start tk = true
                  \/ Exists (fun tk => stops_loop K start tk = true) rest)
    by (inversion Hex; auto).
  clear Hex. unfold stops_loop in Hstep.
  destruct (interrupt tk) eqn:Hint; [| discriminate |].
  - destruct (last_timestamp tk) as [last |];
      [ destruct (float_gt (PrimFloat.sub (now tk) last) (AUTO_DISCONNECT_DELAY K))
      | destruct (float_gt (PrimFloat.sub (now tk) start) 300%float) ];
      try discriminate.
    all: rewrite bind_ret, bind_snd.
    all: pose proof (backends_sleep_settles (1 # 1) tk h) as Hs.
    all: destruct (snd (Controller.backends_sleep time callbacks (1 # 1) tk h));
      [ apply IH; destruct Hstep as [Hstep | Hstep]; [discriminate | exact Hstep]
      | discriminate | congruence ].
  - destruct (last_timestamp tk) as [last |];
      [ destruct (float_gt (PrimFloat.sub (now tk) last) (AUTO_DISCONNECT_DELAY K))
      | destruct (float_gt (PrimFloat.sub (now tk) start) 300%float) ];
      try discriminate.
    all: rewrite bind_ret, bind_snd.
    all: pose proof (backends_sleep_settles (1 # 1) tk h) as Hs.
    all: pose proof (backends_sleep_interrupted (1 # 1) tk h tt Hint) as Hi.
    all: destruct (snd (Controller.backends_sleep time callbacks (1 # 1) tk h))
      as [[] | e |]; [congruence | discriminate | congruence].
Qed.

(** C5.  One iteration of the supervisor loop, no interrupt pending at its
    top, reads the clock and then: (a) when the session exposes a last-sample
    timestamp and now minus that timestamp exceeds AUTO_DISCONNECT_DELAY, the
    loop stops (stale link); (b) when the session exposes no last-sample
    timestamp and now minus the loop start time exceeds 300 seconds, the loop
    stops (silent connection); otherwise the loop sleeps one second and runs
    the next iteration.  The difference and the comparison are those of the
    binary64 floats the clock returns. *)
Theorem supervisor_iteration :
  forall start tk rest h,
    interrupt tk <> AtLoopTop ->
    let run := Controller.supervise K time callbacks start (tk :: rest) h in
    (forall last,
        last_timestamp tk = Some last ->
        float_gt (PrimFloat.sub (now tk) last) (AUTO_DISCONNECT_DELAY K) = true ->
        run = ([EvPrint (TextFloat "Auto-disconnect after "
                                   (AUTO_DISCONNECT_DELAY K) "s of no data")],
               Done Stale))
    /\ (last_timestamp tk = None ->
        float_gt (PrimFloat.sub (now tk) start) 300%float = true ->
        run = ([EvPrint (Text "Max streaming time reached")], Done Silent))
    /\ ((forall last,
            last_timestamp tk = Some last ->
            float_gt (PrimFloat.sub (now tk) last) (AUTO_DISCONNECT_DELAY K) = false) ->
        (last_timestamp tk = None ->
         float_gt (PrimFloat.sub (now tk) start) 300%float = false) ->
        run = (Controller.backends_sleep time callbacks (1 # 1) tk ;;
               Controller.supervise K time callbacks start rest) h
        /\ exists more, fst run = EvBackendSleep (1 # 1) :: more).
Proof.
  intros start tk rest h Hint run. subst run. rewrite supervise_cons.
  split; [| split].
  - intros last Hlast Hstale. rewrite Hlast, Hstale.
    destruct (interrupt tk); [reflexivity | congruence | reflexivity].
  - intros Hlast Hsilent. rewrite Hlast, Hsilent.
    destruct (interrupt tk); [reflexivity | congruence | reflexivity].
  - intros Hfresh Hearly.
    assert (Hbrk :
              match last_timestamp tk with
              | Some last =>
                  if float_gt (PrimFloat.sub (now tk) last) (AUTO_DISCONNECT_DELAY K)
                  then
                    emit (EvPrint (TextFloat "Auto-disconnect after "
                                             (AUTO_DISCONNECT_DELAY K)
                                             "s of no data")) ;;
                    ret (Some Stale)
                  else ret None
              | None =>
                  if float_gt (PrimFloat.sub (now tk) start) 300%float
                  then print "Max streaming time reached" ;; ret (Some Silent)
                  else ret None
              end = ret None).
    { destruct (last_timestamp tk) as [last |].
      - rewrite (Hfresh last eq_refl). reflexivity.
      - rewrite (Hearly eq_refl). reflexivity. }
    rewrite Hbrk.
    assert (Hrun : (match interrupt tk with
                    | AtLoopTop => raise KeyboardInterrupt
                    | _ =>
                        brk <- ret None ;;
                        match brk with
                        | Some cause => ret cause
                        | None =>
                            Controller.backends_sleep time callbacks (1 # 1) tk ;;
                            Controller.supervise K time callbacks start rest
                        end
                    end) h
                   = (Controller.backends_sleep time callbacks (1 # 1) tk ;;
                      Controller.supervise K time callbacks start rest) h).
    { destruct (interrupt tk); [| congruence |]; rewrite bind_ret; reflexivity. }
    rewrite Hrun. split; [reflexivity |].
    rewrite bind_fst. unfold Controller.backends_sleep at 1.
    rewrite bind_fst. cbn [emit fst snd]. eexists. reflexivity.
Qed.

End LoopFacts.

(* ================================================================== *)
(** ** Session Controller *)

Section SessionFacts.

Variable K : Constants.
Variable H : Host.
Variable S : Session.
Variable time : Trace -> Q.

(** The guarded loop either is still running, or has ended and has been
    followed by the calls of the [finally] block. *)
Lemma supervised_loop_run callbacks h :
  let run := Controller.supervised_loop K S time callbacks h in
  (snd run = Pending
   /\ snd (Controller.supervise K time callbacks (start_time S) (script S) h) = Pending)
  \/ (exists before,
         fst run = before ++ teardown_events S
         /\ snd run = teardown_outcome S
         /\ Forall (fun e => is_loop_event e = true) before).
Proof.
  intros run. subst run. unfold Controller.supervised_loop, finally.
  pose proof (supervise_emits K time callbacks (start_time S) (script S) h) as Hem.
  pose proof (supervise_throws K time callbacks (start_time S) (script S) h) as Hth.
  unfold try_except. rewrite (surjective_pairing (bind _ _ h)).
  rewrite bind_fst, bind_snd. unfold teardown_events, teardown_outcome.
  destruct (Controller.supervise K time callbacks (start_time S) (script S) h)
    as [es [cause | e |]]; cbn [fst snd ret] in *.
  - right. exists (es ++ []). rewrite app_nil_r.
    destruct (stop_raises S), (disconnect_raises S);
      (split; [reflexivity | split; [reflexivity | exact Hem]]).
  - rewrite (Hth e eq_refl). right.
    exists (es ++ [EvPrint (Text (String Text.newline "Interrupted by user"))]).
    destruct (stop_raises S), (disconnect_raises S); cbn; rewrite ?app_nil_r;
      (split; [reflexivity | split; [reflexivity |]]);
      (apply Forall_app; split; [exact Hem | repeat constructor]).
  - left. split; reflexivity.
Qed.

Lemma open_outlets_run address ppg_enabled acc_enabled gyro_enabled eeg_disabled h :
  exists opens callbacks,
    Controller.open_outlets K S address ppg_enabled acc_enabled gyro_enabled
      eeg_disabled h = (opens, Done callbacks)
    /\ Forall (fun e => is_open e = true) opens.
Proof.
  destruct ppg_enabled, acc_enabled, gyro_enabled, eeg_disabled;
    do 2 eexists; (split; [reflexivity | repeat constructor]).
Qed.

Lemma resolve_target_emits address backend name :
  emits (fun e => negb (is_session_call e))
        (Controller.resolve_target K H address backend name).
Proof.
  unfold Controller.resolve_target. destruct (negb (truthy address)).
  - apply emits_bind; [apply find_muse_emits | intros [m |]]; apply emits_ret.
  - apply emits_ret.
Qed.

Lemma run_session_failed callbacks address backend interface name
      ppg_enabled acc_enabled gyro_enabled eeg_disabled preset disable_light
      lsl_time retries h :
  connect_result S = false ->
  Controller.run_session K S time callbacks address backend interface name
    ppg_enabled acc_enabled gyro_enabled eeg_disabled preset disable_light
    lsl_time retries h
  = ([EvMuseNew
        (mkMuseArgs address
           (bound (callbacks EEG)) (bound (callbacks PPG))
           (bound (callbacks ACC)) (bound (callbacks GYRO))
           backend interface name (Some (preset, disable_light, lsl_time)));
      EvConnect retries;
      EvPrint (Text "Failed to connect.")],
     Done tt).
Proof.
  intros Hc. unfold Controller.run_session. rewrite Hc. reflexivity.
Qed.

Lemma run_session_connected callbacks address backend interface name
      ppg_enabled acc_enabled gyro_enabled eeg_disabled preset disable_light
      lsl_time retries h :
  connect_result S = true ->
  let intro := session_intro callbacks address backend interface name
                 ppg_enabled acc_enabled gyro_enabled eeg_disabled preset
                 disable_light lsl_time retries in
  let loop := Controller.supervised_loop K S time callbacks (h ++ intro) in
  Controller.run_session K S time callbacks address backend interface name
    ppg_enabled acc_enabled gyro_enabled eeg_disabled preset disable_light
    lsl_time retries h
  = (intro ++ fst loop
       ++ match snd loop with
          | Done _ => [EvPrint (Text "Disconnected.")]
          | _ => []
          end,
     match snd loop with
     | Done _ => Done tt
     | Raised e => Raised e
     | Pending => Pending
     end).
Proof.
  intros Hc intro loop. unfold Controller.run_session. rewrite Hc.
  unfold print. rewrite !bind_emit. cbn [fst snd].
  assert (Hh : ((((h ++ [EvMuseNew
        (mkMuseArgs address
           (bound (callbacks EEG)) (bound (callbacks PPG))
           (bound (callbacks ACC)) (bound (callbacks GYRO))
           backend interface name (Some (preset, disable_light, lsl_time)))])
       ++ [EvConnect retries]) ++ [EvPrint (Text "Connected.")]) ++ [EvStart])
       ++ [EvPrint (Text (Controller.streaming_line ppg_enabled acc_enabled
                            gyro_enabled eeg_disabled))]
       = h ++ intro) by (rewrite <- !app_assoc; reflexivity).
  rewrite Hh. fold loop.
  rewrite (surjective_pairing (bind _ _ (h ++ intro))).
  rewrite bind_fst, bind_snd. fold loop.
  destruct (snd loop) as [[] | e |]; reflexivity.
Qed.

End SessionFacts.

Section ControllerClaims.

Variable K : Constants.
Variable H : Host.
Variable S : Session.
Variable time : Trace -> Q.

(** The in-process path of [stream], after the address resolution. *)
Lemma stream_inprocess address backend interface name
      ppg_enabled acc_enabled gyro_enabled eeg_disabled preset disable_light
      lsl_time retries h :
  eeg_disabled && negb ppg_enabled && negb acc_enabled && negb gyro_enabled = false ->
  String.eqb backend "bluemuse" = false ->
  let run := Controller.stream K H S time address backend interface name
               ppg_enabled acc_enabled gyro_enabled eeg_disabled
               preset disable_light lsl_time retries h in
  let target := Controller.resolve_target K H address backend name h in
  match snd target with
  | Done (Some (address', name')) =>
      exists opens callbacks,
        Forall (fun e => is_open e = true) opens
        /\ run = (fst target ++ opens
                    ++ fst (Controller.run_session K S time callbacks address'
                              backend interface name' ppg_enabled acc_enabled
                              gyro_enabled eeg_disabled preset disable_light
                              lsl_time retries (h ++ fst target ++ opens)),
                  snd (Controller.run_session K S time callbacks address'
                         backend interface name' ppg_enabled acc_enabled
                         gyro_enabled eeg_disabled preset disable_light
                         lsl_time retries (h ++ fst target ++ opens)))
  | Done None => run = (fst target, Done tt)
  | Raised e => run = (fst target, Raised e)
  | Pending => run = (fst target, Pending)
  end.
Proof.
  intros Hen Hbackend run target. subst run target. unfold Controller.stream.
  rewrite Hen, Hbackend. cbn [negb].
  destruct (Controller.resolve_target K H address backend name h)
    as [es [[[address' name'] |] | e |]] eqn:E; cbn [fst snd].
  - rewrite (bind_done _ _ _ _ _ E). cbv beta iota.
    destruct (open_outlets_run K S address' ppg_enabled acc_enabled gyro_enabled
                eeg_disabled (h ++ es)) as [opens [callbacks [Eo Ho]]].
    exists opens, callbacks. split; [exact Ho |].
    rewrite (bind_done _ _ _ _ _ Eo). cbn [fst snd].
    rewrite <- app_assoc. reflexivity.
  - rewrite (bind_done _ _ _ _ _ E). cbn. rewrite app_nil_r. reflexivity.
  - apply (bind_raised _ _ _ _ _ E).
  - apply (bind_pending _ _ _ _ E).
Qed.

Lemma locator_event_not_teardown (l : Trace) :
  Forall (fun e => negb (is_session_call e) = true) l ->
  Forall (fun e => is_teardown e = false) l.
Proof.
  apply Forall_impl. intros []; simpl; intros; first [reflexivity | discriminate].
Qed.

Lemma open_event_not_teardown (l : Trace) :
  Forall (fun e => is_open e = true) l ->
  Forall (fun e => is_teardown e = false) l.
Proof.
  apply Forall_impl. intros []; simpl; intros; first [reflexivity | discriminate].
Qed.

Lemma loop_event_not_teardown (l : Trace) :
  Forall (fun e => is_loop_event e = true) l ->
  Forall (fun e => is_teardown e = false) l.
Proof.
  apply Forall_impl. intros []; simpl; intros; first [reflexivity | discriminate].
Qed.

Lemma locator_event_not_session (l : Trace) e :
  Forall (fun e => negb (is_session_call e) = true) l ->
  is_session_call e = true -> ~ In e l.
Proof.
  intros Hl He Hin. rewrite Forall_forall in Hl. specialize (Hl e Hin).
  rewrite He in Hl. discriminate.
Qed.

Lemma open_event_only (l : Trace) e :
  Forall (fun e => is_open e = true) l -> is_open e = false -> ~ In e l.
Proof.
  intros Hl He Hin. rewrite Forall_forall in Hl. specialize (Hl e Hin).
  congruence.
Qed.

Lemma teardown_counts (before tail : Trace) :
  Forall (fun e => is_teardown e = false) before ->
  count is_stop (before ++ tail) = count is_stop tail
  /\ count is_disconnect (before ++ tail) = count is_disconnect tail
  /\ count is_close (before ++ tail) = count is_close tail.
Proof.
  intros Hb. rewrite !count_app.
  assert (Hs : count is_stop before = 0
               /\ count is_disconnect before = 0
               /\ count is_close before = 0).
  { repeat split; apply count_none; eapply Forall_impl; try exact Hb;
      intros []; simpl; intros; first [reflexivity | discriminate]. }
  destruct Hs as [-> [-> ->]]. repeat split.
Qed.

(** C1 (amended).  On the in-process path (any backend but 'bluemuse'), once
    the session has been started, every exit of the supervisor loop (a stale
    link, the silence timeout or the operator's interrupt) is followed by
    exactly one call of stop; the loop does exit whenever the environment
    reaches a tick that stops it.  When stop returns, disconnect is called
    exactly once right after it, and when disconnect returns too the closing
    report is printed and [stream] returns.  When stop raises, disconnect is
    not called, and what stop or disconnect raises leaves [stream].  No
    channel close call is made at any point. *)
Theorem teardown_after_streaming :
  forall address backend interface name ppg_enabled acc_enabled gyro_enabled
         eeg_disabled preset disable_light lsl_time retries h,
    String.eqb backend "bluemuse" = false ->
    let run := Controller.stream K H S time address backend interface name
                 ppg_enabled acc_enabled gyro_enabled eeg_disabled
                 preset disable_light lsl_time retries h in
    In EvStart (fst run) ->
    (Exists (fun tk => stops_loop K (start_time S) tk = true) (script S)
     \/ snd run <> Pending) ->
    exists before,
      Forall (fun e => is_teardown e = false) before
      /\ count is_stop (fst run) = 1
      /\ count is_close (fst run) = 0
      /\ match stop_raises S, disconnect_raises S with
         | Some e, _ =>
             fst run = before ++ [EvStop]
             /\ snd run = Raised e
             /\ count is_disconnect (fst run) = 0
         | None, Some e =>
             fst run = before ++ [EvStop; EvDisconnect]
             /\ snd run = Raised e
             /\ count is_disconnect (fst run) = 1
         | None, None =>
             fst run = before ++ [EvStop; EvDisconnect;
                                  EvPrint (Text "Disconnected.")]
             /\ snd run = Done tt
             /\ count is_disconnect (fst run) = 1
         end.
Proof.
  intros address backend interface name ppg acc gyro eeg preset dl lsl retries h
         Hbackend run Hstart Hexit.
  destruct (eeg && negb ppg && negb acc && negb gyro) eqn:Hen.
  { exfalso. subst run. unfold Controller.stream in Hstart. rewrite Hen in Hstart.
    destruct Hstart as [Hs | []]. discriminate Hs. }
  pose proof (stream_inprocess address backend interface name ppg acc gyro eeg
                preset dl lsl retries h Hen Hbackend) as Hrun.
  cbv zeta in Hrun. fold run in Hrun.
  pose proof (resolve_target_emits K H address backend name h) as Hfound.
  destruct (snd (Controller.resolve_target K H address backend name h))
    as [[[address' name'] |] | e |].
  2-4: exfalso; rewrite Hrun in Hstart;
    exact (locator_event_not_session _ EvStart Hfound eq_refl Hstart).
  destruct Hrun as [opens [callbacks [Hopens Hrun]]].
  destruct (connect_result S) eqn:Hc.
  - rewrite (run_session_connected K S time _ _ _ _ _ _ _ _ _ _ _ _ _ _ Hc) in Hrun.
    cbv zeta in Hrun. cbn [fst snd] in Hrun.
    destruct (supervised_loop_run K S time callbacks
                ((h ++ fst (Controller.resolve_target K H address backend name h)
                    ++ opens)
                   ++ session_intro callbacks address' backend interface name'
                        ppg acc gyro eeg preset dl lsl retries))
      as [[Hp Hsup] | [loop [Hloop [Hdone Hev]]]]; cbv zeta in *.
    + exfalso. rewrite Hp in Hrun. destruct Hexit as [Hex | Hnp].
      * exact (supervise_exits K time callbacks (start_time S) (script S) Hex _ Hsup).
      * apply Hnp. rewrite Hrun. reflexivity.
    + rewrite Hloop, Hdone in Hrun.
      exists (fst (Controller.resolve_target K H address backend name h)
                ++ opens
                ++ session_intro callbacks address' backend interface name'
                     ppg acc gyro eeg preset dl lsl retries
                ++ loop).
      assert (Hbefore : Forall (fun e => is_teardown e = false)
                          (fst (Controller.resolve_target K H address backend name h)
                             ++ opens
                             ++ session_intro callbacks address' backend interface
                                  name' ppg acc gyro eeg preset dl lsl retries
                             ++ loop)).
      { repeat (apply Forall_app; split).
        - exact (locator_event_not_teardown _ Hfound).
        - exact (open_event_not_teardown _ Hopens).
        - repeat constructor.
        - exact (loop_event_not_teardown _ Hev). }
      assert (Htr : fst run
                    = (fst (Controller.resolve_target K H address backend name h)
                         ++ opens
                         ++ session_intro callbacks address' backend interface
                              name' ppg acc gyro eeg preset dl lsl retries
                         ++ loop)
                        ++ teardown_events S
                        ++ match teardown_outcome S with
                           | Done _ => [EvPrint (Text "Disconnected.")]
                           | _ => []
                           end).
      { rewrite Hrun. cbn [fst]. rewrite <- !app_assoc. reflexivity. }
      assert (Hout : snd run = teardown_outcome S).
      { rewrite Hrun. cbn [snd]. destruct (teardown_outcome S) as [[] | e |];
          reflexivity. }
      split; [exact Hbefore |].
      rewrite Hout, Htr.
      destruct (teardown_counts _
                  (teardown_events S
                     ++ match teardown_outcome S with
                        | Done _ => [EvPrint (Text "Disconnected.")]
                        | _ => []
                        end) Hbefore) as [-> [-> ->]].
      unfold teardown_events, teardown_outcome.
      destruct (stop_raises S), (disconnect_raises S); cbn [app];
        rewrite ?app_nil_r; repeat split; reflexivity.
  - exfalso. rewrite (run_session_failed K S time _ _ _ _ _ _ _ _ _ _ _ _ _ _ Hc) in Hrun.
    rewrite Hrun in Hstart. cbn [fst] in Hstart.
    apply in_app_or in Hstart. destruct Hstart as [Hin | Hin].
    + exact (locator_event_not_session _ EvStart Hfound eq_refl Hin).
    + apply in_app_or in Hin. destruct Hin as [Hin | Hin].
      * exact (open_event_only _ EvStart Hopens eq_refl Hin).
      * simpl in Hin. intuition discriminate.
Qed.

(** C2 (amended).  On the in-process path, when the connection attempt fails
    the controller prints 'Failed to connect.' right after the attempt and
    returns.  Before the attempt it has only run discovery and opened the
    channels of the enabled modalities; it makes no push, start, stop,
    disconnect or channel close call, so the opened channels are not closed
    by the controller. *)
Theorem connect_failure_is_reported :
  forall address backend interface name ppg_enabled acc_enabled gyro_enabled
         eeg_disabled preset disable_light lsl_time retries h,
    String.eqb backend "bluemuse" = false ->
    connect_result S = false ->
    let run := Controller.stream K H S time address backend interface name
                 ppg_enabled acc_enabled gyro_enabled eeg_disabled
                 preset disable_light lsl_time retries h in
    In (EvConnect retries) (fst run) ->
    exists before args,
      fst run = before ++ [EvMuseNew args; EvConnect retries;
                           EvPrint (Text "Failed to connect.")]
      /\ snd run = Done tt
      /\ Forall (fun e => negb (is_session_call e) || is_open e = true) before
      /\ count is_push (fst run) = 0
      /\ count is_teardown (fst run) = 0
      /\ ~ In EvStart (fst run).
Proof.
  intros address backend interface name ppg acc gyro eeg preset dl lsl retries h
         Hbackend Hc run Hconnect.
  destruct (eeg && negb ppg && negb acc && negb gyro) eqn:Hen.
  { exfalso. subst run. unfold Controller.stream in Hconnect.
    rewrite Hen in Hconnect. destruct Hconnect as [Hs | []]. discriminate Hs. }
  pose proof (stream_inprocess address backend interface name ppg acc gyro eeg
                preset dl lsl retries h Hen Hbackend) as Hrun.
  cbv zeta in Hrun. fold run in Hrun.
  pose proof (resolve_target_emits K H address backend name h) as Hfound.
  destruct (snd (Controller.resolve_target K H address backend name h))
    as [[[address' name'] |] | e |].
  2-4: exfalso; rewrite Hrun in Hconnect;
    exact (locator_event_not_session _ (EvConnect retries) Hfound eq_refl Hconnect).
  destruct Hrun as [opens [callbacks [Hopens Hrun]]].
  rewrite (run_session_failed K S time _ _ _ _ _ _ _ _ _ _ _ _ _ _ Hc) in Hrun.
  cbn [fst snd] in Hrun.
  assert (Hbefore : Forall (fun e => negb (is_session_call e) || is_open e = true)
                      (fst (Controller.resolve_target K H address backend name h)
                         ++ opens)).
  { apply Forall_app. split.
    - eapply Forall_impl; [| exact Hfound]. intros e0 ->. reflexivity.
    - eapply Forall_impl; [| exact Hopens]. intros e0 ->. apply orb_true_r. }
  exists (fst (Controller.resolve_target K H address backend name h) ++ opens).
  eexists.
  assert (Htr : fst run
                = (fst (Controller.resolve_target K H address backend name h)
                     ++ opens)
                    ++ [EvMuseNew
                          (mkMuseArgs address'
                             (bound (callbacks EEG)) (bound (callbacks PPG))
           (bound (callbacks ACC)) (bound (callbacks GYRO))
                             backend interface name' (Some (preset, dl, lsl)));
                        EvConnect retries;
                        EvPrint (Text "Failed to connect.")]).
  { rewrite Hrun. cbn [fst]. rewrite <- app_assoc. reflexivity. }
  split; [exact Htr | split; [rewrite Hrun; reflexivity | split; [exact Hbefore |]]].
  rewrite Htr.
  assert (Hq : forall p,
             (forall e, negb (is_session_call e) || is_open e = true -> p e = false) ->
             count p (fst (Controller.resolve_target K H address backend name h)
                        ++ opens) = 0).
  { intros p Hp. apply count_none. eapply Forall_impl; [| exact Hbefore]. exact Hp. }
  split; [| split].
  - rewrite count_app, Hq; [reflexivity |].
    intros []; simpl; intros; first [reflexivity | discriminate].
  - rewrite count_app, Hq; [reflexivity |].
    intros []; simpl; intros; first [reflexivity | discriminate].
  - intros Hin. apply in_app_or in Hin. destruct Hin as [Hin | Hin].
    + rewrite Forall_forall in Hbefore. specialize (Hbefore EvStart Hin).
      discriminate.
    + simpl in Hin. intuition discriminate.
Qed.

(** Without a supplied address the target is the device discovery finds. *)
Lemma resolve_target_by_discovery address backend name h :
  truthy address = false ->
  Controller.resolve_target K H address backend name h
  = (fst (Locator.find_muse K H name backend h),
     match snd (Locator.find_muse K H name backend h) with
     | Done (Some m) => Done (Some (Some (dev_address m), dev_name m))
     | Done None => Done None
     | Raised e => Raised e
     | Pending => Pending
     end).
Proof.
  intros Ha. unfold Controller.resolve_target. rewrite Ha. cbn [negb].
  rewrite (surjective_pairing (bind _ _ h)). rewrite bind_fst, bind_snd.
  destruct (snd (Locator.find_muse K H name backend h)) as [[m |] | e |];
    cbn; rewrite ?app_nil_r; reflexivity.
Qed.

Lemma opt_string_eqb_eq a b : opt_string_eqb a b = true -> a = b.
Proof.
  destruct a as [x |], b as [y |]; simpl; try discriminate; try reflexivity.
  intros Hxy. apply String.eqb_eq in Hxy. now subst.
Qed.

Lemma find_no_match (name : option string) (muses : list Device) :
  (forall d, In d muses -> dev_name d <> name) ->
  find (fun muse => opt_string_eqb (dev_name muse) name) muses = None.
Proof.
  induction muses as [| d muses IH]; intros Hno; simpl; [reflexivity |].
  destruct (opt_string_eqb (dev_name d) name) eqn:E.
  - exfalso. apply (Hno d); [left; reflexivity | exact (opt_string_eqb_eq _ _ E)].
  - apply IH. intros d' Hd'. apply Hno. right. exact Hd'.
Qed.

(** What [find_muse] returns, from what discovery listed. *)
Lemma find_muse_value name backend h :
  snd (Locator.find_muse K H name backend h)
  = match snd (Locator.list_muses K H backend None h) with
    | Done muses =>
        if truthy name then
          match muses with
          | None => Raised TypeError
          | Some l => Done (find (fun muse => opt_string_eqb (dev_name muse) name) l)
          end
        else Done (match muses with
                   | Some l => hd_error l
                   | None => None
                   end)
    | Raised e => Raised e
    | Pending => Pending
    end.
Proof.
  unfold Locator.find_muse. rewrite bind_snd.
  destruct (snd (Locator.list_muses K H backend None h)) as [muses | e |];
    try reflexivity.
  destruct (truthy name); destruct muses as [[| m l] |]; reflexivity.
Qed.

(** C7 (amended).  For a request with no address supplied, other than a
    request on the 'bluemuse' backend that enables a modality, a call on the
    bus or on the session is made only if the Device Locator resolved a
    device: the first listed device whose name equals the supplied name, or
    the first listed device when no name is supplied.  When discovery lists
    nothing, or the supplied name equals the name of no listed device, no
    device resolves; the request then returns with no channel opened and no
    session constructed, and, when it enables a modality, its events are those
    of the discovery. *)
Theorem connecting_requires_resolved_device :
  forall address backend interface name ppg_enabled acc_enabled gyro_enabled
         eeg_disabled preset disable_light lsl_time retries h,
    truthy address = false ->
    (String.eqb backend "bluemuse" = false
     \/ eeg_disabled && negb ppg_enabled && negb acc_enabled
          && negb gyro_enabled = true) ->
    let found := Locator.find_muse K H name backend h in
    let listed := Locator.list_muses K H backend None h in
    let run := Controller.stream K H S time address backend interface name
                 ppg_enabled acc_enabled gyro_enabled eeg_disabled
                 preset disable_light lsl_time retries h in
    (Exists (fun e => is_session_call e = true) (fst run) ->
     exists m, snd found = Done (Some m))
    /\ (forall m, snd found = Done (Some m) ->
        exists muses,
          snd listed = Done (Some muses)
          /\ if truthy name
             then find (fun muse => opt_string_eqb (dev_name muse) name) muses = Some m
             else hd_error muses = Some m)
    /\ (snd found = Done None ->
        snd run = Done tt
        /\ Forall (fun e => is_session_call e = false) (fst run)
        /\ (eeg_disabled && negb ppg_enabled && negb acc_enabled
              && negb gyro_enabled = false ->
            run = (fst found, Done tt)))
    /\ (snd listed = Done (Some []) -> snd found = Done None)
    /\ (forall muses,
        truthy name = true ->
        snd listed = Done (Some muses) ->
        (forall d, In d muses -> dev_name d <> name) ->
        snd found = Done None).
Proof.
  intros address backend interface name ppg acc gyro eeg preset dl lsl retries h
         Ha Hpath found listed run.
  pose proof (find_muse_value name backend h) as Hvalue.
  fold found listed in Hvalue.
  assert (Htail :
            (forall m, snd found = Done (Some m) ->
               exists muses,
                 snd listed = Done (Some muses)
                 /\ if truthy name
                    then find (fun muse => opt_string_eqb (dev_name muse) name) muses
                         = Some m
                    else hd_error muses = Some m)
            /\ (snd listed = Done (Some []) -> snd found = Done None)
            /\ (forall muses,
                   truthy name = true ->
                   snd listed = Done (Some muses) ->
                   (forall d, In d muses -> dev_name d <> name) ->
                   snd found = Done None)).
  { split; [| split].
    - intros m Hm. rewrite Hm in Hvalue.
      destruct (snd listed) as [muses | e |]; try discriminate.
      destruct (truthy name); destruct muses as [l |]; try discriminate;
        injection Hvalue as Hv; try discriminate; exists l; split; auto.
    - intros Hl. rewrite Hvalue, Hl. destruct (truthy name); reflexivity.
    - intros muses Hname Hl Hno. rewrite Hvalue, Hl, Hname.
      rewrite (find_no_match name muses Hno). reflexivity. }
  destruct Htail as [Hresolved [Hempty Hmismatch]].
  destruct (eeg && negb ppg && negb acc && negb gyro) eqn:Hen.
  - assert (Hrun : run = ([EvPrint (Text "Stream initiation failed: At least one data source must be enabled.")],
                          Done tt)).
    { subst run. unfold Controller.stream. rewrite Hen. reflexivity. }
    split; [| split; [exact Hresolved | split; [| split; [exact Hempty | exact Hmismatch]]]].
    + intros Hex. exfalso. rewrite Hrun in Hex. cbn [fst] in Hex.
      apply Exists_exists in Hex. destruct Hex as [e' [[<- | []] He']].
      discriminate He'.
    + intros _. rewrite Hrun. cbn [fst snd].
      split; [reflexivity | split; [repeat constructor | discriminate]].
  - assert (Hbackend : String.eqb backend "bluemuse" = false)
      by (destruct Hpath as [Hb | Hb]; [exact Hb | discriminate Hb]).
    pose proof (stream_inprocess address backend interface name ppg acc gyro eeg
                  preset dl lsl retries h Hen Hbackend) as Hrun.
    cbv zeta in Hrun. fold run in Hrun.
    rewrite (resolve_target_by_discovery address backend name h Ha) in Hrun.
    cbn [fst snd] in Hrun. fold found in Hrun.
    pose proof (find_muse_emits K H name backend h) as Hfound. fold found in Hfound.
    assert (Hquiet : Forall (fun e => is_session_call e = false) (fst found)).
    { eapply Forall_impl; [| exact Hfound].
      intros e He. apply negb_true_iff in He. exact He. }
    split; [| split; [exact Hresolved | split; [| split; [exact Hempty | exact Hmismatch]]]].
    + intros Hex. destruct (snd found) as [[m |] | e |]; [exists m; reflexivity | | |];
        exfalso; rewrite Hrun in Hex; cbn [fst] in Hex;
        apply Exists_exists in Hex; destruct Hex as [e' [Hin He']];
        rewrite Forall_forall in Hquiet; specialize (Hquiet e' Hin); congruence.
    + intros Hnone. rewrite Hnone in Hrun. rewrite Hrun. cbn [fst snd].
      split; [reflexivity | split; [exact Hquiet | reflexivity]].
Qed.

End ControllerClaims.

(* ================================================================== *)
(** ** Examples on concrete runs *)

Lemma count_le_app p (a b : Trace) : count p b <= count p (a ++ b).
Proof. rewrite count_app. lia. Qed.

Lemma count_le_cons p e (b : Trace) : count p b <= count p (e :: b).
Proof. unfold count. simpl. destruct (p e); simpl; lia. Qed.

(** C1, as stated, fails.  A session streaming EEG whose link goes stale is
    stopped and disconnected once each, in that order, but its EEG channel,
    which was opened, is never closed.  And when [stop()] raises, the
    [finally] block is left at once: disconnect is not called at all. *)
Lemma teardown_leaves_channel_open :
  snd stale_run = Done tt
  /\ opened EEG (fst stale_run)
  /\ count is_stop (fst stale_run) = 1
  /\ count is_disconnect (fst stale_run) = 1
  /\ count is_close (fst stale_run) = 0
  /\ ~ teardown_as_specified (fst stale_run)
  /\ snd stop_failing_run = Raised BLEError
  /\ count is_stop (fst stop_failing_run) = 1
  /\ count is_disconnect (fst stop_failing_run) = 0
  /\ ~ teardown_as_specified (fst stop_failing_run).
Proof.
  assert (Hopen : opened EEG (fst stale_run)).
  { do 2 eexists. left. reflexivity. }
  repeat (split; [first [reflexivity | exact Hopen] |]).
  split; [| repeat (split; [reflexivity |])].
  - intros [pre [mid [post [E [_ [_ [_ [_ Hclose]]]]]]]].
    specialize (Hclose EEG Hopen).
    assert (Hz : count (closes EEG) (fst stale_run) = 0) by reflexivity.
    rewrite E in Hz.
    pose proof (count_le_app (closes EEG) pre (EvStop :: mid ++ EvDisconnect :: post)).
    pose proof (count_le_cons (closes EEG) EvStop (mid ++ EvDisconnect :: post)).
    pose proof (count_le_app (closes EEG) mid (EvDisconnect :: post)).
    pose proof (count_le_cons (closes EEG) EvDisconnect post).
    lia.
  - intros [pre [mid [post [E _]]]].
    assert (Hz : count is_disconnect (fst stop_failing_run) = 0) by reflexivity.
    rewrite E in Hz.
    pose proof (count_le_app is_disconnect pre (EvStop :: mid ++ EvDisconnect :: post)).
    pose proof (count_le_cons is_disconnect EvStop (mid ++ EvDisconnect :: post)).
    pose proof (count_le_app is_disconnect mid (EvDisconnect :: post)).
    assert (Hd : count is_disconnect (EvDisconnect :: post)
                 = Datatypes.S (count is_disconnect post)) by reflexivity.
    lia.
Qed.

Lemma teardown_after_streaming_witness :
  String.eqb "bleak" "bluemuse" = false
  /\ In EvStart (fst stale_run)
  /\ Exists (fun tk => stops_loop demo_constants 0%float tk = true) [stale_tick]
  /\ snd stale_run = Done tt
  /\ count is_stop (fst stale_run) = 1
  /\ count is_disconnect (fst stale_run) = 1
  /\ count is_close (fst stale_run) = 0
  /\ In EvStart (fst stop_failing_run)
  /\ snd stop_failing_run = Raised BLEError
  /\ count is_stop (fst stop_failing_run) = 1
  /\ count is_disconnect (fst stop_failing_run) = 0.
Proof.
  assert (Hin : In EvStart (fst stale_run)) by (do 4 right; left; reflexivity).
  assert (Hin' : In EvStart (fst stop_failing_run))
    by (do 4 right; left; reflexivity).
  assert (Hex : Exists (fun tk => stops_loop demo_constants 0%float tk = true)
                       [stale_tick])
    by (apply Exists_cons_hd; reflexivity).
  split; [reflexivity | split; [exact Hin | split; [exact Hex |]]].
  destruct (teardown_after_streaming demo_constants empty_host
              (demo_session true [stale_tick]) fixed_clock demo_address "bleak"
              None None false false false false None false false 1 []
              eq_refl Hin (or_introl Hex))
    as [before [_ [Hstop [Hclose [_ [Hdone Hdisc]]]]]].
  destruct (teardown_after_streaming demo_constants empty_host
              (stop_failing_session [stale_tick]) fixed_clock demo_address "bleak"
              None None false false false false None false false 1 []
              eq_refl Hin' (or_introl Hex))
    as [before' [_ [Hstop' [_ [_ [Hraised Hdisc']]]]]].
  split; [exact Hdone | split; [exact Hstop | split; [exact Hdisc |]]].
  split; [exact Hclose | split; [exact Hin' |]].
  split; [exact Hraised | split; [exact Hstop' | exact Hdisc']].
Defined.

(** C2, as stated, fails.  When the connection attempt of an EEG request
    fails, the failure is reported while the EEG channel, opened before the
    attempt, has not been closed. *)
Lemma failure_report_leaves_channel_open :
  snd failed_run = Done tt
  /\ opened EEG (fst failed_run)
  /\ count is_close (fst failed_run) = 0
  /\ count is_push (fst failed_run) = 0
  /\ ~ failure_report_as_specified (fst failed_run).
Proof.
  assert (Hopen : opened EEG (fst failed_run)).
  { do 2 eexists. left. reflexivity. }
  repeat (split; [first [reflexivity | exact Hopen] |]).
  intros [before [E [Hclose _]]].
  assert (Hz : count (closes EEG) (fst failed_run) = 0) by reflexivity.
  assert (Hb : opened EEG before).
  { destruct before as [| e before].
    - discriminate E.
    - injection E as He _. do 2 eexists. left. symmetry. exact He. }
  specialize (Hclose EEG Hb). rewrite E, count_app in Hz. lia.
Qed.

Lemma connect_failure_is_reported_witness :
  String.eqb "bleak" "bluemuse" = false
  /\ connect_result (demo_session false []) = false
  /\ In (EvConnect 1) (fst failed_run)
  /\ snd failed_run = Done tt
  /\ count is_push (fst failed_run) = 0
  /\ count is_teardown (fst failed_run) = 0.
Proof.
  assert (Hin : In (EvConnect 1) (fst failed_run)) by (do 2 right; left; reflexivity).
  split; [reflexivity | split; [reflexivity | split; [exact Hin |]]].
  destruct (connect_failure_is_reported demo_constants empty_host
              (demo_session false []) fixed_clock demo_address "bleak"
              None None false false false false None false false 1 []
              eq_refl eq_refl Hin)
    as [before [args [_ [Hdone [_ [Hpush [Hdown _]]]]]]].
  exact (conj Hdone (conj Hpush Hdown)).
Defined.

Lemma supervisor_iteration_witness :
  interrupt stale_tick <> AtLoopTop
  /\ last_timestamp stale_tick = Some 90%float
  /\ float_gt (PrimFloat.sub (now stale_tick) 90%float)
              (AUTO_DISCONNECT_DELAY demo_constants) = true
  /\ Controller.supervise demo_constants fixed_clock no_callbacks 0%float
       [stale_tick] []
     = ([EvPrint (TextFloat "Auto-disconnect after " 3%float "s of no data")],
        Done Stale)
  /\ last_timestamp silent_tick = None
  /\ float_gt (PrimFloat.sub (now silent_tick) 0%float) 300%float = true
  /\ Controller.supervise demo_constants fixed_clock no_callbacks 0%float
       [silent_tick] []
     = ([EvPrint (Text "Max streaming time reached")], Done Silent)
  /\ float_gt (PrimFloat.sub (now fresh_tick) 90%float)
              (AUTO_DISCONNECT_DELAY demo_constants) = false
  /\ fst (Controller.supervise demo_constants fixed_clock no_callbacks 0%float
            [fresh_tick; stale_tick] [])
     = [EvBackendSleep (1 # 1);
        EvPrint (TextFloat "Auto-disconnect after " 3%float "s of no data")].
Proof.
  assert (Hno : forall tk, interrupt tk = NoInterrupt -> interrupt tk <> AtLoopTop)
    by (intros tk ->; discriminate).
  destruct (supervisor_iteration demo_constants fixed_clock no_callbacks 0%float
              stale_tick [] [] (Hno stale_tick eq_refl)) as [Ha _].
  destruct (supervisor_iteration demo_constants fixed_clock no_callbacks 0%float
              silent_tick [] [] (Hno silent_tick eq_refl)) as [_ [Hb _]].
  destruct (supervisor_iteration demo_constants fixed_clock no_callbacks 0%float
              fresh_tick [stale_tick] [] (Hno fresh_tick eq_refl)) as [_ [_ Hc]].
  split; [exact (Hno stale_tick eq_refl) | split; [reflexivity |]].
  split; [reflexivity | split; [exact (Ha 90%float eq_refl eq_refl) |]].
  split; [reflexivity | split; [reflexivity |]].
  split; [exact (Hb eq_refl eq_refl) | split; [reflexivity |]].
  destruct Hc as [Hrun _].
  - intros last [= <-]. reflexivity.
  - discriminate.
  - rewrite Hrun. reflexivity.
Defined.

(** The elapsed time is the rounded difference of the two readings: with the
    clock at 3.0000000000000004 and a last sample at about 3e-16 the
    difference computed is 3.0, which does not exceed a delay of 3, and the
    loop sleeps. *)
Example supervisor_rounds_elapsed_time :
  PrimFloat.sub (now rounding_tick) 0x1.59e05f1e2674dp-52%float = 3%float
  /\ fst (Controller.supervise demo_constants fixed_clock no_callbacks 0%float
            [rounding_tick; stale_tick] [])
     = [EvBackendSleep (1 # 1);
        EvPrint (TextFloat "Auto-disconnect after " 3%float "s of no data")].
Proof. split; reflexivity. Qed.

(** C7, as stated, fails.  With backend 'bluemuse' and no address the session
    is constructed and connect is called although the Device Locator resolved
    no device. *)
Lemma bluemuse_connects_without_discovery :
  snd (Locator.find_muse demo_constants empty_host None "bluemuse" []) = Done None
  /\ In (EvConnect 1) (fst bridge_run)
  /\ ~ session_requires_discovery demo_constants empty_host (demo_session true [])
         fixed_clock "bluemuse" None None false false false false None false false 1.
Proof.
  split; [reflexivity | split; [do 5 right; left; reflexivity |]].
  intros Hclaim. destruct Hclaim as [m Hm].
  - apply Exists_exists. exists (EvConnect 1).
    split; [do 5 right; left; reflexivity | reflexivity].
  - discriminate Hm.
Qed.

Lemma connecting_requires_resolved_device_witness :
  truthy None = false
  /\ String.eqb "bleak" "bluemuse" = false
  /\ snd (Locator.find_muse demo_constants empty_host None "bleak" []) = Done None
  /\ false && negb false && negb false && negb false = false
  /\ lost_run = (fst (Locator.find_muse demo_constants empty_host None "bleak" []),
                 Done tt)
  /\ Forall (fun e => is_session_call e = false) (fst lost_run)
  /\ true && negb false && negb false && negb false = true
  /\ snd (Locator.find_muse demo_constants empty_host None "bluemuse" []) = Done None
  /\ Forall (fun e => is_session_call e = false)
            (fst (Controller.stream demo_constants empty_host (demo_session true [])
                    fixed_clock None "bluemuse" None None false false false true
                    None false false 1 [])).
Proof.
  do 4 (split; [reflexivity |]).
  destruct (connecting_requires_resolved_device demo_constants empty_host
              (demo_session true []) fixed_clock None "bleak" None None
              false false false false None false false 1 []
              eq_refl (or_introl eq_refl)) as [_ [_ [Hnone _]]].
  destruct (connecting_requires_resolved_device demo_constants empty_host
              (demo_session true []) fixed_clock None "bluemuse" None None
              false false false true None false false 1 []
              eq_refl (or_intror eq_refl)) as [_ [_ [Hdisabled _]]].
  destruct (Hnone eq_refl) as [_ [Hquiet Hrun]].
  destruct (Hdisabled eq_refl) as [_ [Hquiet' _]].
  split; [exact (Hrun eq_refl) | split; [exact Hquiet |]].
  split; [reflexivity | split; [reflexivity | exact Hquiet']].
Defined.

Lemma bluemuse_stream_skips_loop_and_teardown_witness :
  false && negb false && negb false && negb false = false
  /\ snd bridge_run = Done tt
  /\ count is_teardown (fst bridge_run) = 0.
Proof.
  split; [reflexivity |].
  destruct (bluemuse_stream_skips_loop_and_teardown demo_constants empty_host
              (demo_session true []) fixed_clock None None None
              false false false false None false false 1 [] eq_refl)
    as [Hrun [_ Hdown]].
  unfold bridge_run. rewrite Hrun. exact (conj eq_refl Hdown).
Defined.

(* ================================================================== *)
(** ** Sample Router: further properties *)

Lemma Modality_eqb_refl m : Modality_eqb m m = true.
Proof. destruct m; reflexivity. Qed.

Section RouterMore.

Variable time : Trace -> Q.

(** A list of samples on an outlet that accepts every push: one push per
    element, in order, element [i] with [timestamps[i]] when the sequence has
    it and without timestamp otherwise. *)
Theorem fixed_push_routes_list :
  forall samples ts outlet h,
    accepts outlet ->
    Router.fixed_push time (PyList samples) (TsSeq ts) outlet h
    = (map (sample_push outlet ts) (Router.enumerate samples), Done tt)
    /\ count is_push (fst (Router.fixed_push time (PyList samples) (TsSeq ts) outlet h))
       = List.length samples.
Proof.
  intros samples ts outlet h Hacc.
  assert (Hrun : Router.fixed_push time (PyList samples) (TsSeq ts) outlet h
                 = (map (sample_push outlet ts) (Router.enumerate samples), Done tt)).
  { unfold Router.fixed_push, try_except, Router.dispatch.
    rewrite (for_each_map (sample_push outlet ts)); [reflexivity |].
    intros [i sample] h'. unfold bind at 1. simpl. unfold sample_push. simpl.
    destruct (i <? List.length ts);
      rewrite push_sample_accepted by assumption; reflexivity. }
  split; [exact Hrun |]. rewrite Hrun. cbn [fst].
  unfold count, Router.enumerate.
  assert (Hall : forall l : list (nat * list Q),
             filter is_push (map (sample_push outlet ts) l)
             = map (sample_push outlet ts) l).
  { induction l as [| x l IH]; simpl; [reflexivity | now rewrite IH]. }
  rewrite Hall, length_map, length_combine, length_seq. apply Nat.min_id.
Qed.

(** A 1-D array or a single opaque sample on an outlet that accepts every
    push: exactly one push, of [data.tolist()] or of the object itself, paired
    with the first timestamp when there is one and without timestamp when the
    sequence is empty. *)
Theorem fixed_push_single_sample :
  forall ts outlet h,
    accepts outlet ->
    (forall xs,
        Router.fixed_push time (Nd1 xs) (TsSeq ts) outlet h
        = ([EvPush (o_tag outlet) (SList xs) (hd_error ts)], Done tt))
    /\ (forall x,
        Router.fixed_push time (Scalar x) (TsSeq ts) outlet h
        = ([EvPush (o_tag outlet) (SObject (Scalar x)) (hd_error ts)], Done tt)).
Proof.
  intros ts outlet h Hacc.
  split; intros x; unfold Router.fixed_push, try_except, Router.dispatch;
    unfold bind at 1; simpl;
    destruct ts as [| t ts]; simpl;
    rewrite push_sample_accepted by assumption; reflexivity.
Qed.

(** An empty batch (a 2-D array without columns, an empty list) makes no
    call at all and returns normally, whatever the timestamps argument is and
    however the outlet behaves. *)
Theorem fixed_push_empty_batch :
  forall data timestamps outlet h,
    batch_size data = 0 ->
    Router.fixed_push time data timestamps outlet h = ([], Done tt).
Proof.
  intros data timestamps outlet h Hsize.
  destruct data as [ncols rows | xs | samples | x]; simpl in Hsize;
    try discriminate Hsize.
  - subst ncols. reflexivity.
  - destruct samples; [reflexivity | discriminate Hsize].
Qed.

(** With a timestamps argument that has no length, a batch that is not empty
    is dropped whole: the first pass and the fallback pass both fail at
    [len(timestamps)] before any push, the error is reported once and the
    router returns normally. *)
Theorem fixed_push_unsized_timestamps :
  forall data outlet h,
    0 < batch_size data ->
    Router.fixed_push time data TsUnsized outlet h
    = ([EvPrint (TextExc "Fixed push error: " TypeError)], Done tt).
Proof.
  intros data outlet h Hsize.
  destruct data as [[| ncols] rows | xs | [| s samples] | x];
    simpl in Hsize; try lia; reflexivity.
Qed.

(** One step of either pass adds at most one event. *)
Lemma for_each_length {A} (body : A -> Prog.t unit) :
  (forall x h, List.length (fst (body x h)) <= 1) ->
  forall xs h, List.length (fst (for_each xs body h)) <= List.length xs.
Proof.
  intros Hbody xs. induction xs as [| x xs IH]; intros h; simpl; [lia |].
  rewrite bind_fst, length_app. specialize (Hbody x h).
  destruct (snd (body x h)) as [u | e |]; simpl;
    [specialize (IH (h ++ fst (body x h))) | |]; lia.
Qed.

Lemma push_step_length timestamps outlet (x : Sample) (i : nat) h :
  List.length
    (fst ((n <- Router.len timestamps ;;
           if i <? n
           then Router.push_sample outlet x (Some (Router.item timestamps i))
           else Router.push_sample outlet x None) h)) <= 1.
Proof.
  rewrite bind_fst. destruct timestamps as [ts |]; simpl; [| lia].
  destruct (i <? List.length ts); rewrite push_sample_event; simpl; lia.
Qed.

Lemma dispatch_length data timestamps outlet h :
  List.length (fst (Router.dispatch data timestamps outlet h)) <= batch_size data.
Proof.
  destruct data as [ncols rows | xs | samples | x]; simpl.
  - rewrite <- (length_seq ncols 0) at 2. apply for_each_length.
    intros ii h'. apply push_step_length.
  - apply push_step_length.
  - replace (List.length samples) with (List.length (Router.enumerate samples))
      by (unfold Router.enumerate; rewrite length_combine, length_seq;
          apply Nat.min_id).
    apply for_each_length. intros [i sample] h'. apply push_step_length.
  - apply push_step_length.
Qed.

Lemma fallback_step_length timestamps outlet (x : Sample) (i : nat) h :
  List.length
    (fst ((n <- Router.len timestamps ;;
           t <- (if i <? n then ret (Router.item timestamps i) else ask time) ;;
           Router.push_sample outlet x (Some t)) h)) <= 1.
Proof.
  destruct (fallback_one time timestamps outlet x i h) as [[E _] | [t [E _]]];
    cbv zeta in E; rewrite E; simpl; lia.
Qed.

Lemma fallback_length data timestamps outlet h :
  List.length (fst (Router.fallback time data timestamps outlet h))
  <= Nat.max 1 (batch_size data).
Proof.
  destruct data as [ncols rows | xs | samples | x]; simpl.
  - transitivity ncols; [| destruct ncols; lia].
    rewrite <- (length_seq ncols 0) at 2. apply for_each_length.
    intros ii h'. apply fallback_step_length.
  - apply fallback_step_length.
  - transitivity 1;
      [apply fallback_step_length | destruct (List.length samples); lia].
  - apply fallback_step_length.
Qed.

(** A first pass that fails has a batch that is not empty. *)
Lemma dispatch_raises_nonempty data timestamps outlet h e :
  snd (Router.dispatch data timestamps outlet h) = Raised e ->
  0 < batch_size data.
Proof.
  destruct data as [[| ncols] rows | xs | [| s samples] | x]; simpl;
    try discriminate; lia.
Qed.

Lemma count_le_length p (tr : Trace) : count p tr <= List.length tr.
Proof. unfold count. apply filter_length_le. Qed.

(** The router makes at most two pushes per sample of the batch: at most
    one in the first pass and at most one in the fallback pass. *)
Theorem fixed_push_push_bound :
  forall data timestamps outlet h,
    count is_push (fst (Router.fixed_push time data timestamps outlet h))
    <= 2 * batch_size data.
Proof.
  intros data timestamps outlet h. unfold Router.fixed_push.
  pose proof (dispatch_length data timestamps outlet h) as Hd.
  pose proof (dispatch_raises_nonempty data timestamps outlet h) as Hne.
  destruct (Router.dispatch data timestamps outlet h) as [es [[] | e |]] eqn:E;
    cbn [fst snd] in *.
  - rewrite (try_except_done _ _ _ _ _ _ E). cbn [fst].
    pose proof (count_le_length is_push es). lia.
  - destruct (is_Exception e) eqn:He.
    + rewrite (try_except_caught _ _ _ _ _ _ E He), handler_run. cbn [fst].
      rewrite count_app.
      change (count is_push (EvPrint (TextExc "Fixed push error: " e)
                               :: fst (Router.fallback time data timestamps outlet
                                         ((h ++ es) ++ [EvPrint (TextExc "Fixed push error: " e)]))))
        with (count is_push (fst (Router.fallback time data timestamps outlet
                ((h ++ es) ++ [EvPrint (TextExc "Fixed push error: " e)])))).
      pose proof (count_le_length is_push es).
      pose proof (count_le_length is_push
                    (fst (Router.fallback time data timestamps outlet
                            ((h ++ es) ++ [EvPrint (TextExc "Fixed push error: " e)])))).
      pose proof (fallback_length data timestamps outlet
                    ((h ++ es) ++ [EvPrint (TextExc "Fixed push error: " e)])).
      specialize (Hne e eq_refl). lia.
    + rewrite (try_except_uncaught _ _ _ _ _ _ E He). cbn [fst].
      pose proof (count_le_length is_push es). lia.
  - rewrite (try_except_pending _ _ _ _ _ E). cbn [fst].
    pose proof (count_le_length is_push es). lia.
Qed.

(** The router calls no outlet but its own: every push it makes is on the
    channel of the outlet it was given, and apart from pushes it only writes
    to the console, at most one line. *)
Theorem fixed_push_targets_its_outlet :
  forall data timestamps outlet h,
    let tr := fst (Router.fixed_push time data timestamps outlet h) in
    Forall (fun e => push_on_or_print (o_tag outlet) e = true) tr
    /\ count is_print tr <= 1.
Proof.
  intros data timestamps outlet h tr. subst tr. split.
  - revert h. change (emits (push_on_or_print (o_tag outlet))
                            (Router.fixed_push time data timestamps outlet)).
    unfold Router.fixed_push, Router.dispatch, Router.fallback,
      Router.push_sample, Router.len.
    destruct data, timestamps;
      repeat first
        [ apply emits_ret | apply emits_raise | apply emits_ask | apply emits_check
        | apply emits_emit; first [reflexivity | apply Modality_eqb_refl]
        | prog_step @emits_bind @emits_try @emits_for_each ].
  - assert (Hd : count is_print (fst (Router.dispatch data timestamps outlet h)) = 0).
    { apply (emits_count _ is_push).
      - intros []; simpl; intros; first [reflexivity | discriminate].
      - unfold Router.dispatch, Router.push_sample, Router.len.
        destruct data, timestamps; prog_emits. }
    unfold Router.fixed_push.
    destruct (Router.dispatch data timestamps outlet h) as [es [[] | e |]] eqn:E;
      cbn [fst snd] in *.
    + rewrite (try_except_done _ _ _ _ _ _ E). cbn [fst]. lia.
    + destruct (is_Exception e) eqn:He.
      * rewrite (try_except_caught _ _ _ _ _ _ E He), handler_run. cbn [fst].
        rewrite count_app, Hd.
        assert (Hf : count is_print
                       (fst (Router.fallback time data timestamps outlet
                               ((h ++ es) ++ [EvPrint (TextExc "Fixed push error: " e)])))
                     = 0).
        { apply (emits_count _ is_push).
          - intros []; simpl; intros; first [reflexivity | discriminate].
          - unfold Router.fallback, Router.push_sample, Router.len.
            destruct data, timestamps; prog_emits. }
        unfold count in *. simpl. rewrite Hf. lia.
      * rewrite (try_except_uncaught _ _ _ _ _ _ E He). cbn [fst]. lia.
    + rewrite (try_except_pending _ _ _ _ _ E). cbn [fst]. lia.
Qed.

End RouterMore.

(* ================================================================== *)
(** ** Device Locator: further properties *)

Section TextMore.

Lemma starts_with_append p b : Text.starts_with p (String.append p b) = true.
Proof.
  induction p as [| c p IH]; simpl; [reflexivity |].
  rewrite Ascii.eqb_refl. exact IH.
Qed.

Lemma contains_unfold p s :
  Text.contains p s
  = Text.starts_with p s
    || match s with
       | EmptyString => false
       | String _ s' => Text.contains p s'
       end.
Proof. destruct s; reflexivity. Qed.

Lemma contains_complete p s : Substring p s -> Text.contains p s = true.
Proof.
  intros [a [b ->]]. induction a as [| c a IH].
  - cbn [String.append]. rewrite contains_unfold, starts_with_append. reflexivity.
  - cbn [String.append]. rewrite contains_unfold, IH. apply orb_true_r.
Qed.

Lemma append_assoc (a b c : string) :
  String.append (String.append a b) c = String.append a (String.append b c).
Proof. induction a as [| x a IH]; simpl; [reflexivity | now rewrite IH]. Qed.

Lemma append_nil_r (a : string) : String.append a EmptyString = a.
Proof. induction a as [| x a IH]; simpl; [reflexivity | now rewrite IH]. Qed.

Lemma search_addr_cons c line :
  Text.search_addr (String c line)
  = if Text.mac_here (String c line) then Some (Text.take 17 (String c line))
    else Text.search_addr line.
Proof. reflexivity. Qed.

(** A name search skips a prefix in which the letter M does not occur. *)
Lemma search_name_skip pre s :
  Forall (fun c => Ascii.eqb "M"%char c = false) (chars pre) ->
  Text.search_name (String.append pre s) = Text.search_name s.
Proof.
  induction pre as [| c pre IH]; intros Hpre; [reflexivity |].
  inversion Hpre as [| c' l Hc Hrest]; subst.
  cbn [String.append]. rewrite search_name_cons.
  cbn [Text.starts_with]. rewrite Hc. cbn [andb]. exact (IH Hrest).
Qed.

Lemma non_space_run_all s :
  Forall (fun c => Text.is_space c = false) (chars s) ->
  Text.non_space_run s = s.
Proof.
  induction s as [| c s IH]; intros Hs; [reflexivity |].
  inversion Hs as [| c' l Hc Hrest]; subst.
  cbn [Text.non_space_run]. rewrite Hc, (IH Hrest). reflexivity.
Qed.

Lemma hex_or_sep_not_M c :
  Text.is_hex c || Text.is_sep c = true -> Ascii.eqb "M"%char c = false.
Proof.
  destruct c as [[] [] [] [] [] [] [] []]; vm_compute; congruence.
Qed.

Lemma hex_pair_split s r :
  Text.hex_pair s = Some r ->
  exists a b, s = String a (String b r)
              /\ Text.is_hex a = true /\ Text.is_hex b = true.
Proof.
  destruct s as [| a [| b s]]; simpl; try discriminate.
  destruct (Text.is_hex a) eqn:Ha; simpl; [| discriminate].
  destruct (Text.is_hex b) eqn:Hb; simpl; [| discriminate].
  intros [= <-]. exists a, b. auto.
Qed.

(** What the address pattern consumes: hex digits and separators only. *)
Lemma hex_groups_split n : forall s r,
  Text.hex_groups n s = Some r ->
  exists p, s = String.append p r
            /\ String.length p = 3 * n
            /\ Forall (fun c => Text.is_hex c || Text.is_sep c = true) (chars p).
Proof.
  induction n as [| n IH]; intros s r Hs.
  - injection Hs as <-. exists EmptyString. repeat split. constructor.
  - cbn [Text.hex_groups] in Hs.
    destruct (Text.hex_pair s) as [[| c rest] |] eqn:Hp; try discriminate.
    destruct (Text.is_sep c) eqn:Hc; [| discriminate].
    destruct (hex_pair_split _ _ Hp) as [a [b [-> [Ha Hb]]]].
    destruct (IH rest r Hs) as [p [-> [Hlen Hall]]].
    exists (String a (String b (String c p))). split; [reflexivity |].
    split; [simpl; lia |].
    repeat constructor; try assumption.
    + rewrite Ha. reflexivity.
    + rewrite Hb. reflexivity.
    + rewrite Hc. apply orb_true_r.
Qed.

Lemma length_append (a b : string) :
  String.length (String.append a b) = String.length a + String.length b.
Proof. induction a as [| x a IH]; simpl; [reflexivity | now rewrite IH]. Qed.

Lemma chars_append (a b : string) :
  chars (String.append a b) = chars a ++ chars b.
Proof. induction a as [| x a IH]; simpl; [reflexivity | now rewrite IH]. Qed.

(** A text of seventeen characters that matches the address pattern
    consists of hex digits and separators. *)
Lemma mac_chars mac :
  Text.mac_here mac = true -> String.length mac = 17 ->
  Forall (fun c => Text.is_hex c || Text.is_sep c = true) (chars mac).
Proof.
  unfold Text.mac_here. intros Hm Hlen.
  destruct (Text.hex_groups 5 mac) as [r |] eqn:Hg; [| discriminate].
  destruct (Text.hex_pair r) as [r' |] eqn:Hp; [| discriminate].
  destruct (hex_groups_split 5 _ _ Hg) as [p [-> [Hpl Hall]]].
  destruct (hex_pair_split _ _ Hp) as [a [b [-> [Ha Hb]]]].
  rewrite chars_append. apply Forall_app. split; [exact Hall |].
  rewrite length_append in Hlen. simpl in Hlen.
  destruct r' as [| x r']; [| simpl in Hlen; lia].
  repeat constructor; [rewrite Ha | rewrite Hb]; reflexivity.
Qed.

Lemma hex_pair_append s r t :
  Text.hex_pair s = Some r ->
  Text.hex_pair (String.append s t) = Some (String.append r t).
Proof.
  intros Hp. destruct (hex_pair_split _ _ Hp) as [a [b [-> [Ha Hb]]]].
  simpl. rewrite Ha, Hb. reflexivity.
Qed.

Lemma hex_groups_append n : forall s r t,
  Text.hex_groups n s = Some r ->
  Text.hex_groups n (String.append s t) = Some (String.append r t).
Proof.
  induction n as [| n IH]; intros s r t Hs.
  - injection Hs as <-. reflexivity.
  - cbn [Text.hex_groups] in *.
    destruct (Text.hex_pair s) as [[| c rest] |] eqn:Hp; try discriminate.
    rewrite (hex_pair_append _ _ t Hp). cbn [String.append].
    destruct (Text.is_sep c); [| discriminate]. exact (IH _ _ t Hs).
Qed.

(** The address pattern only looks at the head of the text. *)
Lemma mac_here_append mac t :
  Text.mac_here mac = true -> Text.mac_here (String.append mac t) = true.
Proof.
  unfold Text.mac_here. intros Hm.
  destruct (Text.hex_groups 5 mac) as [r |] eqn:Hg; [| discriminate].
  destruct (Text.hex_pair r) as [r' |] eqn:Hp; [| discriminate].
  rewrite (hex_groups_append 5 _ _ t Hg), (hex_pair_append _ _ t Hp). reflexivity.
Qed.

Lemma take_append s t : Text.take (String.length s) (String.append s t) = s.
Proof. induction s as [| c s IH]; simpl; [destruct t; reflexivity | now rewrite IH]. Qed.

End TextMore.

Section ParsingMore.

(** A line [Device <address> <name>] of the bluetoothctl output, whose
    address matches the pattern and whose name begins with 'Muse' and holds no
    white space, yields the descriptor with exactly that name and address. *)
Theorem parse_line_device_entry :
  forall mac name,
    Text.mac_here mac = true ->
    String.length mac = 17 ->
    Text.starts_with "Muse" name = true ->
    Forall (fun c => Text.is_space c = false) (chars name) ->
    Locator.parse_line (device_line mac name) = Some (mkDevice (Some name) mac).
Proof.
  intros mac name Hmac Hlen Hname Hspace.
  destruct (starts_with_sound _ _ Hname) as [rest Hrest].
  assert (Hline : device_line mac name
                  = String.append (String.append "Device " (String.append mac " ")) name).
  { unfold device_line. rewrite !append_assoc. reflexivity. }
  assert (Hn : Text.search_name (device_line mac name) = Some name).
  { rewrite Hline, search_name_skip.
    - destruct name as [| c name']; [discriminate |].
      rewrite search_name_cons, Hname. f_equal.
      rewrite Hrest in *. cbn [String.append Text.drop].
      change (String.append "Muse" rest) with
        (String "M" (String "u" (String "s" (String "e" rest)))) in Hspace.
      cbn [chars] in Hspace.
      do 4 (inversion Hspace as [| ? ? _ Hspace']; subst; clear Hspace;
            rename Hspace' into Hspace).
      rewrite (non_space_run_all _ Hspace). reflexivity.
    - rewrite chars_append. apply Forall_app. split.
      + repeat constructor.
      + rewrite chars_append. apply Forall_app. split.
        * eapply Forall_impl; [| exact (mac_chars mac Hmac Hlen)].
          intros c. apply hex_or_sep_not_M.
        * repeat constructor. }
  assert (Ha : Text.search_addr (device_line mac name) = Some mac).
  { unfold device_line.
    destruct mac as [| m0 mac']; [discriminate |].
    cbn [String.append].
    do 7 (rewrite search_addr_cons;
          match goal with
          | |- context [Text.mac_here ?s] =>
              replace (Text.mac_here s) with false
                by (destruct m0 as [[] [] [] [] [] [] [] []]; reflexivity)
          end).
    rewrite search_addr_cons.
    change (String m0 (String.append mac' (String " " name)))
      with (String.append (String m0 mac') (String " " name)).
    rewrite (mac_here_append _ _ Hmac), <- Hlen, take_append. reflexivity. }
  unfold Locator.parse_line. rewrite Hn, Ha.
  rewrite contains_complete; [reflexivity |].
  exists (String.append "Device " (String.append mac " ")), rest.
  rewrite Hline, Hrest. reflexivity.
Qed.

(** The parsing loop only appends to what it has collected. *)
Lemma parse_fold lines : forall acc,
  fold_left
    (fun muses device_line =>
       match Locator.parse_line device_line with
       | Some d => muses ++ [d]
       | None => muses
       end) lines acc
  = acc ++ Locator.parse_devices lines.
Proof.
  unfold Locator.parse_devices.
  induction lines as [| l lines IH]; intros acc; simpl.
  - now rewrite app_nil_r.
  - rewrite IH. rewrite (IH (match Locator.parse_line l with
                             | Some d => [d]
                             | None => []
                             end)).
    destruct (Locator.parse_line l); [now rewrite app_assoc | reflexivity].
Qed.

(** The parsing loop handles each line on its own: lines are taken in order
    and the descriptors of two outputs put end to end are those of the first
    followed by those of the second. *)
Theorem parse_devices_app :
  forall lines more,
    Locator.parse_devices (lines ++ more)
    = Locator.parse_devices lines ++ Locator.parse_devices more.
Proof.
  intros lines more. unfold Locator.parse_devices.
  rewrite fold_left_app. apply parse_fold.
Qed.

End ParsingMore.

Section SplitMore.

Lemma split_lines_cons c s :
  Text.split_lines (String c s)
  = if Ascii.eqb c Text.newline then EmptyString :: Text.split_lines s
    else match Text.split_lines s with
         | l :: ls => String c l :: ls
         | [] => [String c EmptyString]
         end.
Proof. reflexivity. Qed.

Lemma split_lines_nonempty s : Text.split_lines s <> [].
Proof.
  induction s as [| c s IH]; [discriminate |].
  rewrite split_lines_cons. destruct (Ascii.eqb c Text.newline); [discriminate |].
  destruct (Text.split_lines s); [contradiction | discriminate].
Qed.

(** Splitting the output into lines loses nothing: joining the lines with
    line feeds gives the output back, and no line holds a line feed. *)
Theorem split_lines_join :
  forall s,
    join_lines (Text.split_lines s) = s
    /\ Forall (fun l => Forall (fun c => Ascii.eqb c Text.newline = false) (chars l))
              (Text.split_lines s).
Proof.
  induction s as [| c s [IHj IHf]].
  - split; [reflexivity | repeat constructor].
  - rewrite split_lines_cons.
    pose proof (split_lines_nonempty s) as Hne.
    destruct (Ascii.eqb c Text.newline) eqn:Hc.
    + apply Ascii.eqb_eq in Hc. subst c. split.
      * destruct (Text.split_lines s) as [| l ls]; [contradiction |].
        rewrite <- IHj. reflexivity.
      * constructor; [constructor | exact IHf].
    + destruct (Text.split_lines s) as [| l ls]; [contradiction |]. split.
      * destruct ls as [| l' ls]; rewrite <- IHj; reflexivity.
      * inversion IHf as [| ? ? Hl Hls]; subst.
        constructor; [constructor; assumption | assumption].
Qed.

End SplitMore.

Section ListingMore.

Variable K : Constants.
Variable H : Host.

Lemma print_muse_list_run muses h :
  snd (Locator._print_muse_list muses h) = Done tt
  /\ Forall (fun e => is_print e = true) (fst (Locator._print_muse_list muses h)).
Proof.
  unfold Locator._print_muse_list. rewrite bind_snd, bind_fst.
  assert (Hloop : forall l h',
             snd (for_each l (fun m => print (Locator.found_line m)) h') = Done tt
             /\ Forall (fun e => is_print e = true)
                       (fst (for_each l (fun m => print (Locator.found_line m)) h'))).
  { induction l as [| m l IH]; intros h'; [split; [reflexivity | constructor] |].
    cbn [for_each]. unfold print at 1 3. rewrite bind_emit. cbn [fst snd].
    destruct (IH (h' ++ [EvPrint (Text (Locator.found_line m))])) as [IHs IHf].
    split; [exact IHs | constructor; [reflexivity | exact IHf]]. }
  destruct (Hloop muses h) as [Hs Hf]. rewrite Hs. split.
  - destruct muses; reflexivity.
  - apply Forall_app. split; [exact Hf |]. destruct muses; repeat constructor.
Qed.

(** With backend 'auto' on a host that has bluetoothctl, discovery goes
    straight to the bluetoothctl strategy: no adapter is constructed, started
    or scanned, and the backend helper is not consulted. *)
Theorem auto_listing_bypasses_adapter :
  forall interface h,
    which_bluetoothctl H = true ->
    let pre := [EvPrint (Text "Backend was 'auto' and bluetoothctl was found, using to list muses...")] in
    let listing := Locator._list_muses_bluetoothctl H (LIST_SCAN_TIMEOUT K) (h ++ pre) in
    Locator.list_muses K H "auto" interface h
    = (pre ++ fst listing, handed_over (snd listing))
    /\ count is_adapter_event (fst (Locator.list_muses K H "auto" interface h)) = 0.
Proof.
  intros interface h Hw pre listing.
  assert (Hrun : Locator.list_muses K H "auto" interface h
                 = (pre ++ fst listing, handed_over (snd listing))).
  { unfold Locator.list_muses. rewrite Hw. cbn [String.eqb Ascii.eqb Bool.eqb andb].
    unfold print. rewrite bind_emit. fold pre. fold listing.
    rewrite (surjective_pairing (bind _ _ (h ++ pre))) at 1.
    rewrite bind_fst, bind_snd. fold listing.
    destruct (snd listing) as [muses | e |]; cbn; rewrite ?app_nil_r; reflexivity. }
  split; [exact Hrun |]. rewrite Hrun. cbn [fst]. rewrite count_app.
  subst listing.
  rewrite (emits_count is_adapter_event (fun e => negb (is_session_call e) && negb (is_adapter_event e))).
  - reflexivity.
  - intros e He. apply andb_true_iff in He. destruct He as [_ He].
    apply negb_true_iff in He. exact He.
  - unfold Locator._list_muses_bluetoothctl, Locator._print_muse_list, print.
    prog_emits.
Qed.

(** The [try] block of the adapter path when start, scan and stop succeed. *)
Lemma scan_block_succeeds devices h :
  adapter_start H = None ->
  adapter_scan H = inr devices ->
  adapter_stop H = None ->
  (emit EvAdapterStart ;;
   check (adapter_start H) ;;
   print "Searching for Muses, this may take up to 10 seconds..." ;;
   emit (EvAdapterScan (LIST_SCAN_TIMEOUT K)) ;;
   devices <- answer (adapter_scan H) ;;
   emit EvAdapterStop ;;
   check (adapter_stop H) ;;
   ret (@inr (list Device) _ devices)) h
  = (scan_block K ++ [EvAdapterStop], Done (inr devices)).
Proof.
  intros Hstart Hscan Hstop. unfold print. rewrite Hstart, Hscan, Hstop. reflexivity.
Qed.

Lemma scan_adapter_success backend adapter devices h :
  adapter_start H = None ->
  adapter_scan H = inr devices ->
  adapter_stop H = None ->
  snd (Locator.scan_adapter K H backend (Some adapter) h)
  = Done (Some (filter Locator.is_muse devices))
  /\ exists prints,
      fst (Locator.scan_adapter K H backend (Some adapter) h)
      = (scan_block K ++ [EvAdapterStop]) ++ prints
      /\ Forall (fun e => is_print e = true) prints.
Proof.
  intros Hstart Hscan Hstop. unfold Locator.scan_adapter.
  rewrite (surjective_pairing (bind _ _ h)), bind_fst, bind_snd.
  rewrite (try_except_done _ _ _ _ _ _ (scan_block_succeeds devices h Hstart Hscan Hstop)).
  cbn [fst snd]. rewrite bind_fst, bind_snd.
  destruct (print_muse_list_run (filter Locator.is_muse devices)
              (h ++ scan_block K ++ [EvAdapterStop])) as [Hs Hf].
  rewrite Hs. cbn [fst snd ret]. split; [reflexivity |].
  eexists. split; [reflexivity |]. rewrite app_nil_r. exact Hf.
Qed.

Lemma is_muse_iff d : Locator.is_muse d = true <-> has_product_name d.
Proof.
  split; [apply is_muse_named |].
  intros [n [Hn Hsub]]. unfold Locator.is_muse. rewrite Hn.
  rewrite (contains_complete _ _ Hsub), andb_true_r.
  destruct Hsub as [a [b ->]]. destruct a; reflexivity.
Qed.

(** A scan that succeeds on an adapter backend returns, in scan order, the
    scanned devices whose name contains 'Muse' and no other.  Its calls are,
    in this order, the construction of the adapter, start, scan and stop,
    once each; the rest is console output, and bluetoothctl is not run. *)
Theorem adapter_scan_returns_muses :
  forall backend interface b devices h,
    String.eqb backend "auto" && which_bluetoothctl H = false ->
    resolve_backend H backend = inr b ->
    b = "gatt" \/ b = "bleak" \/ b = "bgapi" ->
    adapter_start H = None ->
    adapter_scan H = inr devices ->
    adapter_stop H = None ->
    let run := Locator.list_muses K H backend interface h in
    snd run = Done (Some (filter Locator.is_muse devices))
    /\ (forall d, In d (filter Locator.is_muse devices)
                  <-> In d devices /\ has_product_name d)
    /\ (exists adapter prints,
          fst run
          = [EvAdapterNew adapter;
             EvAdapterStart;
             EvPrint (Text "Searching for Muses, this may take up to 10 seconds...");
             EvAdapterScan (LIST_SCAN_TIMEOUT K);
             EvAdapterStop] ++ prints
          /\ Forall (fun e => is_print e = true) prints)
    /\ count is_devices_command (fst run) = 0.
Proof.
  intros backend interface b devices h Hauto Hres Hb Hstart Hscan Hstop run.
  assert (Hshape : exists adapter prints,
             run = (EvAdapterNew adapter :: (scan_block K ++ [EvAdapterStop]) ++ prints,
                    Done (Some (filter Locator.is_muse devices)))
             /\ Forall (fun e => is_print e = true) prints).
  { subst run. unfold Locator.list_muses. rewrite Hauto, Hres. cbn [answer].
    rewrite bind_ret.
    destruct Hb as [-> | [-> | ->]];
      cbn [String.eqb Ascii.eqb Bool.eqb andb]; cbv beta iota;
      rewrite bind_emit;
      match goal with
      | |- context [Locator.scan_adapter K H ?bk (Some ?a) ?hh] =>
          destruct (scan_adapter_success bk a devices hh Hstart Hscan Hstop)
            as [Hs [prints [Hf Hp]]];
          rewrite Hs, Hf; exists a, prints
      end;
      (split; [reflexivity | exact Hp]). }
  destruct Hshape as [adapter [prints [Hrun Hprints]]]. rewrite Hrun. cbn [fst snd].
  split; [reflexivity | split; [| split]].
  - intros d. rewrite filter_In, is_muse_iff. reflexivity.
  - exists adapter, prints. split; [reflexivity | exact Hprints].
  - change (EvAdapterNew adapter :: (scan_block K ++ [EvAdapterStop]) ++ prints)
      with ((EvAdapterNew adapter :: scan_block K ++ [EvAdapterStop]) ++ prints).
    rewrite count_app, (count_none is_devices_command prints).
    + reflexivity.
    + eapply Forall_impl; [| exact Hprints]. intros []; simpl; congruence.
Qed.

End ListingMore.

Section FallbackMore.

Variable K : Constants.
Variable H : Host.

(** The adapter path when its [try] block raises a BLE error after the
    events [blk]: 'gatt' hands over to bluetoothctl, the others re-raise. *)
Lemma scan_adapter_on_ble_error backend adapter blk h :
  (emit EvAdapterStart ;;
   check (adapter_start H) ;;
   print "Searching for Muses, this may take up to 10 seconds..." ;;
   emit (EvAdapterScan (LIST_SCAN_TIMEOUT K)) ;;
   devices <- answer (adapter_scan H) ;;
   emit EvAdapterStop ;;
   check (adapter_stop H) ;;
   ret (@inr (list Device) _ devices)) h
  = (blk, Raised BLEError) ->
  Locator.scan_adapter K H backend (Some adapter) h
  = if String.eqb backend "gatt"
    then
      let pre := blk ++ [EvPrint (Text pygatt_failed)] in
      let fb := Locator._list_muses_bluetoothctl H (LIST_SCAN_TIMEOUT K) (h ++ pre) in
      (pre ++ fst fb, handed_over (snd fb))
    else (blk, Raised BLEError).
Proof.
  intros Hblk. unfold Locator.scan_adapter. unfold bind at 1.
  rewrite (try_except_caught _ _ _ _ _ _ Hblk eq_refl).
  destruct (String.eqb backend "gatt").
  - unfold print, pygatt_failed. rewrite bind_emit. cbn [fst snd].
    rewrite <- app_assoc. rewrite bind_fst, bind_snd. cbn zeta.
    destruct (Locator._list_muses_bluetoothctl H (LIST_SCAN_TIMEOUT K)
                (h ++ blk ++ [EvPrint (Text "pygatt failed to scan for BLE devices. Trying with bluetoothctl.")]))
      as [es [muses | e |]]; cbn; rewrite ?app_nil_r;
      rewrite <- ?app_assoc; reflexivity.
  - cbn. rewrite ?app_nil_r. reflexivity.
Qed.

(** On the gatt backend a BLE error raised by [adapter.start()] or by
    [adapter.stop()] triggers the same hand-over to bluetoothctl as one raised
    by the scan: when start fails no scan is made, and when stop fails after a
    scan that succeeded, the scanned devices are discarded and the list of
    bluetoothctl is returned instead. *)
Theorem gatt_ble_error_around_scan_falls_back :
  forall backend interface h,
    String.eqb backend "auto" && which_bluetoothctl H = false ->
    resolve_backend H backend = inr "gatt" ->
    let run := Locator.list_muses K H backend interface h in
    let adapter := EvAdapterNew (GATTToolBackend
                                   (if truthy interface then str interface else "hci0")) in
    let handover pre :=
      let fb := Locator._list_muses_bluetoothctl H (LIST_SCAN_TIMEOUT K) (h ++ pre) in
      run = (pre ++ fst fb, handed_over (snd fb)) in
    (adapter_start H = Some BLEError ->
     handover [adapter; EvAdapterStart; EvPrint (Text pygatt_failed)])
    /\ (forall devices,
        adapter_start H = None ->
        adapter_scan H = inr devices ->
        adapter_stop H = Some BLEError ->
        handover (adapter :: scan_block K
                    ++ [EvAdapterStop; EvPrint (Text pygatt_failed)])).
Proof.
  intros backend interface h Hauto Hres run adapter handover.
  subst run handover adapter. cbv beta zeta.
  unfold Locator.list_muses. rewrite Hauto, Hres. cbn [answer].
  rewrite bind_ret, String.eqb_refl. cbv beta iota. rewrite bind_emit.
  split.
  - intros Hstart.
    rewrite (scan_adapter_on_ble_error "gatt" _ [EvAdapterStart]);
      [| unfold print; rewrite Hstart; reflexivity].
    rewrite String.eqb_refl. cbv zeta. cbn [fst snd app].
    rewrite <- app_assoc. reflexivity.
  - intros devices Hstart Hscan Hstop.
    rewrite (scan_adapter_on_ble_error "gatt" _ (scan_block K ++ [EvAdapterStop]));
      [| unfold print; rewrite Hstart, Hscan, Hstop; reflexivity].
    rewrite String.eqb_refl. cbv zeta. cbn [fst snd].
    rewrite <- !app_assoc. reflexivity.
Qed.

(** The adapter path when the scan call raises an error that is not a BLE
    error. *)
Lemma scan_adapter_other_error backend adapter e h :
  adapter_start H = None ->
  adapter_scan H = inl e ->
  is_BLEError e = false ->
  Locator.scan_adapter K H backend (Some adapter) h = (scan_block K, Raised e).
Proof.
  intros Hstart Hscan He. unfold Locator.scan_adapter.
  apply bind_raised.
  apply (try_except_uncaught _ _ _ _ _ _ (scan_block_fails K H e h Hstart Hscan) He).
Qed.

(** A scan failure that is not a BLE-layer error is not handled: on every
    adapter backend, 'gatt' included, it propagates to the caller and
    bluetoothctl is not run. *)
Theorem other_scan_error_propagates :
  forall backend interface b e h,
    String.eqb backend "auto" && which_bluetoothctl H = false ->
    resolve_backend H backend = inr b ->
    b = "gatt" \/ b = "bleak" \/ b = "bgapi" ->
    adapter_start H = None ->
    adapter_scan H = inl e ->
    is_BLEError e = false ->
    exists adapter,
      Locator.list_muses K H backend interface h
      = (EvAdapterNew adapter :: scan_block K, Raised e).
Proof.
  intros backend interface b e h Hauto Hres Hb Hstart Hscan He.
  unfold Locator.list_muses. rewrite Hauto, Hres. cbn [answer]. rewrite bind_ret.
  destruct Hb as [-> | [-> | ->]];
    cbn [String.eqb Ascii.eqb Bool.eqb andb]; cbv beta iota;
    rewrite bind_emit, (scan_adapter_other_error _ _ e) by assumption;
    eexists; reflexivity.
Qed.





(** The bridge-app backend has no list to return: discovery launches
    BlueMuse and returns None, so [find_muse] with a name fails with a
    TypeError on iterating over it, and without a name returns None. *)
Theorem find_muse_on_bridge_backend :
  forall backend name h,
    String.eqb backend "auto" && which_bluetoothctl H = false ->
    resolve_backend H backend = inr "bluemuse" ->
    Locator.list_muses K H backend None h
    = ([EvPrint (Text "Starting BlueMuse, see BlueMuse window for interactive list of devices.");
        EvSubprocess ["start bluemuse:"]],
       Done None)
    /\ snd (Locator.find_muse K H name backend h)
       = if truthy name then Raised TypeError else Done None.
Proof.
  intros backend name h Hauto Hres.
  assert (Hlist : Locator.list_muses K H backend None h
                  = ([EvPrint (Text "Starting BlueMuse, see BlueMuse window for interactive list of devices.");
                      EvSubprocess ["start bluemuse:"]],
                     Done None)).
  { unfold Locator.list_muses. rewrite Hauto, Hres. cbn [answer].
    rewrite bind_ret. reflexivity. }
  split; [exact Hlist |].
  unfold Locator.find_muse. rewrite bind_snd, Hlist. cbn [fst snd].
  destruct (truthy name); reflexivity.
Qed.

(** Without a name, be it None or the empty string, [find_muse] returns the
    first listed device, and None when nothing is listed or when discovery
    returned no list; it adds no event to those of discovery. *)
Theorem find_muse_without_name :
  forall backend name h,
    truthy name = false ->
    fst (Locator.find_muse K H name backend h)
    = fst (Locator.list_muses K H backend None h)
    /\ snd (Locator.find_muse K H name backend h)
       = match snd (Locator.list_muses K H backend None h) with
         | Done (Some muses) => Done (hd_error muses)
         | Done None => Done None
         | Raised e => Raised e
         | Pending => Pending
         end.
Proof.
  intros backend name h Hname. split.
  - unfold Locator.find_muse. rewrite bind_fst, Hname.
    destruct (snd (Locator.list_muses K H backend None h)) as [[[| m l] |] | e |];
      cbn; apply app_nil_r.
  - rewrite (find_muse_value K H name backend h), Hname.
    destruct (snd (Locator.list_muses K H backend None h)) as [[l |] | e |];
      reflexivity.
Qed.

(** [find_muse] with a name returns the first listed device of that name,
    skipping the devices listed before it, and returns None, not the first
    device, when no listed device has that name. *)
Theorem find_muse_by_name :
  forall backend name muses h,
    truthy name = true ->
    snd (Locator.list_muses K H backend None h) = Done (Some muses) ->
    (forall before m after,
        muses = before ++ m :: after ->
        dev_name m = name ->
        Forall (fun d => dev_name d <> name) before ->
        snd (Locator.find_muse K H name backend h) = Done (Some m))
    /\ ((forall d, In d muses -> dev_name d <> name) ->
        snd (Locator.find_muse K H name backend h) = Done None).
Proof.
  intros backend name muses h Hname Hlist.
  rewrite (find_muse_value K H name backend h), Hlist, Hname.
  split.
  - intros before m after -> Hm Hbefore. clear Hlist. f_equal.
    induction Hbefore as [| d before Hd _ IH]; simpl.
    + rewrite Hm. destruct name as [n |]; [| discriminate Hname].
      simpl. rewrite String.eqb_refl. reflexivity.
    + destruct (opt_string_eqb (dev_name d) name) eqn:Ed; [| exact IH].
      elim Hd. exact (opt_string_eqb_eq _ _ Ed).
  - intros Hno. rewrite (find_no_match name muses Hno). reflexivity.
Qed.

End FallbackMore.

(* ================================================================== *)
(** ** Session Controller: further properties *)

Lemma emits_weaken {A} (p q : Event -> bool) (m : Prog.t A) :
  (forall e, p e = true -> q e = true) -> emits p m -> emits q m.
Proof. intros Hpq Hm h. eapply Forall_impl; [exact Hpq | exact (Hm h)]. Qed.

Section OutletsMore.

Variable K : Constants.
Variable S : Session.

(** The channels opened for a request are those of its enabled modalities,
    once each, in the order EEG, PPG, ACC, GYRO; every one is named 'Muse',
    carries float32 samples and has the source id 'Muse' followed by the
    address.  A callback is bound for a modality exactly when it is enabled,
    and it pushes to the channel of that modality. *)
Theorem open_outlets_matches_request :
  forall address ppg_enabled acc_enabled gyro_enabled eeg_disabled h,
  exists opens callbacks,
    Controller.open_outlets K S address ppg_enabled acc_enabled gyro_enabled
      eeg_disabled h = (opens, Done callbacks)
    /\ map opened_modality opens
       = map Some (filter (enabled ppg_enabled acc_enabled gyro_enabled eeg_disabled)
                          [EEG; PPG; ACC; GYRO])
    /\ (forall m,
           callbacks m
           = if enabled ppg_enabled acc_enabled gyro_enabled eeg_disabled m
             then Some (mkOutlet m (outlet_raises S m))
             else None)
    /\ Forall (fun e => forall m info chunk,
                   e = EvOpenOutlet m info chunk ->
                   info_name info = "Muse"
                   /\ info_format info = "float32"
                   /\ info_source_id info = String.append "Muse" (str address))
              opens.
Proof.
  intros address ppg acc gyro eeg h.
  destruct ppg, acc, gyro, eeg; do 2 eexists;
    (split; [reflexivity |]);
    (split; [reflexivity |]);
    (split; [intros []; reflexivity |]);
    repeat (apply Forall_cons;
            [intros m info chunk [= <- <- <-]; repeat split |]);
    apply Forall_nil.
Qed.

End OutletsMore.

Section LoopMore.

Variable K : Constants.
Variable time : Trace -> Q.

Lemma deliveries_complete callbacks (ds : list Delivery) h :
  quiet_callbacks callbacks ->
  snd (for_each ds (Controller.deliver time callbacks) h) = Done tt
  /\ count is_backend_sleep (fst (for_each ds (Controller.deliver time callbacks) h)) = 0.
Proof.
  intros Hq. split.
  - assert (Hth : throws (fun _ => false)
                         (for_each ds (Controller.deliver time callbacks))).
    { apply throws_for_each. intros d. unfold Controller.deliver.
      destruct (callbacks (d_modality d)) as [outlet |] eqn:Ec.
      - apply fixed_push_contained. exact (Hq _ _ Ec).
      - apply throws_ret. }
    pose proof (settles_for_each ds (Controller.deliver time callbacks)
                  (deliver_settles time callbacks) h) as Hst.
    specialize (Hth h).
    destruct (snd (for_each ds (Controller.deliver time callbacks) h))
      as [[] | e |]; [reflexivity | specialize (Hth e eq_refl); discriminate
                      | congruence].
  - apply (emits_count _ (fun e => is_push e || is_print e)).
    + intros []; simpl; intros; first [reflexivity | discriminate].
    + apply emits_for_each. intros d. unfold Controller.deliver.
      destruct (callbacks (d_modality d)).
      * eapply emits_weaken; [| apply (fixed_push_emits time)].
        intros []; simpl; congruence.
      * apply emits_ret.
Qed.

(** A sleep without interrupt completes and is one sleep. *)
Lemma backends_sleep_completes callbacks secs tk h :
  quiet_callbacks callbacks ->
  interrupt tk = NoInterrupt ->
  snd (Controller.backends_sleep time callbacks secs tk h) = Done tt
  /\ count is_backend_sleep
       (fst (Controller.backends_sleep time callbacks secs tk h)) = 1.
Proof.
  intros Hq Hint. unfold Controller.backends_sleep. rewrite Hint.
  rewrite bind_emit. cbn [fst snd]. rewrite bind_fst, bind_snd.
  destruct (deliveries_complete callbacks (arrivals tk)
              (h ++ [EvBackendSleep secs]) Hq) as [Hs Hc].
  rewrite Hs. cbn [fst snd ret]. split; [reflexivity |].
  rewrite app_nil_r.
  change (EvBackendSleep secs
            :: fst (for_each (arrivals tk) (Controller.deliver time callbacks)
                      (h ++ [EvBackendSleep secs])))
    with ([EvBackendSleep secs]
            ++ fst (for_each (arrivals tk) (Controller.deliver time callbacks)
                      (h ++ [EvBackendSleep secs]))).
  rewrite count_app, Hc. reflexivity.
Qed.

(** The loop sleeps once per tick that does not stop it and ends at the
    first tick whose stop condition holds, reporting the stale link or the
    silent connection; what the environment would show after that tick is
    never looked at. *)
Theorem supervisor_stops_at_first_stopping_tick :
  forall callbacks start pre tk rest h,
    quiet_callbacks callbacks ->
    Forall (fun t => stops_loop K start t = false) pre ->
    stops_loop K start tk = true ->
    interrupt tk = NoInterrupt ->
    let run := Controller.supervise K time callbacks start (pre ++ tk :: rest) h in
    snd run = Done (stop_cause tk)
    /\ count is_backend_sleep (fst run) = List.length pre
    /\ run = Controller.supervise K time callbacks start (pre ++ [tk]) h.
Proof.
  intros callbacks start pre tk rest h Hq Hpre Hstop Hint.
  revert h. induction Hpre as [| t pre Ht Hpre IH]; intros h; cbn [app].
  - rewrite !supervise_cons. unfold stops_loop in Hstop. rewrite Hint in *.
    unfold stop_cause.
    destruct (last_timestamp tk) as [last |]; rewrite Hstop;
      (split; [reflexivity | split; reflexivity]).
  - rewrite !supervise_cons. unfold stops_loop in Ht.
    destruct (interrupt t) eqn:Hit; try discriminate.
    assert (Hbrk :
              match last_timestamp t with
              | Some last =>
                  if float_gt (PrimFloat.sub (now t) last) (AUTO_DISCONNECT_DELAY K)
                  then
                    emit (EvPrint (TextFloat "Auto-disconnect after "
                                           (AUTO_DISCONNECT_DELAY K)
                                           "s of no data")) ;;
                    ret (Some Stale)
                  else ret None
              | None =>
                  if float_gt (PrimFloat.sub (now t) start) 300%float
                  then print "Max streaming time reached" ;; ret (Some Silent)
                  else ret None
              end = ret None).
    { destruct (last_timestamp t); rewrite Ht; reflexivity. }
    rewrite Hbrk, !bind_ret.
    destruct (backends_sleep_completes callbacks (1 # 1) t h Hq Hit) as [Hs Hc].
    cbv zeta.
    rewrite (surjective_pairing (bind _ _ h)).
    rewrite (surjective_pairing
               (bind (Controller.backends_sleep time callbacks (1 # 1) t)
                     (fun _ => Controller.supervise K time callbacks start (pre ++ [tk]))
                     h)).
    rewrite !bind_fst, !bind_snd, Hs. cbn [fst snd].
    destruct (IH (h ++ fst (Controller.backends_sleep time callbacks (1 # 1) t h)))
      as [IHs [IHc IHr]].
    cbv zeta in IHs, IHc, IHr.
    split; [exact IHs | split].
    + rewrite count_app, Hc, IHc. reflexivity.
    + rewrite IHr. reflexivity.
Qed.

End LoopMore.

Section StreamMore.

Variable K : Constants.
Variable H : Host.
Variable S : Session.
Variable time : Trace -> Q.

Lemma supervised_loop_emits callbacks :
  emits is_after_connect (Controller.supervised_loop K S time callbacks).
Proof.
  unfold Controller.supervised_loop, print.
  apply emits_finally.
  - apply emits_try.
    + apply emits_bind; [| intros _; apply emits_ret].
      eapply emits_weaken; [| apply supervise_emits].
      intros []; simpl; congruence.
    + intros _. apply emits_emit. reflexivity.
  - repeat first
      [ apply emits_emit; reflexivity
      | apply emits_check
      | apply emits_bind; [| intros ?] ].
Qed.

(** [run_session] constructs the session, attempts the connection, and
    from then on only prints, starts, sleeps, pushes, stops and disconnects. *)
Lemma run_session_shape callbacks address backend interface name
      ppg_enabled acc_enabled gyro_enabled eeg_disabled preset disable_light
      lsl_time retries h :
  exists after,
    fst (Controller.run_session K S time callbacks address backend interface name
           ppg_enabled acc_enabled gyro_enabled eeg_disabled preset disable_light
           lsl_time retries h)
    = EvMuseNew
        (mkMuseArgs address
           (bound (callbacks EEG)) (bound (callbacks PPG))
           (bound (callbacks ACC)) (bound (callbacks GYRO))
           backend interface name (Some (preset, disable_light, lsl_time)))
        :: EvConnect retries :: after
    /\ Forall (fun e => is_after_connect e = true) after.
Proof.
  unfold Controller.run_session. rewrite !bind_emit. cbn [fst].
  eexists. split; [reflexivity |].
  match goal with
  | |- Forall _ (fst (?m ?hh)) =>
      generalize hh; change (emits is_after_connect m)
  end.
  unfold print. destruct (connect_result S).
  - repeat first
      [ apply emits_emit; reflexivity
      | apply supervised_loop_emits
      | apply emits_bind; [| intros ?] ].
  - apply emits_emit. reflexivity.
Qed.

(** The in-process path of [stream] after the address resolution, with the
    channels it opens. *)
Lemma stream_inprocess_outlets address backend interface name
      ppg_enabled acc_enabled gyro_enabled eeg_disabled preset disable_light
      lsl_time retries h es address' name' :
  eeg_disabled && negb ppg_enabled && negb acc_enabled && negb gyro_enabled = false ->
  String.eqb backend "bluemuse" = false ->
  Controller.resolve_target K H address backend name h
  = (es, Done (Some (address', name'))) ->
  exists opens callbacks,
    Controller.open_outlets K S address' ppg_enabled acc_enabled gyro_enabled
      eeg_disabled (h ++ es) = (opens, Done callbacks)
    /\ Forall (fun e => is_open e = true) opens
    /\ Controller.stream K H S time address backend interface name
         ppg_enabled acc_enabled gyro_enabled eeg_disabled
         preset disable_light lsl_time retries h
       = (es ++ opens
            ++ fst (Controller.run_session K S time callbacks address'
                      backend interface name' ppg_enabled acc_enabled
                      gyro_enabled eeg_disabled preset disable_light
                      lsl_time retries (h ++ es ++ opens)),
          snd (Controller.run_session K S time callbacks address'
                 backend interface name' ppg_enabled acc_enabled
                 gyro_enabled eeg_disabled preset disable_light
                 lsl_time retries (h ++ es ++ opens))).
Proof.
  intros Hen Hbackend E. unfold Controller.stream.
  rewrite Hen, Hbackend. cbn [negb].
  rewrite (bind_done _ _ _ _ _ E). cbv beta iota.
  destruct (open_outlets_run K S address' ppg_enabled acc_enabled gyro_enabled
              eeg_disabled (h ++ es)) as [opens [callbacks [Eo Ho]]].
  exists opens, callbacks. split; [exact Eo | split; [exact Ho |]].
  rewrite (bind_done _ _ _ _ _ Eo). cbn [fst snd].
  rewrite <- app_assoc. reflexivity.
Qed.

(** When no address is supplied and discovery finds a device, the channels
    are opened for the address of that device and the session is constructed
    with its address and its name, right before the one connection attempt. *)
Theorem stream_uses_discovered_device :
  forall address backend interface name ppg_enabled acc_enabled gyro_enabled
         eeg_disabled preset disable_light lsl_time retries h m,
    truthy address = false ->
    String.eqb backend "bluemuse" = false ->
    eeg_disabled && negb ppg_enabled && negb acc_enabled && negb gyro_enabled = false ->
    snd (Locator.find_muse K H name backend h) = Done (Some m) ->
    let found := fst (Locator.find_muse K H name backend h) in
    exists opens callbacks after,
      Controller.open_outlets K S (Some (dev_address m)) ppg_enabled acc_enabled
        gyro_enabled eeg_disabled (h ++ found) = (opens, Done callbacks)
      /\ fst (Controller.stream K H S time address backend interface name
                ppg_enabled acc_enabled gyro_enabled eeg_disabled
                preset disable_light lsl_time retries h)
         = found ++ opens
             ++ EvMuseNew
                  (mkMuseArgs (Some (dev_address m))
                     (bound (callbacks EEG)) (bound (callbacks PPG))
                     (bound (callbacks ACC)) (bound (callbacks GYRO))
                     backend interface (dev_name m)
                     (Some (preset, disable_light, lsl_time)))
             :: EvConnect retries :: after.
Proof.
  intros address backend interface name ppg acc gyro eeg preset dl lsl retries h m
         Ha Hbackend Hen Hfound found.
  pose proof (resolve_target_by_discovery K H address backend name h Ha) as Ht.
  rewrite Hfound in Ht. fold found in Ht.
  destruct (stream_inprocess_outlets address backend interface name ppg acc gyro
              eeg preset dl lsl retries h _ _ _ Hen Hbackend Ht)
    as [opens [callbacks [Eo [_ Hrun]]]].
  destruct (run_session_shape callbacks (Some (dev_address m)) backend interface
              (dev_name m) ppg acc gyro eeg preset dl lsl retries
              (h ++ found ++ opens)) as [after [Hs _]].
  exists opens, callbacks, after. split; [exact Eo |].
  rewrite Hrun. cbn [fst]. rewrite Hs. reflexivity.
Qed.

(** When discovery raises, for instance a BLE error on a backend without
    fallback, [stream] lets the error through at once: nothing follows the
    discovery events. *)
Theorem stream_discovery_error_propagates :
  forall address backend interface name ppg_enabled acc_enabled gyro_enabled
         eeg_disabled preset disable_light lsl_time retries h e,
    truthy address = false ->
    String.eqb backend "bluemuse" = false ->
    eeg_disabled && negb ppg_enabled && negb acc_enabled && negb gyro_enabled = false ->
    snd (Locator.find_muse K H name backend h) = Raised e ->
    Controller.stream K H S time address backend interface name
      ppg_enabled acc_enabled gyro_enabled eeg_disabled
      preset disable_light lsl_time retries h
    = (fst (Locator.find_muse K H name backend h), Raised e).
Proof.
  intros address backend interface name ppg acc gyro eeg preset dl lsl retries h e
         Ha Hbackend Hen Hfound.
  pose proof (stream_inprocess K H S time address backend interface name ppg acc
                gyro eeg preset dl lsl retries h Hen Hbackend) as Hrun.
  cbv zeta in Hrun.
  rewrite (resolve_target_by_discovery K H address backend name h Ha) in Hrun.
  cbn [fst snd] in Hrun. rewrite Hfound in Hrun. exact Hrun.
Qed.

Lemma count_after_connect p (l : Trace) :
  (forall e, is_after_connect e = true -> p e = false) ->
  Forall (fun e => is_after_connect e = true) l -> count p l = 0.
Proof.
  intros Hp Hl. apply count_none. eapply Forall_impl; [exact Hp | exact Hl].
Qed.

Lemma count_opens p (l : Trace) :
  (forall e, is_open e = true -> p e = false) ->
  Forall (fun e => is_open e = true) l -> count p l = 0.
Proof.
  intros Hp Hl. apply count_none. eapply Forall_impl; [exact Hp | exact Hl].
Qed.

Lemma count_discovery p (l : Trace) :
  (forall e, negb (is_session_call e) = true -> p e = false) ->
  Forall (fun e => negb (is_session_call e) = true) l -> count p l = 0.
Proof.
  intros Hp Hl. apply count_none. eapply Forall_impl; [exact Hp | exact Hl].
Qed.

(** One invocation of [stream] constructs at most one session and calls
    connect exactly once on the session it constructs: a failed attempt is
    not repeated by [stream] itself. *)
Theorem stream_constructs_at_most_one_session :
  forall address backend interface name ppg_enabled acc_enabled gyro_enabled
         eeg_disabled preset disable_light lsl_time retries h,
    let tr := fst (Controller.stream K H S time address backend interface name
                     ppg_enabled acc_enabled gyro_enabled eeg_disabled
                     preset disable_light lsl_time retries h) in
    count is_muse_new tr <= 1
    /\ count is_connect tr = count is_muse_new tr.
Proof.
  intros address backend interface name ppg acc gyro eeg preset dl lsl retries h tr.
  subst tr.
  destruct (eeg && negb ppg && negb acc && negb gyro) eqn:Hen.
  { unfold Controller.stream. rewrite Hen. split; [cbn; lia | reflexivity]. }
  destruct (String.eqb backend "bluemuse") eqn:Hbackend.
  { unfold Controller.stream, Controller.stream_bluemuse.
    rewrite Hen, Hbackend. cbn [negb].
    destruct (negb (truthy address) && negb (truthy name));
      split; cbn; first [lia | reflexivity]. }
  pose proof (stream_inprocess K H S time address backend interface name ppg acc
                gyro eeg preset dl lsl retries h Hen Hbackend) as Hrun.
  cbv zeta in Hrun.
  pose proof (resolve_target_emits K H address backend name h) as Hfound.
  assert (Hf : forall p,
             (forall e, negb (is_session_call e) = true -> p e = false) ->
             count p (fst (Controller.resolve_target K H address backend name h)) = 0).
  { intros p Hp. exact (count_discovery p _ Hp Hfound). }
  assert (Hnew : forall e, negb (is_session_call e) = true -> is_muse_new e = false)
    by (intros []; simpl; intros; first [reflexivity | discriminate]).
  assert (Hcon : forall e, negb (is_session_call e) = true -> is_connect e = false)
    by (intros []; simpl; intros; first [reflexivity | discriminate]).
  destruct (snd (Controller.resolve_target K H address backend name h))
    as [[[address' name'] |] | e |].
  2-4: rewrite Hrun; cbn [fst]; rewrite (Hf _ Hnew), (Hf _ Hcon); split; [lia | reflexivity].
  destruct Hrun as [opens [callbacks [Hopens Hrun]]]. rewrite Hrun. cbn [fst].
  destruct (run_session_shape callbacks address' backend interface name' ppg acc
              gyro eeg preset dl lsl retries
              (h ++ fst (Controller.resolve_target K H address backend name h)
                 ++ opens)) as [after [Hs Hafter]].
  rewrite Hs, !count_app, (Hf _ Hnew), (Hf _ Hcon).
  rewrite (count_opens is_muse_new opens), (count_opens is_connect opens);
    try assumption;
    try (intros []; simpl; intros; first [reflexivity | discriminate]).
  change (EvMuseNew ?a :: EvConnect retries :: after)
    with ([EvMuseNew a; EvConnect retries] ++ after).
  rewrite !count_app.
  rewrite (count_after_connect is_muse_new after),
    (count_after_connect is_connect after);
    try assumption;
    try (intros []; simpl; intros; first [reflexivity | discriminate]).
  split; cbn; first [lia | reflexivity].
Qed.

(** With an address supplied, the in-process path runs no discovery: it
    makes no call on an adapter and starts no subprocess. *)
Theorem stream_with_address_skips_discovery :
  forall address backend interface name ppg_enabled acc_enabled gyro_enabled
         eeg_disabled preset disable_light lsl_time retries h,
    truthy address = true ->
    String.eqb backend "bluemuse" = false ->
    count is_discovery_event
      (fst (Controller.stream K H S time address backend interface name
              ppg_enabled acc_enabled gyro_enabled eeg_disabled
              preset disable_light lsl_time retries h)) = 0.
Proof.
  intros address backend interface name ppg acc gyro eeg preset dl lsl retries h
         Ha Hbackend.
  destruct (eeg && negb ppg && negb acc && negb gyro) eqn:Hen.
  { unfold Controller.stream. rewrite Hen. reflexivity. }
  assert (Ht : Controller.resolve_target K H address backend name h
               = ([], Done (Some (address, name)))).
  { unfold Controller.resolve_target. rewrite Ha. reflexivity. }
  destruct (stream_inprocess_outlets address backend interface name ppg acc gyro
              eeg preset dl lsl retries h _ _ _ Hen Hbackend Ht)
    as [opens [callbacks [_ [Hopens Hrun]]]].
  rewrite Hrun. cbn [fst].
  destruct (run_session_shape callbacks address backend interface name ppg acc
              gyro eeg preset dl lsl retries (h ++ [] ++ opens))
    as [after [Hs Hafter]].
  rewrite Hs, app_nil_l, count_app, (count_opens is_discovery_event opens);
    try assumption;
    try (intros []; simpl; intros; first [reflexivity | discriminate]).
  change (EvMuseNew ?a :: EvConnect retries :: after)
    with ([EvMuseNew a; EvConnect retries] ++ after).
  rewrite count_app, (count_after_connect is_discovery_event after);
    try assumption;
    try (intros []; simpl; intros; first [reflexivity | discriminate]).
  reflexivity.
Qed.

End StreamMore.

(* ================================================================== *)
(** ** Examples for the further properties *)

Lemma sound_outlet_accepts : accepts sound_outlet.
Proof. intros h x t. reflexivity. Defined.

Lemma fixed_push_routes_list_witness :
  accepts sound_outlet
  /\ fst (Router.fixed_push fixed_clock two_samples (TsSeq [10 # 1]) sound_outlet [])
     = [EvPush EEG (SList [1 # 1; 2 # 1]) (Some (10 # 1));
        EvPush EEG (SList [3 # 1; 4 # 1]) None].
Proof.
  split; [exact sound_outlet_accepts |].
  destruct (fixed_push_routes_list fixed_clock [[1 # 1; 2 # 1]; [3 # 1; 4 # 1]]
              [10 # 1] sound_outlet [] sound_outlet_accepts) as [Hrun _].
  unfold two_samples. rewrite Hrun. reflexivity.
Defined.

Lemma fixed_push_single_sample_witness :
  accepts sound_outlet
  /\ Router.fixed_push fixed_clock (Nd1 [1 # 1; 2 # 1]) (TsSeq []) sound_outlet []
     = ([EvPush EEG (SList [1 # 1; 2 # 1]) None], Done tt)
  /\ Router.fixed_push fixed_clock (Scalar (7 # 1)) stamps_3 sound_outlet []
     = ([EvPush EEG (SObject (Scalar (7 # 1))) (Some (10 # 1))], Done tt).
Proof.
  split; [exact sound_outlet_accepts |].
  destruct (fixed_push_single_sample fixed_clock [] sound_outlet []
              sound_outlet_accepts) as [Harray _].
  destruct (fixed_push_single_sample fixed_clock [10 # 1; 11 # 1; 12 # 1]
              sound_outlet [] sound_outlet_accepts) as [_ Hscalar].
  exact (conj (Harray [1 # 1; 2 # 1]) (Hscalar (7 # 1))).
Defined.

Lemma fixed_push_empty_batch_witness :
  batch_size (Nd2 0 [[]; []]) = 0
  /\ Router.fixed_push fixed_clock (Nd2 0 [[]; []]) TsUnsized flaky_outlet []
     = ([], Done tt)
  /\ Router.fixed_push fixed_clock (PyList []) stamps_3 flaky_outlet []
     = ([], Done tt).
Proof.
  split; [reflexivity |].
  exact (conj
           (fixed_push_empty_batch fixed_clock (Nd2 0 [[]; []]) TsUnsized
              flaky_outlet [] eq_refl)
           (fixed_push_empty_batch fixed_clock (PyList []) stamps_3
              flaky_outlet [] eq_refl)).
Defined.

Lemma fixed_push_unsized_timestamps_witness :
  0 < batch_size batch_1x3
  /\ Router.fixed_push fixed_clock batch_1x3 TsUnsized flaky_outlet []
     = ([EvPrint (TextExc "Fixed push error: " TypeError)], Done tt).
Proof.
  assert (Hsize : 0 < batch_size batch_1x3) by (simpl; lia).
  exact (conj Hsize
           (fixed_push_unsized_timestamps fixed_clock batch_1x3 flaky_outlet []
              Hsize)).
Defined.

Lemma parse_line_device_entry_witness :
  Text.mac_here "00:55:DA:B0:0B:3D" = true
  /\ String.length "00:55:DA:B0:0B:3D" = 17
  /\ Text.starts_with "Muse" "Muse-0B3D" = true
  /\ Forall (fun c => Text.is_space c = false) (chars "Muse-0B3D")
  /\ Locator.parse_line "Device 00:55:DA:B0:0B:3D Muse-0B3D" = Some muse_0B3D.
Proof.
  assert (Hs : Forall (fun c => Text.is_space c = false) (chars "Muse-0B3D"))
    by (repeat constructor).
  do 3 (split; [reflexivity |]). split; [exact Hs |].
  exact (parse_line_device_entry "00:55:DA:B0:0B:3D" "Muse-0B3D"
           eq_refl eq_refl eq_refl Hs).
Defined.

Lemma auto_listing_bypasses_adapter_witness :
  which_bluetoothctl bluetoothctl_host = true
  /\ snd (Locator.list_muses demo_constants bluetoothctl_host "auto" None [])
     = Done (Some [muse_0B3D])
  /\ count is_adapter_event
       (fst (Locator.list_muses demo_constants bluetoothctl_host "auto" None [])) = 0.
Proof.
  split; [reflexivity | split; [reflexivity |]].
  exact (proj2 (auto_listing_bypasses_adapter demo_constants bluetoothctl_host
                  None [] eq_refl)).
Defined.

Lemma adapter_scan_returns_muses_witness :
  String.eqb "bleak" "auto" && which_bluetoothctl scanning_host = false
  /\ resolve_backend scanning_host "bleak" = inr "bleak"
  /\ adapter_start scanning_host = None
  /\ adapter_stop scanning_host = None
  /\ Locator.list_muses demo_constants scanning_host "bleak" None []
     = ([EvAdapterNew BleakBackend;
         EvAdapterStart;
         EvPrint (Text "Searching for Muses, this may take up to 10 seconds...");
         EvAdapterScan (21 # 2);
         EvAdapterStop;
         EvPrint (Text "Found device Muse-0B3D, MAC Address 00:55:DA:B0:0B:3D")],
        Done (Some [muse_0B3D])).
Proof.
  do 4 (split; [reflexivity |]).
  destruct (adapter_scan_returns_muses demo_constants scanning_host "bleak" None
              "bleak" _ [] eq_refl eq_refl (or_intror (or_introl eq_refl))
              eq_refl eq_refl eq_refl) as [Hrun _].
  apply injective_projections; [reflexivity | rewrite Hrun; reflexivity].
Defined.

Lemma gatt_ble_error_around_scan_falls_back_witness :
  String.eqb "gatt" "auto" && which_bluetoothctl stop_failing_host = false
  /\ resolve_backend stop_failing_host "gatt" = inr "gatt"
  /\ adapter_start start_failing_host = Some BLEError
  /\ adapter_stop stop_failing_host = Some BLEError
  /\ snd (Locator.list_muses demo_constants start_failing_host "gatt" None [])
     = Done (Some [muse_0B3D])
  /\ snd (Locator.list_muses demo_constants stop_failing_host "gatt" None [])
     = Done (Some [muse_0B3D]).
Proof.
  do 4 (split; [reflexivity |]).
  destruct (gatt_ble_error_around_scan_falls_back demo_constants start_failing_host
              "gatt" None [] eq_refl eq_refl) as [Hstart _].
  destruct (gatt_ble_error_around_scan_falls_back demo_constants stop_failing_host
              "gatt" None [] eq_refl eq_refl) as [_ Hstop].
  cbv zeta in Hstart, Hstop. split.
  - rewrite (Hstart eq_refl). reflexivity.
  - rewrite (Hstop _ eq_refl eq_refl eq_refl). reflexivity.
Defined.

Lemma other_scan_error_propagates_witness :
  String.eqb "gatt" "auto" && which_bluetoothctl crashing_host = false
  /\ resolve_backend crashing_host "gatt" = inr "gatt"
  /\ adapter_start crashing_host = None
  /\ adapter_scan crashing_host = inl OtherError
  /\ is_BLEError OtherError = false
  /\ snd (Locator.list_muses demo_constants crashing_host "gatt" None [])
     = Raised OtherError.
Proof.
  do 5 (split; [reflexivity |]).
  destruct (other_scan_error_propagates demo_constants crashing_host "gatt" None
              "gatt" OtherError [] eq_refl eq_refl (or_introl eq_refl)
              eq_refl eq_refl eq_refl) as [adapter Hrun].
  rewrite Hrun. reflexivity.
Defined.




Lemma find_muse_on_bridge_backend_witness :
  String.eqb "bluemuse" "auto" && which_bluetoothctl empty_host = false
  /\ resolve_backend empty_host "bluemuse" = inr "bluemuse"
  /\ snd (Locator.find_muse demo_constants empty_host (Some "Muse-0B3D")
            "bluemuse" []) = Raised TypeError
  /\ snd (Locator.find_muse demo_constants empty_host None "bluemuse" [])
     = Done None.
Proof.
  do 2 (split; [reflexivity |]).
  exact (conj
           (proj2 (find_muse_on_bridge_backend demo_constants empty_host
                     "bluemuse" (Some "Muse-0B3D") [] eq_refl eq_refl))
           (proj2 (find_muse_on_bridge_backend demo_constants empty_host
                     "bluemuse" None [] eq_refl eq_refl))).
Defined.

Lemma find_muse_without_name_witness :
  truthy (Some EmptyString) = false
  /\ snd (Locator.find_muse demo_constants twins_host (Some EmptyString) "bleak" [])
     = Done (Some muse_0B3D).
Proof.
  split; [reflexivity |].
  destruct (find_muse_without_name demo_constants twins_host "bleak"
              (Some EmptyString) [] eq_refl) as [_ Hvalue].
  rewrite Hvalue. reflexivity.
Defined.

Lemma find_muse_by_name_witness :
  truthy (Some "Muse-TWIN") = true
  /\ snd (Locator.list_muses demo_constants twins_host "bleak" None [])
     = Done (Some ([muse_0B3D] ++ twin_A :: [twin_B]))
  /\ dev_name twin_A = Some "Muse-TWIN"
  /\ Forall (fun d => dev_name d <> Some "Muse-TWIN") [muse_0B3D]
  /\ snd (Locator.find_muse demo_constants twins_host (Some "Muse-TWIN") "bleak" [])
     = Done (Some twin_A)
  /\ (forall d, In d ([muse_0B3D] ++ twin_A :: [twin_B]) -> dev_name d <> Some "Muse")
  /\ snd (Locator.find_muse demo_constants twins_host (Some "Muse") "bleak" [])
     = Done None.
Proof.
  assert (Hbefore : Forall (fun d => dev_name d <> Some "Muse-TWIN") [muse_0B3D]).
  { constructor; [discriminate | constructor]. }
  assert (Hno : forall d, In d ([muse_0B3D] ++ twin_A :: [twin_B]) ->
                          dev_name d <> Some "Muse").
  { intros d [<- | [<- | [<- | []]]]; discriminate. }
  destruct (find_muse_by_name demo_constants twins_host "bleak" (Some "Muse-TWIN")
              ([muse_0B3D] ++ twin_A :: [twin_B]) [] eq_refl eq_refl)
    as [Hfound _].
  destruct (find_muse_by_name demo_constants twins_host "bleak" (Some "Muse")
              ([muse_0B3D] ++ twin_A :: [twin_B]) [] eq_refl eq_refl)
    as [_ Hnone].
  split; [reflexivity | split; [reflexivity | split; [reflexivity |]]].
  split; [exact Hbefore |].
  split; [exact (Hfound [muse_0B3D] twin_A [twin_B] eq_refl eq_refl Hbefore) |].
  split; [exact Hno | exact (Hnone Hno)].
Defined.

Lemma no_callbacks_quiet : quiet_callbacks no_callbacks.
Proof. intros m outlet Hm. discriminate Hm. Defined.

Lemma supervisor_stops_at_first_stopping_tick_witness :
  quiet_callbacks no_callbacks
  /\ Forall (fun t => stops_loop demo_constants 0%float t = false) [fresh_tick; fresh_tick]
  /\ stops_loop demo_constants 0%float stale_tick = true
  /\ interrupt stale_tick = NoInterrupt
  /\ snd (Controller.supervise demo_constants fixed_clock no_callbacks 0
            ([fresh_tick; fresh_tick] ++ stale_tick :: [silent_tick]) [])
     = Done Stale
  /\ count is_backend_sleep
       (fst (Controller.supervise demo_constants fixed_clock no_callbacks 0
               ([fresh_tick; fresh_tick] ++ stale_tick :: [silent_tick]) [])) = 2.
Proof.
  assert (Hpre : Forall (fun t => stops_loop demo_constants 0%float t = false)
                        [fresh_tick; fresh_tick]) by (repeat constructor).
  split; [exact no_callbacks_quiet | split; [exact Hpre |]].
  split; [reflexivity | split; [reflexivity |]].
  destruct (supervisor_stops_at_first_stopping_tick demo_constants fixed_clock
              no_callbacks 0 [fresh_tick; fresh_tick] stale_tick [silent_tick] []
              no_callbacks_quiet Hpre eq_refl eq_refl) as [Hout [Hsleeps _]].
  exact (conj Hout Hsleeps).
Defined.

Lemma stream_uses_discovered_device_witness :
  truthy None = false
  /\ String.eqb "bleak" "bluemuse" = false
  /\ false && negb false && negb false && negb false = false
  /\ snd (Locator.find_muse demo_constants scanning_host None "bleak" [])
     = Done (Some muse_0B3D)
  /\ exists before args after,
      fst (Controller.stream demo_constants scanning_host (demo_session false [])
             fixed_clock None "bleak" None None false false false false
             None false false 1 [])
      = before ++ EvMuseNew args :: EvConnect 1 :: after
      /\ m_address args = Some "00:55:DA:B0:0B:3D"
      /\ m_name args = Some "Muse-0B3D".
Proof.
  do 4 (split; [reflexivity |]).
  destruct (stream_uses_discovered_device demo_constants scanning_host
              (demo_session false []) fixed_clock None "bleak" None None
              false false false false None false false 1 [] muse_0B3D
              eq_refl eq_refl eq_refl eq_refl)
    as [opens [callbacks [after [_ Hrun]]]].
  cbv zeta in Hrun.
  exists (fst (Locator.find_muse demo_constants scanning_host None "bleak" [])
            ++ opens).
  eexists. exists after.
  split; [rewrite Hrun; apply app_assoc | split; reflexivity].
Defined.

Lemma stream_discovery_error_propagates_witness :
  truthy None = false
  /\ String.eqb "bleak" "bluemuse" = false
  /\ false && negb false && negb false && negb false = false
  /\ snd (Locator.find_muse demo_constants ble_failing_host None "bleak" [])
     = Raised BLEError
  /\ snd (Controller.stream demo_constants ble_failing_host (demo_session true [])
            fixed_clock None "bleak" None None false false false false
            None false false 1 []) = Raised BLEError.
Proof.
  do 4 (split; [reflexivity |]).
  rewrite (stream_discovery_error_propagates demo_constants ble_failing_host
             (demo_session true []) fixed_clock None "bleak" None None
             false false false false None false false 1 [] BLEError
             eq_refl eq_refl eq_refl eq_refl).
  reflexivity.
Defined.

Lemma stream_with_address_skips_discovery_witness :
  truthy demo_address = true
  /\ String.eqb "bleak" "bluemuse" = false
  /\ count is_discovery_event (fst stale_run) = 0.
Proof.
  do 2 (split; [reflexivity |]).
  exact (stream_with_address_skips_discovery demo_constants empty_host
           (demo_session true [stale_tick]) fixed_clock demo_address "bleak"
           None None false false false false None false false 1 []
           eq_refl eq_refl).
Defined.
